(** * Vacia: pointer-interaction state machine and geometry utilities

    A shallow embedding of the geometry helpers ([core/utils]), the ellipse
    hit test ([EllipseHandler]) and the pointer handlers of [App], together
    with the properties the specification states about them.

    Numbers.  A JavaScript [number] is modelled as an exact real extended
    with the three IEEE-754 special values [Infinity], [-Infinity] and
    [NaN].  The special values follow the IEEE rules the code relies on
    (division by zero, [Number.isFinite], comparisons with [NaN]); rounding,
    overflow and the sign of zero are not part of the model. *)

From Stdlib Require Import Reals Lra Lia ZArith.
From stdpp Require Import gmap strings list fin_maps.

#[local] Open Scope R_scope.

(** ** Decidable comparisons on the reals *)

#[global] Instance Rlt_decision : RelDecision Rlt := Rlt_dec.
#[global] Instance Rle_decision : RelDecision Rle := Rle_dec.
#[global] Instance Req_decision : EqDecision R := Req_dec_T.

(** ** JavaScript numbers *)

Inductive number : Type :=
  | Fin (r : R)
  | PInf
  | NInf
  | NaN.

Declare Scope num_scope.
Delimit Scope num_scope with num.
Bind Scope num_scope with number.

Module Num.

(** [Number.isFinite] *)
Definition isFinite (a : number) : bool :=
  match a with Fin _ => true | _ => false end.

(** unary minus *)
Definition neg (a : number) : number :=
  match a with
  | Fin r => Fin (- r)
  | PInf => NInf
  | NInf => PInf
  | NaN => NaN
  end.

Definition add (a b : number) : number :=
  match a, b with
  | NaN, _ | _, NaN => NaN
  | Fin r, Fin s => Fin (r + s)
  | PInf, NInf | NInf, PInf => NaN
  | PInf, _ | _, PInf => PInf
  | NInf, _ | _, NInf => NInf
  end.

Definition sub (a b : number) : number := add a (neg b).

(** sign of a real as the factor an infinity is multiplied with;
    [None] for zero *)
Definition sgn (r : R) : option bool :=
  if decide (r = 0) then None else Some (bool_decide (0 < r)).

Definition inf (positive : bool) : number :=
  if positive then PInf else NInf.

Definition mul (a b : number) : number :=
  match a, b with
  | NaN, _ | _, NaN => NaN
  | Fin r, Fin s => Fin (r * s)
  | Fin r, PInf | PInf, Fin r =>
      match sgn r with Some p => inf p | None => NaN end
  | Fin r, NInf | NInf, Fin r =>
      match sgn r with Some p => inf (negb p) | None => NaN end
  | PInf, PInf | NInf, NInf => PInf
  | PInf, NInf | NInf, PInf => NInf
  end.

(** Division: a finite non-zero dividend over zero is an infinity of the
    dividend's sign, zero over zero is [NaN]. *)
Definition div (a b : number) : number :=
  match a, b with
  | NaN, _ | _, NaN => NaN
  | Fin r, Fin s =>
      if decide (s = 0)
      then match sgn r with Some p => inf p | None => NaN end
      else Fin (r / s)
  | Fin _, (PInf | NInf) => Fin 0
  | PInf, Fin s => inf (bool_decide (0 <= s))
  | NInf, Fin s => inf (negb (bool_decide (0 <= s)))
  | (PInf | NInf), (PInf | NInf) => NaN
  end.

(** [a ** 2] *)
Definition sq (a : number) : number :=
  match a with
  | Fin r => Fin (r * r)
  | PInf | NInf => PInf
  | NaN => NaN
  end.

(** [a < b], [a <= b], [a === b]: every comparison with [NaN] is false *)
Definition ltb (a b : number) : bool :=
  match a, b with
  | NaN, _ | _, NaN => false
  | Fin r, Fin s => bool_decide (r < s)
  | NInf, (Fin _ | PInf) => true
  | Fin _, PInf => true
  | _, _ => false
  end.

Definition leb (a b : number) : bool :=
  match a, b with
  | NaN, _ | _, NaN => false
  | Fin r, Fin s => bool_decide (r <= s)
  | NInf, _ => true
  | _, PInf => true
  | _, _ => false
  end.

Definition eqb (a b : number) : bool :=
  match a, b with
  | Fin r, Fin s => bool_decide (r = s)
  | PInf, PInf | NInf, NInf => true
  | _, _ => false
  end.

(** [a !== b] *)
Definition neqb (a b : number) : bool := negb (eqb a b).

(** truthiness of a number: [0] and [NaN] are falsy *)
Definition truthy (a : number) : bool :=
  match a with
  | Fin r => negb (bool_decide (r = 0))
  | PInf | NInf => true
  | NaN => false
  end.

(** [a || b] on numbers *)
Definition or (a b : number) : number := if truthy a then a else b.

(** [Math.min] and [Math.max] of two arguments: [NaN] if either is *)
Definition min (a b : number) : number :=
  match a, b with
  | NaN, _ | _, NaN => NaN
  | _, _ => if leb a b then a else b
  end.

Definition max (a b : number) : number :=
  match a, b with
  | NaN, _ | _, NaN => NaN
  | _, _ => if leb a b then b else a
  end.

(** the variadic forms, [Math.min(a, b1, ..., bn)] *)
Definition minl (a : number) (bs : list number) : number := foldl min a bs.
Definition maxl (a : number) (bs : list number) : number := foldl max a bs.

(** [Math.cos], [Math.sin]: [NaN] outside the finite numbers *)
Definition cos (a : number) : number :=
  match a with Fin r => Fin (Rtrigo_def.cos r) | _ => NaN end.
Definition sin (a : number) : number :=
  match a with Fin r => Fin (Rtrigo_def.sin r) | _ => NaN end.

(** [Math.PI] *)
Definition PI : number := Fin Rtrigo1.PI.

(** [Math.round]: the nearest integer, a tie going up *)
Definition round (a : number) : number :=
  match a with
  | Fin r => Fin (IZR (Zfloor (r + / 2)))
  | _ => a
  end.

(** [+a.toFixed(digits)]: the nearest multiple of [10 ^ -digits], a tie
    going away from zero ([toFixed] strips the sign first); the non-finite
    values print and parse back as themselves. *)
Definition roundHalfAway (r : R) : R :=
  if decide (r < 0) then - IZR (Zfloor (- r + / 2)) else IZR (Zfloor (r + / 2)).

Definition toFixed (digits : nat) (a : number) : number :=
  match a with
  | Fin r => Fin (roundHalfAway (r * 10 ^ digits) / 10 ^ digits)
  | _ => a
  end.

End Num.

Notation "a + b" := (Num.add a b) : num_scope.
Notation "a - b" := (Num.sub a b) : num_scope.
Notation "a * b" := (Num.mul a b) : num_scope.
Notation "a / b" := (Num.div a b) : num_scope.
Notation "- a" := (Num.neg a) : num_scope.
Notation "a <? b" := (Num.ltb a b) : num_scope.
Notation "a <=? b" := (Num.leb a b) : num_scope.

(** ** Plain data of [core/types] *)

Module XYCoords.
Record t : Type := mk { x : number; y : number }.
End XYCoords.

Module BoundingBox.
Record t : Type := mk { x : number; y : number; w : number; h : number }.
End BoundingBox.

Module RotatedBoundingBox.
Record t : Type :=
  mk { x : number; y : number; w : number; h : number; rotate : number }.

Definition isFinite (b : t) : bool :=
  Num.isFinite (x b) && Num.isFinite (y b) && Num.isFinite (w b)
  && Num.isFinite (h b) && Num.isFinite (rotate b).
End RotatedBoundingBox.

(** a path point [[x, y]] *)
Definition Point : Type := (number * number)%type.

(** ** [core/utils] *)

Module Utils.
#[local] Open Scope num_scope.

Record InvertedBox : Type :=
  mkInverted { box : BoundingBox.t; didFlipX : bool; didFlipY : bool }.

(** [invertNegativeBoundingBox]: the two [if] blocks update [x, w] and
    [y, h] in turn. *)
Definition invertNegativeBoundingBox (b : BoundingBox.t) : InvertedBox :=
  let x := BoundingBox.x b in
  let y := BoundingBox.y b in
  let w := BoundingBox.w b in
  let h := BoundingBox.h b in
  let '(x, w, didFlipX) :=
    if BoundingBox.w b <? Fin 0
    then (let w' := w * Fin (-1) in (x - w', w', true))
    else (x, w, false) in
  let '(y, h, didFlipY) :=
    if BoundingBox.h b <? Fin 0
    then (let h' := h * Fin (-1) in (y - h', h', true))
    else (y, h, false) in
  {| box := BoundingBox.mk x y w h; didFlipX := didFlipX; didFlipY := didFlipY |}.

Definition rotatePointAroundAnchor (x1 y1 x2 y2 angle : number) : XYCoords.t :=
  {| XYCoords.x := Num.cos angle * (x1 - x2) - Num.sin angle * (y1 - y2) + x2;
     XYCoords.y := Num.sin angle * (x1 - x2) + Num.cos angle * (y1 - y2) + y2 |}.

(** The four corners [nw, ne, sw, se] of [getRotatedBoxCoords]. *)
Record Corners : Type :=
  mkCorners { nw : XYCoords.t; ne : XYCoords.t; sw : XYCoords.t; se : XYCoords.t }.

Definition getRotatedBoxCoords (b : RotatedBoundingBox.t) : Corners :=
  let x1 := RotatedBoundingBox.x b in
  let x2 := x1 + RotatedBoundingBox.w b in
  let y1 := RotatedBoundingBox.y b in
  let y2 := y1 + RotatedBoundingBox.h b in
  let cx := (x1 + x2) / Fin 2 in
  let cy := (y1 + y2) / Fin 2 in
  let rotate := RotatedBoundingBox.rotate b in
  {| nw := rotatePointAroundAnchor x1 y1 cx cy rotate;
     ne := rotatePointAroundAnchor x2 y1 cx cy rotate;
     sw := rotatePointAroundAnchor x1 y2 cx cy rotate;
     se := rotatePointAroundAnchor x2 y2 cx cy rotate |}.

(** the array the function returns, in its order *)
Definition cornerList (c : Corners) : list XYCoords.t := [nw c; ne c; sw c; se c].

(** The running extremes [x1, y1, x2, y2] of the loop. *)
Record Extent : Type :=
  mkExtent { ex1 : number; ey1 : number; ex2 : number; ey2 : number }.

(** the arguments [nw.x, ne.x, se.x, sw.x] and [nw.y, ne.y, se.y, sw.y]
    that follow the running extreme in the four calls *)
Definition cornerXs (c : Corners) : list number :=
  [XYCoords.x (nw c); XYCoords.x (ne c); XYCoords.x (se c); XYCoords.x (sw c)].
Definition cornerYs (c : Corners) : list number :=
  [XYCoords.y (nw c); XYCoords.y (ne c); XYCoords.y (se c); XYCoords.y (sw c)].

(** one iteration of the [for] loop of [getSurroundingBoundingBox] *)
Definition surroundStep (acc : Extent) (b : RotatedBoundingBox.t) : Extent :=
  let c := getRotatedBoxCoords b in
  {| ex1 := Num.minl (ex1 acc) (cornerXs c);
     ey1 := Num.minl (ey1 acc) (cornerYs c);
     ex2 := Num.maxl (ex2 acc) (cornerXs c);
     ey2 := Num.maxl (ey2 acc) (cornerYs c) |}.

Definition getSurroundingBoundingBox (boxes : list RotatedBoundingBox.t)
    : RotatedBoundingBox.t :=
  match boxes with
  | [] => RotatedBoundingBox.mk (Fin 0) (Fin 0) (Fin 0) (Fin 0) (Fin 0)
  | [b] =>
      RotatedBoundingBox.mk (RotatedBoundingBox.x b) (RotatedBoundingBox.y b)
        (RotatedBoundingBox.w b) (RotatedBoundingBox.h b)
        (RotatedBoundingBox.rotate b)
  | _ =>
      let e := foldl surroundStep (mkExtent PInf PInf NInf NInf) boxes in
      RotatedBoundingBox.mk (ex1 e) (ey1 e) (ex2 e - ex1 e) (ey2 e - ey1 e) (Fin 0)
  end.

(** *** Objects as finite maps

    [assignWithoutUndefined] works on arbitrary objects: an object is a
    finite map from property names to values, and a property may be
    present with the value [undefined]. *)
Inductive value : Type :=
  | VUndefined
  | VNull
  | VBool (b : bool)
  | VNum (n : number)
  | VStr (s : string)
  | VPath (p : list Point).

Definition isUndefined (v : value) : bool :=
  match v with VUndefined => true | _ => false end.

(** The loop runs over [Object.keys(source)]; every such key is an own
    property, so [Object.hasOwn] holds and the guard is the test on the
    value.  The keys are distinct, so the order of the visit does not
    show in the result. *)
Definition assignWithoutUndefined (target source : gmap string value)
    : gmap string value :=
  map_fold
    (fun key v tgt => if isUndefined v then tgt else <[key := v]> tgt)
    target source.

End Utils.

(** ** [EllipseHandler.hitTest] *)

Module EllipseHandler.
#[local] Open Scope num_scope.

(** The fields of an [EllipseElement] the hit test reads. *)
Definition EllipseElement : Type := RotatedBoundingBox.t.

(** Modelled from the spec: [rotatePoint] is imported from [core/utils],
    whose file at hand exports the same function under the name
    [rotatePointAroundAnchor] (the standard rotation about a pivot). *)
Definition rotatePoint := Utils.rotatePointAroundAnchor.

Definition hitTest (element : EllipseElement) (coords : XYCoords.t) : bool :=
  let x := RotatedBoundingBox.x element in
  let y := RotatedBoundingBox.y element in
  let w := RotatedBoundingBox.w element in
  let h := RotatedBoundingBox.h element in
  let rotate := RotatedBoundingBox.rotate element in
  let rX := w / Fin 2 in
  let rY := h / Fin 2 in
  let cX := x + w / Fin 2 in
  let cY := y + h / Fin 2 in
  let rotatedCoords :=
    rotatePoint (XYCoords.x coords) (XYCoords.y coords) cX cY (- rotate) in
  let value :=
    Num.sq (XYCoords.x rotatedCoords - cX) / Num.sq rX
    + Num.sq (XYCoords.y rotatedCoords - cY) / Num.sq rY in
  value <=? Fin 1.

End EllipseHandler.


(** ** Constants ([constants.ts]) *)

Module Constants.
#[local] Open Scope num_scope.

(** [ELEMENT_PRECISION]: decimal places of stored positions *)
Definition ELEMENT_PRECISION : nat := 2.

(** [ROTATION_SNAP_THRESHOLD = Math.PI / 12] *)
Definition ROTATION_SNAP_THRESHOLD : number := Num.PI / Fin 12.

(** [DEFAULT_ELEMENT_TRANSFORMS] and [DEFAULT_ELEMENT_STYLES] *)
Definition DEFAULT_ROTATE : number := Fin 0.
Definition DEFAULT_FLIPPED : bool := false.
Definition DEFAULT_FILL : string := "#ffffffff".

End Constants.

(** ** Elements and application state ([core/types]) *)

Inductive Shape : Type := rect | ellipse.

(** The variant part of a [CanvasElement], keyed by its [type] tag. *)
Inductive ElementData : Type :=
  | shape (s : Shape)
  | freedraw (path : list Point)
  | text (content : string).

Module Element.
Record t : Type := mk {
  x : number; y : number; w : number; h : number;
  rotate : number; flippedX : bool; flippedY : bool;
  fill : string;
  data : ElementData
}.

Definition isText (e : t) : bool :=
  match data e with text _ => true | _ => false end.

Definition isFreedraw (e : t) : bool :=
  match data e with freedraw _ => true | _ => false end.

(** the first point of the path of a freedraw element *)
Definition firstPoint (e : t) : option Point :=
  match data e with freedraw path => head path | _ => None end.

(** an element read as the [RotatedBoundingBox] it extends *)
Definition toBox (e : t) : RotatedBoundingBox.t :=
  RotatedBoundingBox.mk (x e) (y e) (w e) (h e) (rotate e).
End Element.

(** [CanvasElementMutations]: a partial element; [None] is a field that is
    absent or [undefined]. *)
Module Mutations.
Record t : Type := mk {
  x : option number; y : option number; w : option number; h : option number;
  rotate : option number; flippedX : option bool; flippedY : option bool;
  fill : option string;
  path : option (list Point);
  text : option string
}.

Definition empty : t := mk None None None None None None None None None None.

Definition setPath (p : list Point) (m : t) : t :=
  mk (x m) (y m) (w m) (h m) (rotate m) (flippedX m) (flippedY m) (fill m)
     (Some p) (text m).
End Mutations.

Inductive ToolLabel : Type := Hand | Selection | Ellipse | Rectangle | Freedraw | Text.

Inductive USERMODE : Type := IDLE | CREATING | DRAGGING | RESIZING | ROTATING.

Inductive HandleType : Type :=
  | rotateHandle
  | resizeHandle (corner : nat).

Record TransformHandle : Type :=
  mkHandle { handleType : HandleType; handleX : number; handleY : number }.

Record Grid : Type := mkGrid { gridSize : number; gridSnap : bool }.

Module AppState.
Record t : Type := mk {
  zoom : number;
  scrollOffset : XYCoords.t;
  activeTool : ToolLabel;
  grid : Grid;
  usermode : USERMODE;
  selectionHighlight : option BoundingBox.t
}.

(** the partial updates the handlers pass to [setState] *)
Definition setUsermode (m : USERMODE) (s : t) : t :=
  mk (zoom s) (scrollOffset s) (activeTool s) (grid s) m (selectionHighlight s).
Definition setSelectionHighlight (b : option BoundingBox.t) (s : t) : t :=
  mk (zoom s) (scrollOffset s) (activeTool s) (grid s) (usermode s) b.
Definition setScrollOffset (o : XYCoords.t) (s : t) : t :=
  mk (zoom s) o (activeTool s) (grid s) (usermode s) (selectionHighlight s).
End AppState.

(** An element object is known by its identity: a key of the object store
    below.  Every place of the code that holds an element holds such a
    reference, so a mutation is seen through all of them. *)
Abbreviation ref := nat.
Abbreviation Objects := (gmap nat Element.t).

Record Drag : Type :=
  mkDrag { occurred : bool; offset : XYCoords.t; previousOffset : XYCoords.t }.

Record Hit : Type :=
  mkHit { hitElement : option ref; hitTransformHandle : option TransformHandle }.

Module PointerState.
Record t : Type := mk {
  origin : XYCoords.t;
  drag : Drag;
  shiftKey : bool;
  ctrlKey : bool;
  hit : Hit
}.
Definition setDrag (d : Drag) (p : t) : t :=
  mk (origin p) d (shiftKey p) (ctrlKey p) (hit p).
Definition setHit (h : Hit) (p : t) : t :=
  mk (origin p) (drag p) (shiftKey p) (ctrlKey p) h.
End PointerState.

(** the fields of a DOM [PointerEvent] the handlers read *)
Module PointerEvent.
Record t : Type := mk {
  clientX : number; clientY : number;
  ctrlKey : bool; shiftKey : bool;
  buttons : nat
}.
End PointerEvent.

Record TransformingElement : Type :=
  mkTransforming { element : ref; initialElement : Element.t }.

(** ** Element layer ([core/elementLayer]) *)

Module ElementLayer.

(** Modelled from the spec: the scene store is not among the sources.  It
    keeps the elements in paint order and the selection in the order the
    elements were selected. *)
Record t : Type := mk { elements : list ref; selected : list ref }.

(** Modelled from the spec: [addElement] appends to the ordered collection. *)
Definition addElement (r : ref) (l : t) : t := mk (elements l ++ [r]) (selected l).

(** Modelled from the spec: [deleteElement] removes the element from the
    ordered collection. *)
Definition deleteElement (r : ref) (l : t) : t :=
  mk (filter (fun r' => r' <> r) (elements l)) (selected l).

(** Modelled from the spec: [selectElements] adds the elements not yet
    selected, [unselectAllElements] empties the selection. *)
Definition selectElements (rs : list ref) (l : t) : t :=
  mk (elements l) (selected l ++ filter (fun r => r ∉ selected l) rs).
Definition unselectAllElements (l : t) : t := mk (elements l) [].

(** Modelled from the spec: both getters answer in scene order. *)
Definition getAllElements (l : t) : list ref := elements l.
Definition getSelectedElements (l : t) : list ref :=
  filter (fun r => r ∈ selected l) (elements l).

(** Modelled from the spec: [mutateElement] assigns the fields of the patch
    that are not [undefined] to the element object, in place (the work of
    [assignWithoutUndefined]).  A [path] or [text] of the patch lands in the
    variant that has the field. *)
Definition applyMutations (m : Mutations.t) (e : Element.t) : Element.t :=
  Element.mk
    (default (Element.x e) (Mutations.x m))
    (default (Element.y e) (Mutations.y m))
    (default (Element.w e) (Mutations.w m))
    (default (Element.h e) (Mutations.h m))
    (default (Element.rotate e) (Mutations.rotate m))
    (default (Element.flippedX e) (Mutations.flippedX m))
    (default (Element.flippedY e) (Mutations.flippedY m))
    (default (Element.fill e) (Mutations.fill m))
    (match Element.data e with
     | shape s => shape s
     | freedraw p => freedraw (default p (Mutations.path m))
     | text c => text (default c (Mutations.text m))
     end).

Definition mutateElement (r : ref) (m : Mutations.t) (objs : Objects) : Objects :=
  alter (applyMutations m) r objs.

End ElementLayer.

(** ** Viewport ([core/viewport]) *)

Module Viewport.
#[local] Open Scope num_scope.

(** Modelled from the spec: [virtual = (screen - panOffset) / zoom]. *)
Definition screenOffsetToVirtualOffset (p : XYCoords.t) (s : AppState.t) : XYCoords.t :=
  {| XYCoords.x := (XYCoords.x p - XYCoords.x (AppState.scrollOffset s)) / AppState.zoom s;
     XYCoords.y := (XYCoords.y p - XYCoords.y (AppState.scrollOffset s)) / AppState.zoom s |}.

(** Modelled from the spec: each coordinate is rounded to the nearest
    multiple of the grid size; the point is returned as it is when grid
    snapping is disabled. *)
Definition snapVirtualCoordsToGrid (p : XYCoords.t) (s : AppState.t) : XYCoords.t :=
  if gridSnap (AppState.grid s)
  then
    let size := gridSize (AppState.grid s) in
    {| XYCoords.x := Num.round (XYCoords.x p / size) * size;
       XYCoords.y := Num.round (XYCoords.y p / size) * size |}
  else p.

End Viewport.

(** ** Element factories and transform helpers *)

Module Elements.
#[local] Open Scope num_scope.

(** Modelled from the spec: the factories of [core/elements] lay the given
    box over the default transforms and styles of [constants.ts]. *)
Definition createElement (b : BoundingBox.t) (d : ElementData) : Element.t :=
  Element.mk (BoundingBox.x b) (BoundingBox.y b) (BoundingBox.w b) (BoundingBox.h b)
    Constants.DEFAULT_ROTATE Constants.DEFAULT_FLIPPED Constants.DEFAULT_FLIPPED
    Constants.DEFAULT_FILL d.

Definition createShapeElement (s : Shape) (b : BoundingBox.t) : Element.t :=
  createElement b (shape s).
Definition createFreedrawElement (path : list Point) (b : BoundingBox.t) : Element.t :=
  createElement b (freedraw path).
Definition createTextElement (content : string) (b : BoundingBox.t) : Element.t :=
  createElement b (text content).

(** Modelled from the spec: [rescalePath] scales every point by the
    per-axis factor about the given origin. *)
Definition rescalePath (path : list Point) (scaleX scaleY originX originY : number)
    : list Point :=
  map (fun pt : Point =>
         (originX + (pt.1 - originX) * scaleX, originY + (pt.2 - originY) * scaleY))
      path.

(** Modelled from the spec: a transforming element pairs the live element
    with a snapshot of its geometry taken at pointer-down. *)
Definition createTransformingElements (objs : Objects) (rs : list ref)
    : list TransformingElement :=
  omap (fun r => mkTransforming r <$> objs !! r) rs.

End Elements.

(** The helpers of [core/elements] and [core/hitTest] that the handlers
    call and whose code is not among the sources.  The handlers are stated
    over any implementation of them. *)
Record Collaborators : Type := mkCollaborators {
  isElementNegligible : Element.t -> AppState.t -> bool;
  getRotateAngle : Objects -> list TransformingElement -> XYCoords.t -> TransformHandle -> number;
  getRotateMutations : Objects -> TransformingElement -> number -> TransformHandle -> Mutations.t;
  ResizeScale : Type;
  getResizeScale : Objects -> list TransformingElement -> XYCoords.t -> TransformHandle -> ResizeScale;
  getResizeMutations : Objects -> TransformingElement -> ResizeScale -> TransformHandle -> bool -> Mutations.t;
  getTransformHandles : RotatedBoundingBox.t -> number -> list TransformHandle;
  hitTestCoordsAgainstTransformHandles :
    list TransformHandle -> XYCoords.t -> AppState.t -> option TransformHandle;
  hitTestCoordsAgainstUnrotatedBox : XYCoords.t -> RotatedBoundingBox.t -> bool;
  hitTestCoordsAgainstElement : Element.t -> XYCoords.t -> bool;
  hitTestElementAgainstUnrotatedBox : Element.t -> BoundingBox.t -> bool
}.

(** ** The [App] component *)

Module App.
#[local] Open Scope num_scope.

(** The mutable fields of the component ([this.state], [this.pointer],
    [this.elementLayer], [this.editingElement],
    [this.transformingElements]) and the store of element objects they
    refer to.  [setState] is applied at once; no handler reads
    [this.state] after it has called [setState]. *)
Record t : Type := mk {
  state : AppState.t;
  pointer : option PointerState.t;
  elementLayer : ElementLayer.t;
  objects : Objects;
  editingElement : option ref;
  transformingElements : list TransformingElement
}.

Definition setState (f : AppState.t -> AppState.t) (a : t) : t :=
  mk (f (state a)) (pointer a) (elementLayer a) (objects a) (editingElement a)
     (transformingElements a).
Definition setPointer (p : option PointerState.t) (a : t) : t :=
  mk (state a) p (elementLayer a) (objects a) (editingElement a)
     (transformingElements a).
Definition setLayer (f : ElementLayer.t -> ElementLayer.t) (a : t) : t :=
  mk (state a) (pointer a) (f (elementLayer a)) (objects a) (editingElement a)
     (transformingElements a).
Definition setObjects (f : Objects -> Objects) (a : t) : t :=
  mk (state a) (pointer a) (elementLayer a) (f (objects a)) (editingElement a)
     (transformingElements a).
Definition setEditingElement (r : option ref) (a : t) : t :=
  mk (state a) (pointer a) (elementLayer a) (objects a) r (transformingElements a).
Definition setTransformingElements (l : list TransformingElement) (a : t) : t :=
  mk (state a) (pointer a) (elementLayer a) (objects a) (editingElement a) l.

(** [this.elementLayer.mutateElement(element, mutations)] *)
Definition mutateElement (r : ref) (m : Mutations.t) (a : t) : t :=
  setObjects (ElementLayer.mutateElement r m) a.

(** Modelled from the spec: [createPointerState] records the press
    position as origin, no drag yet, the modifier keys and no hit. *)
Definition createPointerState (e : PointerEvent.t) : PointerState.t :=
  PointerState.mk
    (XYCoords.mk (PointerEvent.clientX e) (PointerEvent.clientY e))
    (mkDrag false (XYCoords.mk (Fin 0) (Fin 0)) (XYCoords.mk (Fin 0) (Fin 0)))
    (PointerEvent.shiftKey e) (PointerEvent.ctrlKey e)
    (mkHit None None).

(** the position [origin + drag.offset] that three handlers convert *)
Definition pointerScreenCoords (p : PointerState.t) : XYCoords.t :=
  XYCoords.mk
    (XYCoords.x (PointerState.origin p) + XYCoords.x (offset (PointerState.drag p)))
    (XYCoords.y (PointerState.origin p) + XYCoords.y (offset (PointerState.drag p))).

Definition createElementFromTool (s : AppState.t) (tool : ToolLabel)
    (position : XYCoords.t) (snapElementToGrid : bool) : option Element.t :=
  let elementPosition :=
    if snapElementToGrid then position
    else Viewport.snapVirtualCoordsToGrid position s in
  let box :=
    BoundingBox.mk (XYCoords.x elementPosition) (XYCoords.y elementPosition)
      (Fin 0) (Fin 0) in
  let unsnappedBox :=
    BoundingBox.mk (XYCoords.x position) (XYCoords.y position) (Fin 0) (Fin 0) in
  match tool with
  | Ellipse => Some (Elements.createShapeElement ellipse box)
  | Rectangle => Some (Elements.createShapeElement rect box)
  | Freedraw =>
      Some (Elements.createFreedrawElement [(Fin 0, Fin 0)] unsnappedBox)
  | Text => Some (Elements.createTextElement "" unsnappedBox)
  | _ => None
  end.

(** *** [onElementCreation] *)

(** the [shape] case: the box from the pointer origin to its position *)
Definition shapeCreationMutations (s : AppState.t) (eCtrlKey : bool)
    (p : PointerState.t) : Mutations.t :=
  let o := Viewport.screenOffsetToVirtualOffset (PointerState.origin p) s in
  let w := XYCoords.x (offset (PointerState.drag p)) / AppState.zoom s in
  let h := XYCoords.y (offset (PointerState.drag p)) / AppState.zoom s in
  (* when the position should be snapped *)
  let pos :=
    if negb (PointerState.ctrlKey p)
    then Viewport.snapVirtualCoordsToGrid o s
    else o in
  let x := XYCoords.x pos in
  let y := XYCoords.y pos in
  (* when the size should be snapped *)
  let '(w, h) :=
    if negb eCtrlKey
    then
      let fallbackSize := gridSize (AppState.grid s) in
      let sizeCoords :=
        Viewport.snapVirtualCoordsToGrid (XYCoords.mk (x + w) (y + h)) s in
      (Num.or (XYCoords.x sizeCoords - x) fallbackSize,
       Num.or (XYCoords.y sizeCoords - y) fallbackSize)
    else (w, h) in
  let normalizedBox := Utils.invertNegativeBoundingBox (BoundingBox.mk x y w h) in
  let b := Utils.box normalizedBox in
  Mutations.mk
    (Some (BoundingBox.x b)) (Some (BoundingBox.y b))
    (Some (BoundingBox.w b)) (Some (BoundingBox.h b))
    None (Some (Utils.didFlipX normalizedBox)) (Some (Utils.didFlipY normalizedBox))
    None None None.

(** the [freedraw] case: [path] is the element's own array, extended and
    shifted in place and then assigned back *)
Definition freedrawCreationMutations (point : XYCoords.t) (el : Element.t)
    (path : list Point) : Mutations.t :=
  let dx := Num.max (Element.x el - XYCoords.x point) (Fin 0) in
  let dy := Num.max (Element.y el - XYCoords.y point) (Fin 0) in
  let x := Element.x el - dx in
  let y := Element.y el - dy in
  let w := Num.max (Element.w el) (XYCoords.x point - x) + dx in
  let h := Num.max (Element.h el) (XYCoords.y point - y) + dy in
  let pushed :=
    path ++ [(Num.toFixed Constants.ELEMENT_PRECISION (XYCoords.x point - x),
              Num.toFixed Constants.ELEMENT_PRECISION (XYCoords.y point - y))] in
  let shifted :=
    if (Num.truthy dx || Num.truthy dy)%bool
    then map (fun pt : Point => (Num.toFixed 2 (pt.1 + dx), Num.toFixed 2 (pt.2 + dy)))
             pushed
    else pushed in
  Mutations.mk (Some x) (Some y) (Some w) (Some h) None None None None
    (Some shifted) None.

Definition onElementCreation (eCtrlKey : bool) (p : PointerState.t) (r : ref)
    (a : t) : t :=
  match objects a !! r with
  | None => a
  | Some el =>
      match Element.data el with
      | shape _ => mutateElement r (shapeCreationMutations (state a) eCtrlKey p) a
      | freedraw path =>
          let point :=
            Viewport.screenOffsetToVirtualOffset (pointerScreenCoords p) (state a) in
          mutateElement r (freedrawCreationMutations point el path) a
      | text _ => a
      end
  end.

Section Handlers.
Variable ext : Collaborators.

Definition getFirstElementAtCoords (a : t) (coords : XYCoords.t) : option ref :=
  List.find
    (fun r =>
       match objects a !! r with
       | Some el => hitTestCoordsAgainstElement ext el coords
       | None => false
       end)
    (rev (ElementLayer.getAllElements (elementLayer a))).

Definition getAllElementsWithinBox (a : t) (b : BoundingBox.t) : list ref :=
  List.filter
    (fun r =>
       match objects a !! r with
       | Some el => hitTestElementAgainstUnrotatedBox ext el b
       | None => false
       end)
    (ElementLayer.getAllElements (elementLayer a)).


(** *** [onDesignMenuUpdate]

    The [mutations] object is the one the caller passed: the loop writes
    [mutations.path] into it, and the next iteration receives the object
    as the previous one left it. *)
Definition designMenuScale (patch : option number) (size : number) : number :=
  let scale := default size patch / size in
  if negb (Num.isFinite scale) then Fin 1 else scale.

Definition designMenuStep (acc : Mutations.t * t) (r : ref) : Mutations.t * t :=
  let '(mutations, a) := acc in
  match objects a !! r with
  | None => acc
  | Some el =>
      let mutations :=
        match Element.data el with
        | freedraw path =>
            let scaleX := designMenuScale (Mutations.w mutations) (Element.w el) in
            let scaleY := designMenuScale (Mutations.h mutations) (Element.h el) in
            if (Num.neqb scaleX (Fin 1) || Num.neqb scaleY (Fin 1))%bool
            then Mutations.setPath
                   (Elements.rescalePath path scaleX scaleY (Fin 0) (Fin 0)) mutations
            else mutations
        | _ => mutations
        end in
      (mutations, mutateElement r mutations a)
  end.

Definition designMenuLoop (elements : list ref) (mutations : Mutations.t) (a : t)
    : Mutations.t * t :=
  foldl designMenuStep (mutations, a) elements.

Definition onDesignMenuUpdate (elements : list ref) (mutations : Mutations.t)
    (a : t) : t :=
  (designMenuLoop elements mutations a).2.

(** *** Gesture handlers *)

Definition positionMutations (x y : number) : Mutations.t :=
  Mutations.mk (Some x) (Some y) None None None None None None None None.

Definition onElementDrag (eCtrlKey : bool) (p : PointerState.t)
    (elements : list TransformingElement) (a : t) : t :=
  let dragOffset :=
    if negb eCtrlKey
    then Viewport.snapVirtualCoordsToGrid (offset (PointerState.drag p)) (state a)
    else offset (PointerState.drag p) in
  foldl
    (fun acc te =>
       mutateElement (element te)
         (positionMutations
            (Element.x (initialElement te) + XYCoords.x dragOffset)
            (Element.y (initialElement te) + XYCoords.y dragOffset))
         acc)
    a elements.

(** the angle [onElementRotate] hands to [getRotateMutations] *)
Definition snapRotation (eCtrlKey : bool) (angle : number) : number :=
  if negb eCtrlKey
  then
    let threshold := Constants.ROTATION_SNAP_THRESHOLD in
    Num.round (angle / threshold) * threshold
  else angle.

Definition onElementRotate (eCtrlKey : bool) (p : PointerState.t)
    (elements : list TransformingElement) (handle : TransformHandle) (a : t) : t :=
  let virtualPointerCoords :=
    Viewport.screenOffsetToVirtualOffset (pointerScreenCoords p) (state a) in
  let angle :=
    snapRotation eCtrlKey
      (getRotateAngle ext (objects a) elements virtualPointerCoords handle) in
  foldl
    (fun acc te =>
       mutateElement (element te)
         (getRotateMutations ext (objects acc) te angle handle) acc)
    a elements.

Definition onElementResize (eCtrlKey : bool) (p : PointerState.t)
    (elements : list TransformingElement) (handle : TransformHandle) (a : t) : t :=
  let unsnapped :=
    Viewport.screenOffsetToVirtualOffset (pointerScreenCoords p) (state a) in
  let virtualPointerCoords :=
    if negb eCtrlKey
    then Viewport.snapVirtualCoordsToGrid unsnapped (state a)
    else unsnapped in
  let scale := getResizeScale ext (objects a) elements virtualPointerCoords handle in
  let multiElement := bool_decide (1 < length elements)%nat in
  foldl
    (fun acc te =>
       mutateElement (element te)
         (getResizeMutations ext (objects acc) te scale handle multiElement) acc)
    a elements.

(** *** Pointer events *)

Definition selectedBoxes (a : t) (rs : list ref) : list RotatedBoundingBox.t :=
  omap (fun r => Element.toBox <$> objects a !! r) rs.

Definition onCanvasPointerDown (e : PointerEvent.t) (a : t) : t :=
  if negb (PointerEvent.buttons e =? 1)%nat then a
  else
    let p := createPointerState e in
    let a := setPointer (Some p) a in
    let virtualPointerCoords :=
      Viewport.screenOffsetToVirtualOffset (PointerState.origin p) (state a) in
    match AppState.activeTool (state a) with
    | Hand => a
    | Selection =>
        let selectedElements := ElementLayer.getSelectedElements (elementLayer a) in
        let selectionBox :=
          Utils.getSurroundingBoundingBox (selectedBoxes a selectedElements) in
        let transformHandles :=
          getTransformHandles ext selectionBox (AppState.zoom (state a)) in
        let hitHandle :=
          hitTestCoordsAgainstTransformHandles ext transformHandles
            virtualPointerCoords (state a) in
        let isPointerInSelectionBox :=
          hitTestCoordsAgainstUnrotatedBox ext virtualPointerCoords selectionBox in
        let hitElement := getFirstElementAtCoords a virtualPointerCoords in
        match hitHandle with
        | Some handle =>
            let mode :=
              match handleType handle with
              | rotateHandle => ROTATING
              | _ => RESIZING
              end in
            setTransformingElements
              (Elements.createTransformingElements (objects a) selectedElements)
              (setPointer
                 (Some (PointerState.setHit (mkHit None (Some handle)) p))
                 (setState (AppState.setUsermode mode) a))
        | None =>
            if isPointerInSelectionBox then
              setTransformingElements
                (Elements.createTransformingElements (objects a) selectedElements)
                (setPointer
                   (Some (PointerState.setHit (mkHit hitElement None) p))
                   (setState (AppState.setUsermode DRAGGING) a))
            else
              match hitElement with
              | Some r =>
                  let a :=
                    if negb (PointerState.shiftKey p)
                    then setLayer ElementLayer.unselectAllElements a else a in
                  let a :=
                    setPointer
                      (Some (PointerState.setHit (mkHit (Some r) None) p)) a in
                  let a := setLayer (ElementLayer.selectElements [r]) a in
                  let a := setState (AppState.setUsermode DRAGGING) a in
                  setTransformingElements
                    (Elements.createTransformingElements (objects a)
                       (ElementLayer.getSelectedElements (elementLayer a)))
                    a
              | None =>
                  if negb (PointerState.shiftKey p)
                  then setLayer ElementLayer.unselectAllElements a else a
              end
        end
    | tool =>
        match createElementFromTool (state a) tool virtualPointerCoords
                (PointerState.ctrlKey p) with
        | Some el =>
            (* a new object; select it and start editing it *)
            let r := fresh (dom (objects a)) in
            let a := setObjects (insert r el) a in
            let a := setLayer (ElementLayer.addElement r) a in
            let a := setLayer ElementLayer.unselectAllElements a in
            let a := setLayer (ElementLayer.selectElements [r]) a in
            let a := setEditingElement (Some r) a in
            setState (AppState.setUsermode CREATING) a
        | None => a
        end
    end.

(** [onWindowPointerUp].  [None] is the [TypeError] of reading
    [element.type] when [this.editingElement] is [null] in mode
    [CREATING]. *)
Definition onWindowPointerUp (a : t) : option t :=
  match pointer a with
  | None => Some a
  | Some p =>
      let finish (newUserMode : USERMODE) (a : t) : t :=
        setState
          (fun s => AppState.setSelectionHighlight None (AppState.setUsermode newUserMode s))
          (setPointer None (setTransformingElements [] a)) in
      match AppState.usermode (state a) with
      | CREATING =>
          match editingElement a with
          | None => None
          | Some r =>
              match objects a !! r with
              | None => None
              | Some el =>
                  if Element.isText el then
                    Some (finish CREATING (setEditingElement (Some r) a))
                  else if isElementNegligible ext el (state a) then
                    Some (finish IDLE
                            (setEditingElement None
                               (setLayer (ElementLayer.deleteElement r) a)))
                  else Some (finish IDLE a)
              end
          end
      | DRAGGING =>
          let a :=
            if negb (occurred (PointerState.drag p)) then
              let a := setLayer ElementLayer.unselectAllElements a in
              match hitElement (PointerState.hit p) with
              | Some r => setLayer (ElementLayer.selectElements [r]) a
              | None => a
              end
            else a in
          Some (finish IDLE a)
      | _ => Some (finish IDLE a)
      end
  end.

(** the update of [this.pointer.drag] that opens [onWindowPointerMove] *)
Definition dragTo (e : PointerEvent.t) (p : PointerState.t) : PointerState.t :=
  PointerState.setDrag
    (mkDrag true
       (XYCoords.mk
          (PointerEvent.clientX e - XYCoords.x (PointerState.origin p))
          (PointerEvent.clientY e - XYCoords.y (PointerState.origin p)))
       (offset (PointerState.drag p)))
    p.

Definition onWindowPointerMove (e : PointerEvent.t) (a : t) : t :=
  match pointer a with
  | None => a
  | Some p =>
      let p := dragTo e p in
      let a := setPointer (Some p) a in
      let d := PointerState.drag p in
      match AppState.activeTool (state a) with
      | Hand =>
          setState
            (fun s =>
               AppState.setScrollOffset
                 (XYCoords.mk
                    (XYCoords.x (AppState.scrollOffset s)
                     + (XYCoords.x (offset d) - XYCoords.x (previousOffset d)))
                    (XYCoords.y (AppState.scrollOffset s)
                     + (XYCoords.y (offset d) - XYCoords.y (previousOffset d))))
                 s)
            a
      | _ =>
          match AppState.usermode (state a) with
          | CREATING =>
              match editingElement a with
              | Some r => onElementCreation (PointerEvent.ctrlKey e) p r a
              | None => a
              end
          | DRAGGING =>
              onElementDrag (PointerEvent.ctrlKey e) p (transformingElements a) a
          | ROTATING =>
              match hitTransformHandle (PointerState.hit p) with
              | Some handle =>
                  match handleType handle with
                  | rotateHandle =>
                      onElementRotate (PointerEvent.ctrlKey e) p
                        (transformingElements a) handle a
                  | _ => a
                  end
              | None => a
              end
          | RESIZING =>
              match hitTransformHandle (PointerState.hit p) with
              | Some handle =>
                  onElementResize (PointerEvent.ctrlKey e) p
                    (transformingElements a) handle a
              | None => a
              end
          | IDLE =>
              (* pointer drag is treated as a box selection *)
              let o :=
                Viewport.screenOffsetToVirtualOffset (PointerState.origin p) (state a) in
              let selectionBox :=
                Utils.box
                  (Utils.invertNegativeBoundingBox
                     (BoundingBox.mk (XYCoords.x o) (XYCoords.y o)
                        (XYCoords.x (offset d) / AppState.zoom (state a))
                        (XYCoords.y (offset d) / AppState.zoom (state a)))) in
              let a := setState (AppState.setSelectionHighlight (Some selectionBox)) a in
              setLayer
                (ElementLayer.selectElements (getAllElementsWithinBox a selectionBox))
                a
          end
      end
  end.

(** The [onSubmit] callback of the text-edit overlay.  The overlay is
    rendered only while [editingElement] is a text element. *)
Definition textMutation (content : string) : Mutations.t :=
  Mutations.mk None None None None None None None None None (Some content).

Definition onSubmit (content : string) (a : t) : t :=
  match editingElement a with
  | Some r =>
      match Element.isText <$> objects a !! r with
      | Some true =>
          setState (AppState.setUsermode IDLE)
            (setEditingElement None (mutateElement r (textMutation content) a))
      | _ => a
      end
  | None => a
  end.

End Handlers.

(** [editingElement?.type === "text"]: the condition under which
    [renderWysiwygEditor] mounts the text-edit overlay *)
Definition rendersWysiwygEditor (a : t) : bool :=
  match editingElement a with
  | Some r =>
      match objects a !! r with
      | Some el => Element.isText el
      | None => false
      end
  | None => false
  end.

(** the mode is [CREATING] and the element being edited is a text element *)
Definition creatingText (a : t) : bool :=
  match AppState.usermode (state a) with
  | CREATING => rendersWysiwygEditor a
  | _ => false
  end.

(** While a shape is being created: the state is [s], the pointer was
    pressed at [o] with ctrl key [c], and the element under edit is the
    shape [r] with the default rotation and fill. *)
Definition creatingShape (s : AppState.t) (o : XYCoords.t) (c : bool) (r : ref)
    (sh : Shape) (a : t) : Prop :=
  state a = s
  /\ editingElement a = Some r
  /\ (exists p, pointer a = Some p /\ PointerState.origin p = o
                /\ PointerState.ctrlKey p = c)
  /\ exists el, objects a !! r = Some el /\ Element.data el = shape sh
                /\ Element.rotate el = Constants.DEFAULT_ROTATE
                /\ Element.fill el = Constants.DEFAULT_FILL.

(** a whole drag: press, the moves in order, release *)
Definition dragGesture (ext : Collaborators) (down : PointerEvent.t)
    (moves : list PointerEvent.t) (a : t) : option t :=
  onWindowPointerUp ext
    (foldl (fun acc e => onWindowPointerMove ext e acc)
       (onCanvasPointerDown ext down a) moves).

End App.

(** ** Concrete inputs *)

Module Examples.
#[local] Open Scope num_scope.

(** An implementation of the collaborators to run the handlers with: an
    element is negligible when it is under one unit wide and high, the
    rotate handle reports one radian, nothing else is hit. *)
Definition collaborators : Collaborators := {|
  isElementNegligible := fun el _ => (Element.w el <? Fin 1) && (Element.h el <? Fin 1);
  getRotateAngle := fun _ _ _ _ => Fin 1;
  getRotateMutations := fun _ _ angle _ =>
    Mutations.mk None None None None (Some angle) None None None None None;
  ResizeScale := number;
  getResizeScale := fun _ _ _ _ => Fin 1;
  getResizeMutations := fun _ _ _ _ _ => Mutations.empty;
  getTransformHandles := fun _ _ => [];
  hitTestCoordsAgainstTransformHandles := fun _ _ _ => None;
  hitTestCoordsAgainstUnrotatedBox := fun _ _ => false;
  hitTestCoordsAgainstElement := fun _ _ => false;
  hitTestElementAgainstUnrotatedBox := fun _ _ => false
|}.

(** zoom 2, panned by (10, 20), grid of 10 with snapping off *)
Definition appState (tool : ToolLabel) (mode : USERMODE) : AppState.t :=
  AppState.mk (Fin 2) (XYCoords.mk (Fin 10) (Fin 20)) tool (mkGrid (Fin 10) false)
    mode None.

Definition emptyApp (tool : ToolLabel) : App.t :=
  App.mk (appState tool IDLE) None (ElementLayer.mk [] []) ∅ None [].

Definition pointerAt (x y : number) : PointerState.t :=
  PointerState.mk (XYCoords.mk x y)
    (mkDrag false (XYCoords.mk (Fin 0) (Fin 0)) (XYCoords.mk (Fin 0) (Fin 0)))
    false false (mkHit None None).

Definition event (x y : number) : PointerEvent.t :=
  PointerEvent.mk x y false false 1.

Definition box (x y w h : number) : BoundingBox.t := BoundingBox.mk x y w h.

(** an app with the single element [el], selected and being created *)
Definition creating (tool : ToolLabel) (el : Element.t) : App.t :=
  App.mk (appState tool CREATING) (Some (pointerAt (Fin 10) (Fin 20)))
    (ElementLayer.mk [0%nat] [0%nat]) {[ 0%nat := el ]} (Some 0%nat) [].

Definition rotateHandleAt (x y : number) : TransformHandle :=
  mkHandle rotateHandle x y.

(** a freedraw stroke of 10 by 10, and a freedraw element of size zero *)
Definition stroke : Element.t :=
  Elements.createFreedrawElement [(Fin 0, Fin 0); (Fin 5, Fin 0); (Fin 5, Fin 5)]
    (box (Fin 0) (Fin 0) (Fin 10) (Fin 10)).
Definition dot : Element.t :=
  Elements.createFreedrawElement [(Fin 0, Fin 0)] (box (Fin 50) (Fin 50) (Fin 0) (Fin 0)).

(** a freedraw element just created at the virtual origin, under edit *)
Definition freedrawDraft : App.t :=
  creating Freedraw
    (Elements.createFreedrawElement [(Fin 0, Fin 0)] (box (Fin 0) (Fin 0) (Fin 0) (Fin 0))).

(** the scene of [stroke] and [dot], both selected *)
Definition strokeAndDot : App.t :=
  App.mk (appState Selection IDLE) None (ElementLayer.mk [0%nat; 1%nat] [0%nat; 1%nat])
    {[ 0%nat := stroke; 1%nat := dot ]} None [].

(** the patch [{ w: 20 }] of the design menu *)
Definition widthPatch : Mutations.t :=
  Mutations.mk None None (Some (Fin 20)) None None None None None None None.

End Examples.

(** ** Regions of the plane (for stating the properties) *)

Module Region.
#[local] Open Scope num_scope.

(** the point lies in the box read as drawn on screen: between [x] and
    [x + w] and between [y] and [y + h], in whichever order they come *)
Definition inVisualBox (b : BoundingBox.t) (px py : number) : bool :=
  let x1 := BoundingBox.x b in
  let x2 := BoundingBox.x b + BoundingBox.w b in
  let y1 := BoundingBox.y b in
  let y2 := BoundingBox.y b + BoundingBox.h b in
  (Num.min x1 x2 <=? px) && (px <=? Num.max x1 x2)
  && (Num.min y1 y2 <=? py) && (py <=? Num.max y1 y2).

(** [m] is an element of [l] and no element of [l] is below it *)
Definition isLeast (m : number) (l : list number) : Prop :=
  m ∈ l /\ forall v, v ∈ l -> (m <=? v) = true.

(** [m] is an element of [l] and no element of [l] is above it *)
Definition isGreatest (m : number) (l : list number) : Prop :=
  m ∈ l /\ forall v, v ∈ l -> (v <=? m) = true.

End Region.

(** ** The surrounding box as the specification words it

    "The minimal axis-aligned box covering the union of one or more
    (possibly individually rotated) boxes; computed by rotating each box's
    4 corners into world space and taking min/max."  Written here on real
    numbers and without the functions of [core/utils], to compare
    [getSurroundingBoundingBox] with. *)

Module SurroundingSpec.

(** a box of finite numbers *)
Record Box : Type := mkBox { x : R; y : R; w : R; h : R; rotate : R }.

(** the box as the code holds it *)
Definition toRotatedBoundingBox (b : Box) : RotatedBoundingBox.t :=
  RotatedBoundingBox.mk (Fin (x b)) (Fin (y b)) (Fin (w b)) (Fin (h b)) (Fin (rotate b)).

(** the centre of the box *)
Definition centre (b : Box) : R * R := (x b + w b / 2, y b + h b / 2).

(** the point [p] turned by [angle] about [c] *)
Definition turn (c : R * R) (angle : R) (p : R * R) : R * R :=
  (c.1 + ((p.1 - c.1) * cos angle - (p.2 - c.2) * sin angle),
   c.2 + ((p.1 - c.1) * sin angle + (p.2 - c.2) * cos angle)).

(** the four corners of the box in world space: the corners of the box as
    it lies unrotated, each turned about the centre by the rotation of the
    box *)
Definition worldCorners (b : Box) : list (R * R) :=
  map (turn (centre b) (rotate b))
    [(x b, y b); (x b + w b, y b); (x b, y b + h b); (x b + w b, y b + h b)].

Definition allWorldCorners (boxes : list Box) : list (R * R) :=
  flat_map worldCorners boxes.

(** [m] is one of the numbers of [l] and none of them is below it *)
Definition isMin (m : R) (l : list R) : Prop :=
  m ∈ l /\ forall v, v ∈ l -> m <= v.

(** [m] is one of the numbers of [l] and none of them is above it *)
Definition isMax (m : R) (l : list R) : Prop :=
  m ∈ l /\ forall v, v ∈ l -> v <= m.

End SurroundingSpec.


(** a number other than [Infinity], [-Infinity] and [NaN] *)
Definition isFin (v : number) : Prop := Num.isFinite v = true.

(** the values a square can take: not negative, possibly [Infinity] or [NaN] *)
Definition notNegative (v : number) : Prop :=
  match v with
  | Fin r => 0 <= r
  | PInf | NaN => True
  | NInf => False
  end.

(** [Infinity] or [NaN] *)
Definition infOrNaN (v : number) : Prop := v = PInf \/ v = NaN.

(** ** The rest of [core/utils] *)

Module UtilsRest.
#[local] Open Scope num_scope.

(** [clampNumber] *)
Definition clampNumber (value min max : number) : number :=
  Num.min (Num.max value min) max.

(** [Math.hypot] of two arguments: [Infinity] when either is infinite (even
    beside a [NaN]), else [NaN] when either is, else the root of the sum of
    the squares *)
Definition hypot (a b : number) : number :=
  match a, b with
  | (PInf | NInf), _ | _, (PInf | NInf) => PInf
  | NaN, _ | _, NaN => NaN
  | Fin r, Fin s => Fin (sqrt (r * r + s * s))
  end.

Section PathClosed.
(** [PATH_JOIN_THRESHOLD] of [constants.ts]; its value is not in the file at hand *)
Variable PATH_JOIN_THRESHOLD : number.

(** [isPathClosed].  With three points or more [path[0]] and
    [path[path.length - 1]] exist; the last branch is never taken. *)
Definition isPathClosed (path : list Point) : bool :=
  if (length path <? 3)%nat then true
  else
    match head path, last path with
    | Some (startX, startY), Some (endX, endY) =>
        hypot (endX - startX) (endY - startY) <=? PATH_JOIN_THRESHOLD
    | _, _ => false
    end.

End PathClosed.

End UtilsRest.

(** ** Gestures (for stating the properties) *)

Module Gesture.

(** the pointer events of a gesture after the press, in order *)
Definition moves (ext : Collaborators) (events : list PointerEvent.t) (a : App.t) : App.t :=
  foldl (fun acc e => App.onWindowPointerMove ext e acc) a events.

(** an event at a finite screen position *)
Definition at_ (e : PointerEvent.t) (x y : R) : Prop :=
  PointerEvent.clientX e = Fin x /\ PointerEvent.clientY e = Fin y.

(** every event of the list is at a finite screen position *)
Definition finite (events : list PointerEvent.t) : Prop :=
  Forall (fun e => exists x y, at_ e x y) events.

(** In the middle of a pan with the Hand tool that started from [a0] with
    the scroll offset [(sx, sy)]: the pointer was pressed at [(ox, oy)],
    the drag offset is [(fx, fy)], the scroll offset has moved by the drag
    offset and nothing else has changed. *)
Definition panning (a0 : App.t) (ox oy sx sy fx fy : R) (a : App.t) : Prop :=
  (exists p,
      App.pointer a = Some p
      /\ PointerState.origin p = XYCoords.mk (Fin ox) (Fin oy)
      /\ offset (PointerState.drag p) = XYCoords.mk (Fin fx) (Fin fy))
  /\ (exists cx cy,
         App.state a
         = AppState.setScrollOffset (XYCoords.mk (Fin cx) (Fin cy)) (App.state a0)
         /\ cx = sx + fx /\ cy = sy + fy)
  /\ App.objects a = App.objects a0
  /\ App.elementLayer a = App.elementLayer a0
  /\ App.editingElement a = App.editingElement a0
  /\ App.transformingElements a = App.transformingElements a0.

End Gesture.

(** ** More of the [App] component *)

Module AppRest.

(** [onCanvasDblClick]: with the Selection tool, a double click on a text
    element opens it for editing.  ([this.pointer] is [null] by then, the
    double click ending with a pointer-up.) *)
Definition onCanvasDblClick (ext : Collaborators) (e : PointerEvent.t) (a : App.t)
    : App.t :=
  match AppState.activeTool (App.state a) with
  | Selection =>
      let virtualPointerCoords :=
        Viewport.screenOffsetToVirtualOffset
          (XYCoords.mk (PointerEvent.clientX e) (PointerEvent.clientY e))
          (App.state a) in
      match App.getFirstElementAtCoords ext a virtualPointerCoords with
      | Some r =>
          match Element.isText <$> App.objects a !! r with
          | Some true => App.setEditingElement (Some r) a
          | _ => a
          end
      | None => a
      end
  | _ => a
  end.

(** [hitTestCoordsAgainstElement] on a reference *)
Definition hits (ext : Collaborators) (a : App.t) (coords : XYCoords.t) (r : ref) : bool :=
  match App.objects a !! r with
  | Some el => hitTestCoordsAgainstElement ext el coords
  | None => false
  end.

(** What a handler leaves alone when it only mutates element objects: the
    set of element objects, the paint order of the layer, the tool, the
    mode, the zoom, the grid, the element under edit and the snapshots of
    the gesture. *)
Definition keepsScene (a a' : App.t) : Prop :=
  (dom (App.objects a') : gset nat) = dom (App.objects a)
  /\ ElementLayer.getAllElements (App.elementLayer a')
     = ElementLayer.getAllElements (App.elementLayer a)
  /\ AppState.activeTool (App.state a') = AppState.activeTool (App.state a)
  /\ AppState.usermode (App.state a') = AppState.usermode (App.state a)
  /\ AppState.zoom (App.state a') = AppState.zoom (App.state a)
  /\ AppState.grid (App.state a') = AppState.grid (App.state a)
  /\ App.editingElement a' = App.editingElement a
  /\ App.transformingElements a' = App.transformingElements a.

End AppRest.

(** ** More concrete inputs *)

Module MoreExamples.
#[local] Open Scope num_scope.

(** the collaborators of [Examples], except that every element is hit by
    every point *)
Definition hitEverything : Collaborators := {|
  isElementNegligible := isElementNegligible Examples.collaborators;
  getRotateAngle := getRotateAngle Examples.collaborators;
  getRotateMutations := getRotateMutations Examples.collaborators;
  ResizeScale := ResizeScale Examples.collaborators;
  getResizeScale := getResizeScale Examples.collaborators;
  getResizeMutations := getResizeMutations Examples.collaborators;
  getTransformHandles := getTransformHandles Examples.collaborators;
  hitTestCoordsAgainstTransformHandles :=
    hitTestCoordsAgainstTransformHandles Examples.collaborators;
  hitTestCoordsAgainstUnrotatedBox :=
    hitTestCoordsAgainstUnrotatedBox Examples.collaborators;
  hitTestCoordsAgainstElement := fun _ _ => true;
  hitTestElementAgainstUnrotatedBox :=
    hitTestElementAgainstUnrotatedBox Examples.collaborators
|}.

(** a text element reading "old" *)
Definition label : Element.t :=
  Elements.createTextElement "old" (Examples.box (Fin 5) (Fin 5) (Fin 30) (Fin 10)).

(** the scene of [Examples.stroke] with [label] painted over it *)
Definition labelled : App.t :=
  App.mk (Examples.appState Selection IDLE) None (ElementLayer.mk [0%nat; 1%nat] [])
    {[ 0%nat := Examples.stroke; 1%nat := label ]} None [].

End MoreExamples.
(** * Properties *)

(** ** Arithmetic of numbers *)

(** splits on the comparisons inside [Rmin], [Rmax] and [Rabs], innermost
    first, and closes the cases by linear arithmetic *)
Ltac real_cases :=
  unfold Rmin, Rmax, Rabs;
  repeat match goal with
         | |- context [Rcase_abs ?a] => destruct (Rcase_abs a)
         | |- context [Rle_dec ?a ?b] =>
             lazymatch a with
             | context [Rle_dec] => fail
             | _ => lazymatch b with
                    | context [Rle_dec] => fail
                    | _ => destruct (Rle_dec a b)
                    end
             end
         end;
  try lra.

Lemma div_fin (r s : R) : s <> 0%R -> (Fin r / Fin s)%num = Fin (r / s).
Proof. intros Hs. unfold Num.div. by case_decide. Qed.

Lemma div_fin_2 (r : R) : (Fin r / Fin 2)%num = Fin (r / 2).
Proof. apply div_fin. lra. Qed.

Lemma min_fin (a b : R) : Num.min (Fin a) (Fin b) = Fin (Rmin a b).
Proof. unfold Num.min, Num.leb. case_bool_decide; f_equal; real_cases. Qed.

Lemma max_fin (a b : R) : Num.max (Fin a) (Fin b) = Fin (Rmax a b).
Proof. unfold Num.max, Num.leb. case_bool_decide; f_equal; real_cases. Qed.

Lemma min_fin_l (a b : R) : a <= b -> Num.min (Fin a) (Fin b) = Fin a.
Proof. intros. rewrite min_fin. f_equal. by apply Rmin_left. Qed.

Lemma min_fin_r (a b : R) : b <= a -> Num.min (Fin a) (Fin b) = Fin b.
Proof. intros. rewrite min_fin. f_equal. by apply Rmin_right. Qed.

Lemma max_fin_l (a b : R) : b <= a -> Num.max (Fin a) (Fin b) = Fin a.
Proof. intros. rewrite max_fin. f_equal. by apply Rmax_left. Qed.

Lemma max_fin_r (a b : R) : a <= b -> Num.max (Fin a) (Fin b) = Fin b.
Proof. intros. rewrite max_fin. f_equal. by apply Rmax_right. Qed.

(** evaluates [Math.min] and [Math.max] of finite numbers, innermost first *)
Ltac num_minmax :=
  repeat match goal with
         | |- context [Num.min PInf (Fin ?a)] =>
             change (Num.min PInf (Fin a)) with (Fin a)
         | |- context [Num.max NInf (Fin ?a)] =>
             change (Num.max NInf (Fin a)) with (Fin a)
         | |- context [Num.min (Fin ?a) (Fin ?b)] =>
             first [ rewrite (min_fin_l a b) by lra | rewrite (min_fin_r a b) by lra ]
         | |- context [Num.max (Fin ?a) (Fin ?b)] =>
             first [ rewrite (max_fin_l a b) by lra | rewrite (max_fin_r a b) by lra ]
         end.

(** ** C2 *)

(** one axis of [invertNegativeBoundingBox] *)
Lemma invert_axis (x w : R) :
  (if (Fin w <? Fin 0)%num
   then (let w' := (Fin w * Fin (-1))%num in ((Fin x - w')%num, w', true))
   else (Fin x, Fin w, false))
  = (Fin (x + Rmin w 0), Fin (Rabs w), bool_decide (w < 0)).
Proof.
  simpl. case_bool_decide; repeat f_equal; real_cases.
Qed.

Lemma invertNegativeBoundingBox_fin (x y w h : R) :
  Utils.invertNegativeBoundingBox (BoundingBox.mk (Fin x) (Fin y) (Fin w) (Fin h))
  = Utils.mkInverted
      (BoundingBox.mk (Fin (x + Rmin w 0)) (Fin (y + Rmin h 0)) (Fin (Rabs w)) (Fin (Rabs h)))
      (bool_decide (w < 0)) (bool_decide (h < 0)).
Proof.
  unfold Utils.invertNegativeBoundingBox.
  cbn [BoundingBox.x BoundingBox.y BoundingBox.w BoundingBox.h].
  by rewrite !invert_axis.
Qed.

(** C2. For every box (in particular one with a negative width or
    height) [invertNegativeBoundingBox] returns
    [x + min(w, 0), y + min(h, 0), |w|, |h|]: the extents are not negative,
    the box covers the same points of the plane as the input read
    visually, and each flag tells whether that axis had a negative
    extent. *)
Theorem invertNegativeBoundingBox_normalises (x y w h : R) :
  let b := BoundingBox.mk (Fin x) (Fin y) (Fin w) (Fin h) in
  let r := Utils.invertNegativeBoundingBox b in
  Utils.box r
  = BoundingBox.mk (Fin (x + Rmin w 0)) (Fin (y + Rmin h 0)) (Fin (Rabs w)) (Fin (Rabs h))
  /\ (Fin 0 <=? BoundingBox.w (Utils.box r))%num = true
  /\ (Fin 0 <=? BoundingBox.h (Utils.box r))%num = true
  /\ (forall px py : number,
        Region.inVisualBox (Utils.box r) px py = Region.inVisualBox b px py)
  /\ Utils.didFlipX r = bool_decide (w < 0)
  /\ Utils.didFlipY r = bool_decide (h < 0).
Proof.
  intros b r. subst b r. rewrite invertNegativeBoundingBox_fin.
  cbn [Utils.box Utils.didFlipX Utils.didFlipY BoundingBox.w BoundingBox.h].
  split_and!; try done.
  - unfold Num.leb. case_bool_decide; [done|]. pose proof (Rabs_pos w). lra.
  - unfold Num.leb. case_bool_decide; [done|]. pose proof (Rabs_pos h). lra.
  - intros px py. unfold Region.inVisualBox.
    cbn [BoundingBox.x BoundingBox.y BoundingBox.w BoundingBox.h Num.add].
    rewrite !min_fin, !max_fin.
    replace (Rmin (x + Rmin w 0) (x + Rmin w 0 + Rabs w)) with (Rmin x (x + w)) by real_cases.
    replace (Rmax (x + Rmin w 0) (x + Rmin w 0 + Rabs w)) with (Rmax x (x + w)) by real_cases.
    replace (Rmin (y + Rmin h 0) (y + Rmin h 0 + Rabs h)) with (Rmin y (y + h)) by real_cases.
    replace (Rmax (y + Rmin h 0) (y + Rmin h 0 + Rabs h)) with (Rmax y (y + h)) by real_cases.
    done.
Qed.

(** ** C1 *)

Lemma isFin_inv (v : number) : isFin v -> exists r, v = Fin r.
Proof. destruct v; try discriminate. eauto. Qed.

Lemma minl_fin (bs : list number) (r : R) :
  Forall isFin bs ->
  exists m, Num.minl (Fin r) bs = Fin m
            /\ (m = r \/ Fin m ∈ bs) /\ m <= r /\ forall v, Fin v ∈ bs -> m <= v.
Proof.
  unfold Num.minl. intros Hfin. revert r.
  induction Hfin as [|b bs Hb _ IH]; intros r; cbn [foldl].
  - exists r. split_and!; auto; try lra. intros v Hv. by apply elem_of_nil in Hv.
  - apply isFin_inv in Hb as [s ->]. rewrite min_fin.
    destruct (IH (Rmin r s)) as (m & -> & Hm & Hle & Hall).
    exists m. split_and!; auto.
    + destruct Hm as [-> | Hm].
      * unfold Rmin. destruct (Rle_dec r s); [by left | right; by left].
      * right. by right.
    + pose proof (Rmin_l r s). lra.
    + intros v [[= ->] | Hv]%elem_of_cons; [|by apply Hall].
      pose proof (Rmin_r r s). lra.
Qed.

Lemma maxl_fin (bs : list number) (r : R) :
  Forall isFin bs ->
  exists m, Num.maxl (Fin r) bs = Fin m
            /\ (m = r \/ Fin m ∈ bs) /\ r <= m /\ forall v, Fin v ∈ bs -> v <= m.
Proof.
  unfold Num.maxl. intros Hfin. revert r.
  induction Hfin as [|b bs Hb _ IH]; intros r; cbn [foldl].
  - exists r. split_and!; auto; try lra. intros v Hv. by apply elem_of_nil in Hv.
  - apply isFin_inv in Hb as [s ->]. rewrite max_fin.
    destruct (IH (Rmax r s)) as (m & -> & Hm & Hle & Hall).
    exists m. split_and!; auto.
    + destruct Hm as [-> | Hm].
      * unfold Rmax. destruct (Rle_dec r s); [right; by left | by left].
      * right. by right.
    + pose proof (Rmax_l r s). lra.
    + intros v [[= ->] | Hv]%elem_of_cons; [|by apply Hall].
      pose proof (Rmax_r r s). lra.
Qed.

(** Starting from [Infinity], [Math.min] over finite numbers finds their least. *)
Lemma minl_PInf_least (bs : list number) :
  Forall isFin bs -> bs <> [] -> Region.isLeast (Num.minl PInf bs) bs.
Proof.
  intros Hfin Hne. destruct Hfin as [|b bs Hb Hfin]; [done|].
  apply isFin_inv in Hb as [s ->]. unfold Num.minl. cbn [foldl]. change (Num.min PInf (Fin s)) with (Fin s).
  destruct (minl_fin bs s Hfin) as (m & Hm & Hin & Hle & Hall).
  unfold Num.minl in Hm. rewrite Hm. split.
  - destruct Hin as [-> | Hin]; [by left | by right].
  - intros v [-> | Hv]%elem_of_cons; simpl.
    + by apply bool_decide_eq_true.
    + apply (proj1 (Forall_forall _ _) Hfin) in Hv as Hv'.
      apply isFin_inv in Hv' as [t ->]. simpl. apply bool_decide_eq_true. by apply Hall.
Qed.

Lemma maxl_NInf_greatest (bs : list number) :
  Forall isFin bs -> bs <> [] -> Region.isGreatest (Num.maxl NInf bs) bs.
Proof.
  intros Hfin Hne. destruct Hfin as [|b bs Hb Hfin]; [done|].
  apply isFin_inv in Hb as [s ->]. unfold Num.maxl. cbn [foldl]. change (Num.max NInf (Fin s)) with (Fin s).
  destruct (maxl_fin bs s Hfin) as (m & Hm & Hin & Hle & Hall).
  unfold Num.maxl in Hm. rewrite Hm. split.
  - destruct Hin as [-> | Hin]; [by left | by right].
  - intros v [-> | Hv]%elem_of_cons; simpl.
    + by apply bool_decide_eq_true.
    + apply (proj1 (Forall_forall _ _) Hfin) in Hv as Hv'.
      apply isFin_inv in Hv' as [t ->]. simpl. apply bool_decide_eq_true. by apply Hall.
Qed.

(** the loop of [getSurroundingBoundingBox] is four folds, one per extreme *)
Lemma surround_fold (boxes : list RotatedBoundingBox.t) (acc : Utils.Extent) :
  foldl Utils.surroundStep acc boxes
  = Utils.mkExtent
      (Num.minl (Utils.ex1 acc)
         (flat_map (fun b => Utils.cornerXs (Utils.getRotatedBoxCoords b)) boxes))
      (Num.minl (Utils.ey1 acc)
         (flat_map (fun b => Utils.cornerYs (Utils.getRotatedBoxCoords b)) boxes))
      (Num.maxl (Utils.ex2 acc)
         (flat_map (fun b => Utils.cornerXs (Utils.getRotatedBoxCoords b)) boxes))
      (Num.maxl (Utils.ey2 acc)
         (flat_map (fun b => Utils.cornerYs (Utils.getRotatedBoxCoords b)) boxes)).
Proof.
  revert acc. induction boxes as [|b boxes IH]; intros acc.
  - by destruct acc.
  - cbn [foldl flat_map]. rewrite IH. unfold Num.minl, Num.maxl.
    by rewrite !foldl_app.
Qed.

Lemma corners_fin (b : RotatedBoundingBox.t) :
  RotatedBoundingBox.isFinite b = true ->
  Forall isFin (Utils.cornerXs (Utils.getRotatedBoxCoords b))
  /\ Forall isFin (Utils.cornerYs (Utils.getRotatedBoxCoords b)).
Proof.
  destruct b as [[] [] [] [] []]; try discriminate. intros _.
  unfold Utils.getRotatedBoxCoords, Utils.cornerXs, Utils.cornerYs,
    Utils.rotatePointAroundAnchor.
  cbn [RotatedBoundingBox.x RotatedBoundingBox.y RotatedBoundingBox.w
       RotatedBoundingBox.h RotatedBoundingBox.rotate Num.add
       Utils.nw Utils.ne Utils.sw Utils.se XYCoords.x XYCoords.y].
  rewrite !div_fin_2. split; repeat constructor.
Qed.

Lemma all_corners_fin (boxes : list RotatedBoundingBox.t) :
  Forall (fun b => RotatedBoundingBox.isFinite b = true) boxes ->
  Forall isFin (flat_map (fun b => Utils.cornerXs (Utils.getRotatedBoxCoords b)) boxes)
  /\ Forall isFin (flat_map (fun b => Utils.cornerYs (Utils.getRotatedBoxCoords b)) boxes).
Proof.
  induction 1 as [|b boxes Hb _ [IHx IHy]]; [by split|].
  destruct (corners_fin b Hb) as [Hx Hy].
  cbn [flat_map]. split; by apply Forall_app.
Qed.

(** the corners that [getRotatedBoxCoords] computes for a box of finite
    numbers are its corners in world space *)
Lemma corners_world (b : SurroundingSpec.Box) :
  exists p1 p2 p3 p4 : R * R,
    SurroundingSpec.worldCorners b = [p1; p2; p3; p4]
    /\ Utils.cornerXs (Utils.getRotatedBoxCoords (SurroundingSpec.toRotatedBoundingBox b))
       = map Fin [p1.1; p2.1; p4.1; p3.1]
    /\ Utils.cornerYs (Utils.getRotatedBoxCoords (SurroundingSpec.toRotatedBoundingBox b))
       = map Fin [p1.2; p2.2; p4.2; p3.2].
Proof.
  destruct b as [x y w h a]. eexists _, _, _, _. split; [reflexivity|].
  unfold Utils.getRotatedBoxCoords, Utils.cornerXs, Utils.cornerYs,
    Utils.rotatePointAroundAnchor, SurroundingSpec.toRotatedBoundingBox,
    SurroundingSpec.turn, SurroundingSpec.centre, Num.sub.
  cbn [RotatedBoundingBox.x RotatedBoundingBox.y RotatedBoundingBox.w
       RotatedBoundingBox.h RotatedBoundingBox.rotate Num.add
       SurroundingSpec.x SurroundingSpec.y SurroundingSpec.w SurroundingSpec.h
       SurroundingSpec.rotate Utils.nw Utils.ne Utils.sw Utils.se
       XYCoords.x XYCoords.y fst snd map].
  rewrite !div_fin_2. cbn [Num.neg Num.add Num.mul Num.cos Num.sin].
  split;
    repeat match goal with
           | |- _ :: _ = _ :: _ => f_equal
           | |- Fin _ = Fin _ => f_equal; field
           end.
Qed.

(** the coordinates that the loop of [getSurroundingBoundingBox] goes
    through are those of the corners in world space *)
Lemma all_corners_world (boxes : list SurroundingSpec.Box) :
  exists xs ys : list R,
    flat_map (fun b => Utils.cornerXs (Utils.getRotatedBoxCoords b))
      (map SurroundingSpec.toRotatedBoundingBox boxes) = map Fin xs
    /\ flat_map (fun b => Utils.cornerYs (Utils.getRotatedBoxCoords b))
         (map SurroundingSpec.toRotatedBoundingBox boxes) = map Fin ys
    /\ (forall v, v ∈ xs <-> v ∈ map fst (SurroundingSpec.allWorldCorners boxes))
    /\ (forall v, v ∈ ys <-> v ∈ map snd (SurroundingSpec.allWorldCorners boxes)).
Proof.
  induction boxes as [|b boxes (xs & ys & Hxs & Hys & Hx & Hy)].
  - by exists [], [].
  - destruct (corners_world b) as (p1 & p2 & p3 & p4 & Hw & Hbx & Hby).
    exists ([p1.1; p2.1; p4.1; p3.1] ++ xs), ([p1.2; p2.2; p4.2; p3.2] ++ ys).
    unfold SurroundingSpec.allWorldCorners in *.
    cbn [map flat_map]. rewrite Hbx, Hby, Hxs, Hys, Hw, !map_app.
    split_and!; [done..| |]; intros v; rewrite !elem_of_app;
      [rewrite Hx | rewrite Hy]; cbn [map app];
      rewrite !elem_of_cons, !elem_of_nil; tauto.
Qed.

(** starting from [Infinity], [Math.min] over finite numbers finds their
    minimum; likewise [Math.max] from [-Infinity] *)
Lemma minl_reals (l : list R) :
  l <> [] ->
  exists m, Num.minl PInf (map Fin l) = Fin m /\ SurroundingSpec.isMin m l.
Proof.
  destruct l as [|s l]; [done|]. intros _.
  unfold Num.minl. cbn [map foldl]. change (Num.min PInf (Fin s)) with (Fin s).
  destruct (minl_fin (map Fin l) s) as (m & Hm & Hin & Hle & Hall).
  { apply Forall_forall. by intros v (r & -> & _)%list_elem_of_fmap. }
  exists m. split; [exact Hm|]. split.
  - destruct Hin as [-> | (r & [= ->] & Hr)%list_elem_of_fmap]; [by left|by right].
  - intros v [-> | Hv]%elem_of_cons; [done|].
    apply Hall, list_elem_of_fmap. by exists v.
Qed.

Lemma maxl_reals (l : list R) :
  l <> [] ->
  exists m, Num.maxl NInf (map Fin l) = Fin m /\ SurroundingSpec.isMax m l.
Proof.
  destruct l as [|s l]; [done|]. intros _.
  unfold Num.maxl. cbn [map foldl]. change (Num.max NInf (Fin s)) with (Fin s).
  destruct (maxl_fin (map Fin l) s) as (m & Hm & Hin & Hle & Hall).
  { apply Forall_forall. by intros v (r & -> & _)%list_elem_of_fmap. }
  exists m. split; [exact Hm|]. split.
  - destruct Hin as [-> | (r & [= ->] & Hr)%list_elem_of_fmap]; [by left|by right].
  - intros v [-> | Hv]%elem_of_cons; [done|].
    apply Hall, list_elem_of_fmap. by exists v.
Qed.

Lemma isMin_equiv (m : R) (l l' : list R) :
  (forall v, v ∈ l <-> v ∈ l') -> SurroundingSpec.isMin m l -> SurroundingSpec.isMin m l'.
Proof. intros H [Hin Hall]. split; [by apply H | intros v Hv; by apply Hall, H]. Qed.

Lemma isMax_equiv (m : R) (l l' : list R) :
  (forall v, v ∈ l <-> v ∈ l') -> SurroundingSpec.isMax m l -> SurroundingSpec.isMax m l'.
Proof. intros H [Hin Hall]. split; [by apply H | intros v Hv; by apply Hall, H]. Qed.

(** the two boxes of the scenario *)
Lemma surrounding_example :
  Utils.getSurroundingBoundingBox
    [RotatedBoundingBox.mk (Fin 0) (Fin 0) (Fin 10) (Fin 10) (Fin 0);
     RotatedBoundingBox.mk (Fin 20) (Fin 20) (Fin 10) (Fin 10) (Fin 0)]
  = RotatedBoundingBox.mk (Fin 0) (Fin 0) (Fin 30) (Fin 30) (Fin 0).
Proof.
  unfold Utils.getSurroundingBoundingBox. rewrite surround_fold.
  unfold Utils.getRotatedBoxCoords, Utils.cornerXs, Utils.cornerYs,
    Utils.rotatePointAroundAnchor.
  cbn [flat_map app RotatedBoundingBox.x RotatedBoundingBox.y RotatedBoundingBox.w
       RotatedBoundingBox.h RotatedBoundingBox.rotate Num.add Num.cos Num.sin
       Utils.nw Utils.ne Utils.sw Utils.se XYCoords.x XYCoords.y Utils.ex1 Utils.ex2
       Utils.ey1 Utils.ey2].
  rewrite !div_fin_2, cos_0, sin_0.
  unfold Num.minl, Num.maxl. cbn [foldl Num.sub Num.neg Num.add Num.mul].
  num_minmax. unfold Num.sub. cbn [Num.neg Num.add]. f_equal; f_equal; lra.
Qed.

(** a box of 10 by 20 turned by a quarter of a turn covers 20 by 10 about
    the same centre: with the second box of the scenario the surrounding
    box runs from (-5, 5) to (30, 30) *)
Lemma surrounding_example_rotated :
  Utils.getSurroundingBoundingBox
    [RotatedBoundingBox.mk (Fin 0) (Fin 0) (Fin 10) (Fin 20) (Fin (PI / 2));
     RotatedBoundingBox.mk (Fin 20) (Fin 20) (Fin 10) (Fin 10) (Fin 0)]
  = RotatedBoundingBox.mk (Fin (-5)) (Fin 5) (Fin 35) (Fin 25) (Fin 0).
Proof.
  unfold Utils.getSurroundingBoundingBox. rewrite surround_fold.
  unfold Utils.getRotatedBoxCoords, Utils.cornerXs, Utils.cornerYs,
    Utils.rotatePointAroundAnchor.
  cbn [flat_map app RotatedBoundingBox.x RotatedBoundingBox.y RotatedBoundingBox.w
       RotatedBoundingBox.h RotatedBoundingBox.rotate Num.add Num.cos Num.sin
       Utils.nw Utils.ne Utils.sw Utils.se XYCoords.x XYCoords.y Utils.ex1 Utils.ex2
       Utils.ey1 Utils.ey2].
  rewrite !div_fin_2, cos_0, sin_0, cos_PI2, sin_PI2.
  unfold Num.minl, Num.maxl. cbn [foldl Num.sub Num.neg Num.add Num.mul].
  num_minmax. unfold Num.sub. cbn [Num.neg Num.add]. f_equal; f_equal; lra.
Qed.

(** C1. [getSurroundingBoundingBox] gives the zero box for no box and the
    box itself, rotation included, for one box.  For two or more boxes
    (of finite numbers) it gives [rotate = 0], and [x], [y], [x + w] and
    [y + h] are the minimum and the maximum coordinate over the corners of
    all the boxes in world space, each corner turned about the centre of
    its box by the rotation of the box: the smallest axis-aligned box that
    holds them.  The two boxes of the scenario give [{0, 0, 30, 30, 0}];
    with the first box 10 by 20 and turned by [PI / 2] the result is
    [{-5, 5, 35, 25, 0}]. *)
Theorem getSurroundingBoundingBox_spec :
  Utils.getSurroundingBoundingBox []
  = RotatedBoundingBox.mk (Fin 0) (Fin 0) (Fin 0) (Fin 0) (Fin 0)
  /\ (forall b, Utils.getSurroundingBoundingBox [b] = b)
  /\ (forall boxes : list SurroundingSpec.Box,
        (2 <= length boxes)%nat ->
        exists x1 y1 x2 y2 : R,
          Utils.getSurroundingBoundingBox
            (map SurroundingSpec.toRotatedBoundingBox boxes)
          = RotatedBoundingBox.mk (Fin x1) (Fin y1) (Fin (x2 - x1)) (Fin (y2 - y1))
              (Fin 0)
          /\ SurroundingSpec.isMin x1 (map fst (SurroundingSpec.allWorldCorners boxes))
          /\ SurroundingSpec.isMin y1 (map snd (SurroundingSpec.allWorldCorners boxes))
          /\ SurroundingSpec.isMax x2 (map fst (SurroundingSpec.allWorldCorners boxes))
          /\ SurroundingSpec.isMax y2 (map snd (SurroundingSpec.allWorldCorners boxes)))
  /\ Utils.getSurroundingBoundingBox
       [RotatedBoundingBox.mk (Fin 0) (Fin 0) (Fin 10) (Fin 10) (Fin 0);
        RotatedBoundingBox.mk (Fin 20) (Fin 20) (Fin 10) (Fin 10) (Fin 0)]
     = RotatedBoundingBox.mk (Fin 0) (Fin 0) (Fin 30) (Fin 30) (Fin 0)
  /\ Utils.getSurroundingBoundingBox
       [RotatedBoundingBox.mk (Fin 0) (Fin 0) (Fin 10) (Fin 20) (Fin (PI / 2));
        RotatedBoundingBox.mk (Fin 20) (Fin 20) (Fin 10) (Fin 10) (Fin 0)]
     = RotatedBoundingBox.mk (Fin (-5)) (Fin 5) (Fin 35) (Fin 25) (Fin 0).
Proof.
  split_and!.
  - done.
  - by intros [].
  - intros boxes Hlen.
    destruct (all_corners_world boxes) as (xs & ys & Hxs & Hys & Hx & Hy).
    destruct boxes as [|b1 [|b2 boxes]]; [simpl in Hlen; lia ..|].
    unfold Utils.getSurroundingBoundingBox. cbn [map].
    change (SurroundingSpec.toRotatedBoundingBox b1
              :: SurroundingSpec.toRotatedBoundingBox b2
              :: map SurroundingSpec.toRotatedBoundingBox boxes)
      with (map SurroundingSpec.toRotatedBoundingBox (b1 :: b2 :: boxes)).
    rewrite surround_fold, Hxs, Hys. cbn [Utils.ex1 Utils.ey1 Utils.ex2 Utils.ey2].
    assert (Hxne : xs <> []).
    { intros ->. destruct (corners_world b1) as (p1 & ? & ? & ? & _ & H & _).
      cbn [map flat_map] in Hxs. rewrite H in Hxs. done. }
    assert (Hyne : ys <> []).
    { intros ->. destruct (corners_world b1) as (p1 & ? & ? & ? & _ & _ & H).
      cbn [map flat_map] in Hys. rewrite H in Hys. done. }
    destruct (minl_reals xs Hxne) as (x1 & -> & Hx1).
    destruct (minl_reals ys Hyne) as (y1 & -> & Hy1).
    destruct (maxl_reals xs Hxne) as (x2 & -> & Hx2).
    destruct (maxl_reals ys Hyne) as (y2 & -> & Hy2).
    exists x1, y1, x2, y2. split_and!.
    + unfold Num.sub. cbn [Num.neg Num.add]. f_equal; f_equal; lra.
    + by apply (isMin_equiv _ xs).
    + by apply (isMin_equiv _ ys).
    + by apply (isMax_equiv _ xs).
    + by apply (isMax_equiv _ ys).
  - apply surrounding_example.
  - apply surrounding_example_rotated.
Qed.

Lemma getSurroundingBoundingBox_spec_witness :
  exists x1 y1 x2 y2 : R,
    Utils.getSurroundingBoundingBox
      (map SurroundingSpec.toRotatedBoundingBox
         [SurroundingSpec.mkBox 0 0 10 20 (PI / 2);
          SurroundingSpec.mkBox 20 20 10 10 0])
    = RotatedBoundingBox.mk (Fin x1) (Fin y1) (Fin (x2 - x1)) (Fin (y2 - y1)) (Fin 0)
    /\ SurroundingSpec.isMin x1
         (map fst
            (SurroundingSpec.allWorldCorners
               [SurroundingSpec.mkBox 0 0 10 20 (PI / 2);
                SurroundingSpec.mkBox 20 20 10 10 0]))
    /\ SurroundingSpec.isMin y1
         (map snd
            (SurroundingSpec.allWorldCorners
               [SurroundingSpec.mkBox 0 0 10 20 (PI / 2);
                SurroundingSpec.mkBox 20 20 10 10 0]))
    /\ SurroundingSpec.isMax x2
         (map fst
            (SurroundingSpec.allWorldCorners
               [SurroundingSpec.mkBox 0 0 10 20 (PI / 2);
                SurroundingSpec.mkBox 20 20 10 10 0]))
    /\ SurroundingSpec.isMax y2
         (map snd
            (SurroundingSpec.allWorldCorners
               [SurroundingSpec.mkBox 0 0 10 20 (PI / 2);
                SurroundingSpec.mkBox 20 20 10 10 0])).
Proof.
  apply (proj1 (proj2 (proj2 getSurroundingBoundingBox_spec))).
  simpl. lia.
Defined.

(** ** C8 *)

(** C8. After [assignWithoutUndefined target patch] a key reads the patch
    value when the patch defines it with a value other than [undefined];
    every other key (absent from the patch, or present with [undefined])
    reads what the target held before, and stays absent if it was absent. *)
Theorem assignWithoutUndefined_lookup (target patch : gmap string Utils.value)
    (key : string) :
  Utils.assignWithoutUndefined target patch !! key
  = match patch !! key with
    | Some v => if Utils.isUndefined v then target !! key else Some v
    | None => target !! key
    end.
Proof.
  unfold Utils.assignWithoutUndefined.
  apply (map_fold_weak_ind
           (fun (r : gmap string Utils.value) (m : gmap string Utils.value) =>
              r !! key
              = match m !! key with
                | Some v => if Utils.isUndefined v then target !! key else Some v
                | None => target !! key
                end)).
  - by rewrite lookup_empty.
  - intros k v m r Hk IH.
    destruct (decide (k = key)) as [-> | Hne].
    + rewrite lookup_insert_eq.
      destruct (Utils.isUndefined v) eqn:Hv.
      * rewrite IH, Hk. done.
      * by rewrite lookup_insert_eq.
    + rewrite (lookup_insert_ne m) by done.
      destruct (Utils.isUndefined v); [done|].
      by rewrite lookup_insert_ne.
Qed.

(** ** C10 *)

Lemma sq_notNegative (v : number) : notNegative (Num.sq v).
Proof. destruct v; simpl; try done. nra. Qed.

Lemma div_notNegative (a b : number) :
  notNegative a -> notNegative b -> notNegative (a / b)%num.
Proof.
  destruct a as [r| | |], b as [s| | |]; simpl; try done; intros Ha Hb.
  - case_decide as Hs.
    + unfold Num.sgn. case_decide; [done|]. simpl. by case_bool_decide; [|lra].
    + simpl. apply Rmult_le_pos; [done|]. apply Rlt_le, Rinv_0_lt_compat. lra.
  - by rewrite bool_decide_eq_true_2.
Qed.

(** a square over zero is [Infinity], or [NaN] when the square is zero *)
Lemma div_zero_infOrNaN (a : number) (s : R) :
  s = 0 -> notNegative a -> infOrNaN (a / Fin s)%num.
Proof.
  intros -> Ha. destruct a as [r| | |]; simpl in *; try done.
  - rewrite decide_True by done. unfold Num.sgn. case_decide; [by right|].
    simpl. rewrite bool_decide_eq_true_2 by lra. by left.
  - rewrite bool_decide_eq_true_2 by lra. by left.
  - by right.
Qed.

Lemma add_infOrNaN_l (a b : number) :
  infOrNaN a -> notNegative b -> infOrNaN (a + b)%num.
Proof.
  intros [-> | ->] Hb; destruct b; simpl in *; try done;
    first [by left | by right].
Qed.

Lemma add_infOrNaN_r (a b : number) :
  notNegative a -> infOrNaN b -> infOrNaN (a + b)%num.
Proof.
  intros Ha [-> | ->]; destruct a; simpl in *; try done;
    first [by left | by right].
Qed.

Lemma infOrNaN_leb (a b : R) (v : number) : infOrNaN v -> (v <=? Fin b)%num = false.
Proof. by intros [-> | ->]. Qed.

(** half of a zero extent, squared, is zero *)
Lemma sq_half_zero : Num.sq (Fin 0 / Fin 2)%num = Fin (0 / 2 * (0 / 2)).
Proof. by rewrite div_fin_2. Qed.

(** C10. [hitTest] answers [true] at the centre [(x + w/2, y + h/2)] of an
    ellipse with [w > 0] and [h > 0], whatever its rotation; and an
    ellipse with [w = 0] or [h = 0] is hit at no coordinate, the value
    compared with 1 being [Infinity] or [NaN]. *)
Theorem ellipse_hitTest_centre_and_degenerate :
  (forall x y w h rotate : R,
      0 < w -> 0 < h ->
      EllipseHandler.hitTest
        (RotatedBoundingBox.mk (Fin x) (Fin y) (Fin w) (Fin h) (Fin rotate))
        (XYCoords.mk (Fin x + Fin w / Fin 2)%num (Fin y + Fin h / Fin 2)%num)
      = true)
  /\ (forall (element : EllipseHandler.EllipseElement) (coords : XYCoords.t),
        RotatedBoundingBox.w element = Fin 0 \/ RotatedBoundingBox.h element = Fin 0 ->
        EllipseHandler.hitTest element coords = false).
Proof.
  split.
  - intros x y w h rotate Hw Hh.
    unfold EllipseHandler.hitTest, EllipseHandler.rotatePoint,
      Utils.rotatePointAroundAnchor.
    cbn [RotatedBoundingBox.x RotatedBoundingBox.y RotatedBoundingBox.w
         RotatedBoundingBox.h RotatedBoundingBox.rotate XYCoords.x XYCoords.y].
    rewrite !div_fin_2. unfold Num.sub.
    cbn [Num.neg Num.add Num.cos Num.sin Num.mul Num.sq].
    rewrite !div_fin by nra.
    cbn [Num.add Num.leb]. apply bool_decide_eq_true.
    match goal with
    | |- ?a / ?b + ?c / ?d <= 1 =>
        replace a with 0 by ring; replace c with 0 by ring
    end.
    unfold Rdiv. lra.
  - intros [x y w h rotate] coords Hdeg.
    unfold EllipseHandler.hitTest.
    cbn [RotatedBoundingBox.x RotatedBoundingBox.y RotatedBoundingBox.w
         RotatedBoundingBox.h RotatedBoundingBox.rotate] in *.
    apply (infOrNaN_leb 0). destruct Hdeg as [-> | ->].
    + apply add_infOrNaN_l.
      * rewrite sq_half_zero. apply div_zero_infOrNaN; [lra | apply sq_notNegative].
      * apply div_notNegative; apply sq_notNegative.
    + apply add_infOrNaN_r.
      * apply div_notNegative; apply sq_notNegative.
      * rewrite sq_half_zero. apply div_zero_infOrNaN; [lra | apply sq_notNegative].
Qed.

Lemma ellipse_hitTest_witness :
  EllipseHandler.hitTest
    (RotatedBoundingBox.mk (Fin 10) (Fin 20) (Fin 4) (Fin 2) (Fin 1))
    (XYCoords.mk (Fin 10 + Fin 4 / Fin 2)%num (Fin 20 + Fin 2 / Fin 2)%num)
  = true
  /\ EllipseHandler.hitTest
       (RotatedBoundingBox.mk (Fin 10) (Fin 20) (Fin 0) (Fin 2) (Fin 0))
       (XYCoords.mk (Fin 10) (Fin 21))
     = false.
Proof.
  split.
  - apply (proj1 ellipse_hitTest_centre_and_degenerate); lra.
  - apply (proj2 ellipse_hitTest_centre_and_degenerate). by left.
Defined.

(** ** C7 *)

Lemma threshold_fin : Constants.ROTATION_SNAP_THRESHOLD = Fin (PI / 12).
Proof. unfold Constants.ROTATION_SNAP_THRESHOLD, Num.PI. apply div_fin. lra. Qed.

(** rounding to the nearest integer lands within one half *)
Lemma round_half (y : R) :
  IZR (Zfloor (y + / 2)) - / 2 <= y <= IZR (Zfloor (y + / 2)) + / 2.
Proof. pose proof (Zfloor_bound (y + / 2)). lra. Qed.

(** an integer other than [k] is at least one away from it *)
Lemma IZR_apart (j k : Z) : j <> k -> IZR j <= IZR k - 1 \/ IZR k + 1 <= IZR j.
Proof.
  intros Hne. destruct (Z_lt_le_dec j k) as [Hlt | Hge].
  - left. assert (j <= k - 1)%Z as H%IZR_le by lia. rewrite minus_IZR in H. lra.
  - right. assert (k + 1 <= j)%Z as H%IZR_le by lia. rewrite plus_IZR in H. lra.
Qed.

Lemma snapRotation_fin (raw : R) :
  App.snapRotation false (Fin raw)
  = Fin (IZR (Zfloor (raw / (PI / 12) + / 2)) * (PI / 12)).
Proof.
  unfold App.snapRotation. cbn [negb]. rewrite threshold_fin.
  pose proof PI_RGT_0. by rewrite div_fin by lra.
Qed.

Lemma snap_nearest (raw : R) (k : Z) :
  k = Zfloor (raw / (PI / 12) + / 2) ->
  Rabs (IZR k * (PI / 12) - raw) <= PI / 24
  /\ forall j : Z, Rabs (IZR k * (PI / 12) - raw) <= Rabs (IZR j * (PI / 12) - raw).
Proof.
  intros ->. pose proof PI_RGT_0 as Hpi.
  set (t := PI / 12). assert (Ht : 0 < t) by (unfold t; lra).
  set (y := raw / t). assert (Hy : raw = y * t) by (unfold y; field; lra).
  pose proof (round_half y) as Hk.
  set (k := Zfloor (y + / 2)) in *.
  assert (Hclose : Rabs (IZR k * t - raw) <= t / 2).
  { apply Rabs_le. rewrite Hy. nra. }
  split; [unfold t in *; lra|].
  intros j. destruct (decide (j = k)) as [-> | Hne]; [lra|].
  apply Rle_trans with (t / 2); [done|].
  apply IZR_apart in Hne. rewrite Hy.
  destruct Hne; [rewrite Rabs_left by nra | rewrite Rabs_right by nra]; nra.
Qed.

(** C7. In a rotate gesture without the ctrl key every transforming
    element is mutated with the same snapped angle [k * (PI / 12)], [k] an
    integer: the multiple of [PI / 12] nearest to the raw angle
    ([round (raw / threshold) * threshold]), at most [PI / 24] away from it. *)
Theorem onElementRotate_snaps_to_threshold (ext : Collaborators)
    (p : PointerState.t) (elements : list TransformingElement)
    (handle : TransformHandle) (a : App.t) (raw : R) :
  getRotateAngle ext (App.objects a) elements
    (Viewport.screenOffsetToVirtualOffset (App.pointerScreenCoords p) (App.state a))
    handle = Fin raw ->
  exists k : Z,
    App.snapRotation false (Fin raw)
    = (Num.round (Fin raw / Constants.ROTATION_SNAP_THRESHOLD)
       * Constants.ROTATION_SNAP_THRESHOLD)%num
    /\ App.snapRotation false (Fin raw) = Fin (IZR k * (PI / 12))
    /\ App.onElementRotate ext false p elements handle a
       = foldl
           (fun acc te =>
              App.mutateElement (element te)
                (getRotateMutations ext (App.objects acc) te
                   (Fin (IZR k * (PI / 12))) handle)
                acc)
           a elements
    /\ Rabs (IZR k * (PI / 12) - raw) <= PI / 24
    /\ forall j : Z,
         Rabs (IZR k * (PI / 12) - raw) <= Rabs (IZR j * (PI / 12) - raw).
Proof.
  intros Hraw. exists (Zfloor (raw / (PI / 12) + / 2)).
  split; [done|]. split; [apply snapRotation_fin|]. split.
  - unfold App.onElementRotate. by rewrite Hraw, snapRotation_fin.
  - by apply snap_nearest.
Qed.

Lemma onElementRotate_snaps_witness :
  exists k : Z,
    App.snapRotation false (Fin 1)
    = (Num.round (Fin 1 / Constants.ROTATION_SNAP_THRESHOLD)
       * Constants.ROTATION_SNAP_THRESHOLD)%num
    /\ App.snapRotation false (Fin 1) = Fin (IZR k * (PI / 12))
    /\ App.onElementRotate Examples.collaborators false
         (Examples.pointerAt (Fin 10) (Fin 20)) []
         (Examples.rotateHandleAt (Fin 0) (Fin 0)) (Examples.emptyApp Selection)
       = foldl
           (fun acc te =>
              App.mutateElement (element te)
                (getRotateMutations Examples.collaborators (App.objects acc) te
                   (Fin (IZR k * (PI / 12))) (Examples.rotateHandleAt (Fin 0) (Fin 0)))
                acc)
           (Examples.emptyApp Selection) []
    /\ Rabs (IZR k * (PI / 12) - 1) <= PI / 24
    /\ forall j : Z,
         Rabs (IZR k * (PI / 12) - 1) <= Rabs (IZR j * (PI / 12) - 1).
Proof.
  apply (onElementRotate_snaps_to_threshold Examples.collaborators
           (Examples.pointerAt (Fin 10) (Fin 20)) []
           (Examples.rotateHandleAt (Fin 0) (Fin 0)) (Examples.emptyApp Selection) 1).
  reflexivity.
Defined.

(** ** C5 and C9: pointer-up *)



(** C9. Pointer-up in mode [CREATING] on an element that is not a text
    element: when [isElementNegligible] holds for it under the current
    state the element is removed from the element layer (the other
    elements stay, in order) and the editing reference is cleared;
    otherwise the layer and the editing reference are as before. *)
Theorem onWindowPointerUp_deletes_negligible (ext : Collaborators) (a : App.t)
    (p : PointerState.t) (r : ref) (el : Element.t) :
  App.pointer a = Some p ->
  AppState.usermode (App.state a) = CREATING ->
  App.editingElement a = Some r ->
  App.objects a !! r = Some el ->
  Element.isText el = false ->
  exists a',
    App.onWindowPointerUp ext a = Some a'
    /\ (isElementNegligible ext el (App.state a) = true ->
        App.elementLayer a' = ElementLayer.deleteElement r (App.elementLayer a)
        /\ (r ∉ ElementLayer.getAllElements (App.elementLayer a'))
        /\ ElementLayer.getAllElements (App.elementLayer a')
           = filter (fun r' => r' <> r) (ElementLayer.getAllElements (App.elementLayer a))
        /\ App.editingElement a' = None)
    /\ (isElementNegligible ext el (App.state a) = false ->
        App.elementLayer a' = App.elementLayer a
        /\ App.editingElement a' = Some r
        /\ App.objects a' = App.objects a).
Proof.
  intros Hp Hmode Hr Hel Htext.
  unfold App.onWindowPointerUp. rewrite Hp, Hmode, Hr, Hel, Htext.
  destruct (isElementNegligible ext el (App.state a)).
  - eexists. split; [reflexivity|]. split; [|done]. intros _.
    cbn. split_and!; try done.
    intros Hin%list_elem_of_filter. by destruct Hin.
  - eexists. split; [reflexivity|]. split; [done|]. intros _. by cbn.
Qed.

Lemma onWindowPointerUp_deletes_negligible_witness :
  let el :=
    Elements.createShapeElement rect (Examples.box (Fin 0) (Fin 0) (Fin 0) (Fin 0)) in
  let a := Examples.creating Rectangle el in
  exists a',
    App.onWindowPointerUp Examples.collaborators a = Some a'
    /\ (isElementNegligible Examples.collaborators el (App.state a) = true ->
        App.elementLayer a' = ElementLayer.deleteElement 0%nat (App.elementLayer a)
        /\ (0%nat ∉ ElementLayer.getAllElements (App.elementLayer a'))
        /\ ElementLayer.getAllElements (App.elementLayer a')
           = filter (fun r' => r' <> 0%nat)
               (ElementLayer.getAllElements (App.elementLayer a))
        /\ App.editingElement a' = None)
    /\ (isElementNegligible Examples.collaborators el (App.state a) = false ->
        App.elementLayer a' = App.elementLayer a
        /\ App.editingElement a' = Some 0%nat
        /\ App.objects a' = App.objects a).
Proof.
  apply (onWindowPointerUp_deletes_negligible Examples.collaborators _
           (Examples.pointerAt (Fin 10) (Fin 20))).
  - reflexivity.
  - reflexivity.
  - reflexivity.
  - apply lookup_singleton_eq.
  - reflexivity.
Defined.

(** ** C3: creating a rectangle by a drag *)

Lemma snap_disabled (p : XYCoords.t) (s : AppState.t) :
  gridSnap (AppState.grid s) = false -> Viewport.snapVirtualCoordsToGrid p s = p.
Proof. unfold Viewport.snapVirtualCoordsToGrid. by intros ->. Qed.

(** pointer-down with the Rectangle tool starts the creation of a shape *)
Lemma pointerDown_creates_rect (ext : Collaborators) (down : PointerEvent.t) (a : App.t) :
  PointerEvent.buttons down = 1%nat ->
  AppState.activeTool (App.state a) = Rectangle ->
  App.creatingShape (AppState.setUsermode CREATING (App.state a))
    (XYCoords.mk (PointerEvent.clientX down) (PointerEvent.clientY down))
    (PointerEvent.ctrlKey down) (fresh (dom (App.objects a))) rect
    (App.onCanvasPointerDown ext down a)
  /\ fresh (dom (App.objects a))
     ∈ ElementLayer.getAllElements (App.elementLayer (App.onCanvasPointerDown ext down a)).
Proof.
  intros Hb Htool. unfold App.onCanvasPointerDown. rewrite Hb. cbn.
  rewrite Htool. cbn. split.
  - split_and!; try done.
    + eexists. split_and!; done.
    + eexists. split; [apply lookup_insert_eq|]. done.
  - apply elem_of_app. right. by left.
Qed.

(** the [shape] case of [onElementCreation] patches the box and the flip
    flags only *)
Lemma shapeCreationMutations_frame (s : AppState.t) (eCtrlKey : bool)
    (p : PointerState.t) :
  let m := App.shapeCreationMutations s eCtrlKey p in
  Mutations.rotate m = None /\ Mutations.fill m = None
  /\ Mutations.path m = None /\ Mutations.text m = None.
Proof. unfold App.shapeCreationMutations. by destruct eCtrlKey. Qed.

(** a pointer-move during the creation of a shape rewrites the box of the
    shape from the pointer origin and the new offset *)
Lemma pointerMove_creating (ext : Collaborators) (e : PointerEvent.t)
    (s : AppState.t) (o : XYCoords.t) (c : bool) (r : ref) (sh : Shape) (a : App.t) :
  AppState.activeTool s = Rectangle ->
  AppState.usermode s = CREATING ->
  App.creatingShape s o c r sh a ->
  exists p,
    App.pointer a = Some p /\ PointerState.origin p = o /\ PointerState.ctrlKey p = c
    /\ App.onWindowPointerMove ext e a
       = App.mutateElement r
           (App.shapeCreationMutations s (PointerEvent.ctrlKey e) (App.dragTo e p))
           (App.setPointer (Some (App.dragTo e p)) a).
Proof.
  intros Htool Hmode (Hs & Hr & (p & Hp & Ho & Hc) & (el & Hel & Hdata & Hrot & Hfill)).
  exists p. split_and!; try done.
  unfold App.onWindowPointerMove. rewrite Hp. cbn.
  rewrite Hs, Htool, Hmode, Hr. unfold App.onElementCreation. cbn.
  by rewrite Hel, Hdata, Hs.
Qed.

Lemma pointerMove_keeps_creating (ext : Collaborators) (e : PointerEvent.t)
    (s : AppState.t) (o : XYCoords.t) (c : bool) (r : ref) (sh : Shape) (a : App.t) :
  AppState.activeTool s = Rectangle ->
  AppState.usermode s = CREATING ->
  App.creatingShape s o c r sh a ->
  App.creatingShape s o c r sh (App.onWindowPointerMove ext e a)
  /\ App.elementLayer (App.onWindowPointerMove ext e a) = App.elementLayer a.
Proof.
  intros Htool Hmode Hinv.
  destruct (pointerMove_creating ext e s o c r sh a Htool Hmode Hinv)
    as (p & Hp & Ho & Hc & ->).
  destruct Hinv as (Hs & Hr & _ & (el & Hel & Hdata & Hrot & Hfill)).
  split; [|done]. split_and!; try done.
  - eexists. split_and!; [reflexivity|done..].
  - eexists. cbn. unfold ElementLayer.mutateElement.
    rewrite lookup_alter_eq, Hel. cbn. split; [reflexivity|].
    destruct (shapeCreationMutations_frame s (PointerEvent.ctrlKey e) (App.dragTo e p))
      as (Hm1 & Hm2 & _).
    unfold ElementLayer.applyMutations. cbn. by rewrite Hdata, Hm1, Hm2.
Qed.

Lemma pointerMoves_keep_creating (ext : Collaborators) (moves : list PointerEvent.t)
    (s : AppState.t) (o : XYCoords.t) (c : bool) (r : ref) (sh : Shape) (a : App.t) :
  AppState.activeTool s = Rectangle ->
  AppState.usermode s = CREATING ->
  App.creatingShape s o c r sh a ->
  App.creatingShape s o c r sh
    (foldl (fun acc e => App.onWindowPointerMove ext e acc) a moves)
  /\ App.elementLayer (foldl (fun acc e => App.onWindowPointerMove ext e acc) a moves)
     = App.elementLayer a.
Proof.
  intros Htool Hmode. revert a.
  induction moves as [|e moves IH]; intros a Hinv; [done|].
  cbn [foldl].
  destruct (pointerMove_keeps_creating ext e s o c r sh a Htool Hmode Hinv) as [H1 H2].
  destruct (IH _ H1) as [H3 H4]. split; [done|]. by rewrite H4.
Qed.

(** With grid snapping disabled the box of the shape runs from the
    virtual press position to the virtual pointer position, whatever the
    ctrl keys, as long as the pointer has left the press position on both
    axes. *)
Lemma shapeCreationMutations_unsnapped (s : AppState.t) (eCtrlKey : bool)
    (p : PointerState.t) (z sx sy px py qx qy : R) :
  AppState.zoom s = Fin z ->
  AppState.scrollOffset s = XYCoords.mk (Fin sx) (Fin sy) ->
  gridSnap (AppState.grid s) = false ->
  z <> 0 -> qx <> px -> qy <> py ->
  PointerState.origin p = XYCoords.mk (Fin px) (Fin py) ->
  offset (PointerState.drag p) = XYCoords.mk (Fin qx - Fin px)%num (Fin qy - Fin py)%num ->
  App.shapeCreationMutations s eCtrlKey p
  = Mutations.mk
      (Some (Fin ((px - sx) / z + Rmin ((qx - px) / z) 0)))
      (Some (Fin ((py - sy) / z + Rmin ((qy - py) / z) 0)))
      (Some (Fin (Rabs ((qx - px) / z))))
      (Some (Fin (Rabs ((qy - py) / z))))
      None
      (Some (bool_decide ((qx - px) / z < 0)))
      (Some (bool_decide ((qy - py) / z < 0)))
      None None None.
Proof.
  intros Hz Hscroll Hsnap Hz0 Hx Hy Ho Hoff.
  assert (Hw : (qx - px) / z <> 0).
  { intros H. apply Hx. apply (f_equal (fun v => v * z)) in H.
    unfold Rdiv in H. rewrite Rmult_assoc, Rinv_l in H by done. lra. }
  assert (Hh : (qy - py) / z <> 0).
  { intros H. apply Hy. apply (f_equal (fun v => v * z)) in H.
    unfold Rdiv in H. rewrite Rmult_assoc, Rinv_l in H by done. lra. }
  unfold App.shapeCreationMutations, Viewport.screenOffsetToVirtualOffset.
  rewrite !snap_disabled by done. rewrite Hz, Hscroll, Ho, Hoff.
  cbn [XYCoords.x XYCoords.y Num.sub Num.neg Num.add]. rewrite !div_fin by done.
  replace (qx + - px) with (qx - px) by lra.
  replace (qy + - py) with (qy - py) by lra.
  replace (px + - sx) with (px - sx) by lra.
  replace (py + - sy) with (py - sy) by lra.
  assert (Hbox :
    (if negb eCtrlKey
     then (Num.or (Fin ((px - sx) / z) + Fin ((qx - px) / z) - Fin ((px - sx) / z))%num
             (gridSize (AppState.grid s)),
           Num.or (Fin ((py - sy) / z) + Fin ((qy - py) / z) - Fin ((py - sy) / z))%num
             (gridSize (AppState.grid s)))
     else (Fin ((qx - px) / z), Fin ((qy - py) / z)))
    = (Fin ((qx - px) / z), Fin ((qy - py) / z))).
  { destruct eCtrlKey; [done|]. cbn [negb Num.sub Num.neg Num.add].
    replace ((px - sx) / z + (qx - px) / z + - ((px - sx) / z)) with ((qx - px) / z) by lra.
    replace ((py - sy) / z + (qy - py) / z + - ((py - sy) / z)) with ((qy - py) / z) by lra.
    unfold Num.or, Num.truthy. by rewrite !bool_decide_eq_false_2 by done. }
  destruct (negb (PointerState.ctrlKey p)); cbn [XYCoords.x XYCoords.y];
    rewrite Hbox, invertNegativeBoundingBox_fin; done.
Qed.

(** A drag with the Rectangle tool, grid snapping disabled: the element
    created spans the virtual press position and the virtual position of
    the last move, with the flip flags telling on which axes the pointer
    went backwards. *)
Lemma rectangle_drag (ext : Collaborators) (a : App.t) (down last : PointerEvent.t)
    (moves : list PointerEvent.t) (z sx sy px py qx qy : R) :
  AppState.zoom (App.state a) = Fin z ->
  AppState.scrollOffset (App.state a) = XYCoords.mk (Fin sx) (Fin sy) ->
  gridSnap (AppState.grid (App.state a)) = false ->
  AppState.activeTool (App.state a) = Rectangle ->
  z <> 0 -> qx <> px -> qy <> py ->
  PointerEvent.buttons down = 1%nat ->
  PointerEvent.clientX down = Fin px -> PointerEvent.clientY down = Fin py ->
  PointerEvent.clientX last = Fin qx -> PointerEvent.clientY last = Fin qy ->
  let r := fresh (dom (App.objects a)) in
  let el :=
    Element.mk
      (Fin ((px - sx) / z + Rmin ((qx - px) / z) 0))
      (Fin ((py - sy) / z + Rmin ((qy - py) / z) 0))
      (Fin (Rabs ((qx - px) / z))) (Fin (Rabs ((qy - py) / z)))
      (Fin 0) (bool_decide ((qx - px) / z < 0)) (bool_decide ((qy - py) / z < 0))
      Constants.DEFAULT_FILL (shape rect) in
  exists a',
    App.dragGesture ext down (moves ++ [last]) a = Some a'
    /\ App.objects a' !! r = Some el
    /\ AppState.usermode (App.state a') = IDLE
    /\ (isElementNegligible ext el (AppState.setUsermode CREATING (App.state a)) = false ->
        r ∈ ElementLayer.getAllElements (App.elementLayer a')
        /\ App.editingElement a' = Some r).
Proof.
  intros Hz Hscroll Hsnap Htool Hz0 Hx Hy Hb Hdx Hdy Hlx Hly r el.
  set (s := AppState.setUsermode CREATING (App.state a)).
  assert (Hstool : AppState.activeTool s = Rectangle) by done.
  assert (Hsmode : AppState.usermode s = CREATING) by done.
  destruct (pointerDown_creates_rect ext down a Hb Htool) as [Hinv1 Hin1].
  fold r s in Hinv1, Hin1. rewrite Hdx, Hdy in Hinv1.
  destruct (pointerMoves_keep_creating ext moves _ _ _ _ _ _ Hstool Hsmode Hinv1)
    as [Hinv2 Hlayer2].
  unfold App.dragGesture. rewrite foldl_app. cbn [foldl].
  set (a2 := foldl _ (App.onCanvasPointerDown ext down a) moves) in *.
  destruct (pointerMove_creating ext last _ _ _ _ _ _ Hstool Hsmode Hinv2)
    as (p & Hp & Ho & Hc & ->).
  destruct Hinv2 as (Hs & Hr & _ & (el2 & Hel2 & Hdata & Hrot & Hfill)).
  rewrite (shapeCreationMutations_unsnapped s _ (App.dragTo last p) z sx sy px py qx qy);
    try done; cycle 1.
  { cbn. by rewrite Ho, Hlx, Hly. }
  set (m := Mutations.mk _ _ _ _ _ _ _ _ _ _).
  assert (Hfinal : ElementLayer.applyMutations m el2 = el).
  { unfold ElementLayer.applyMutations, m. cbn. by rewrite Hdata, Hrot, Hfill. }
  assert (Hlook : App.objects (App.mutateElement r m
                     (App.setPointer (Some (App.dragTo last p)) a2)) !! r = Some el).
  { cbn. unfold ElementLayer.mutateElement. by rewrite lookup_alter_eq, Hel2, <- Hfinal. }
  unfold App.onWindowPointerUp.
  cbn [App.pointer App.mutateElement App.setObjects App.setPointer App.state
       App.editingElement App.objects] in *.
  rewrite Hs, Hsmode, Hr, Hlook.
  change (Element.isText el) with false. cbn iota.
  destruct (isElementNegligible ext el s) eqn:Hneg.
  - eexists. split; [reflexivity|]. cbn. split_and!; done.
  - eexists. split; [reflexivity|]. cbn. split_and!; try done.
    intros _. by rewrite Hlayer2.
Qed.

(** a difference of screen positions, in virtual units *)
Lemma virtual_difference (z s p q v u : R) :
  z <> 0 -> (p - s) / z = v -> (q - s) / z = u -> (q - p) / z = u - v.
Proof. intros Hz <- <-. by field. Qed.

(** C3. With the Rectangle tool and grid snapping disabled (any zoom, any
    pan, any ctrl keys, any moves in between), a drag from virtual
    (100,100) to virtual (150,140) leaves the new element with
    [x=100, y=100, w=50, h=40] and both flip flags off; the reverse drag,
    from (150,140) to (100,100), leaves the same box with both flip flags
    on.  In both the mode ends [IDLE] and the element stays in the layer
    unless [isElementNegligible] discards it. *)
Theorem rectangle_creation_scenarios (ext : Collaborators) (a : App.t)
    (down last : PointerEvent.t) (moves : list PointerEvent.t)
    (z sx sy px py qx qy : R) :
  AppState.zoom (App.state a) = Fin z ->
  AppState.scrollOffset (App.state a) = XYCoords.mk (Fin sx) (Fin sy) ->
  gridSnap (AppState.grid (App.state a)) = false ->
  AppState.activeTool (App.state a) = Rectangle ->
  z <> 0 ->
  PointerEvent.buttons down = 1%nat ->
  PointerEvent.clientX down = Fin px -> PointerEvent.clientY down = Fin py ->
  PointerEvent.clientX last = Fin qx -> PointerEvent.clientY last = Fin qy ->
  let r := fresh (dom (App.objects a)) in
  let created (flipped : bool) :=
    Element.mk (Fin 100) (Fin 100) (Fin 50) (Fin 40) (Fin 0) flipped flipped
      Constants.DEFAULT_FILL (shape rect) in
  let outcome (flipped : bool) :=
    exists a',
      App.dragGesture ext down (moves ++ [last]) a = Some a'
      /\ App.objects a' !! r = Some (created flipped)
      /\ AppState.usermode (App.state a') = IDLE
      /\ (isElementNegligible ext (created flipped)
            (AppState.setUsermode CREATING (App.state a)) = false ->
          r ∈ ElementLayer.getAllElements (App.elementLayer a')
          /\ App.editingElement a' = Some r) in
  ((px - sx) / z = 100 -> (py - sy) / z = 100 ->
   (qx - sx) / z = 150 -> (qy - sy) / z = 140 -> outcome false)
  /\ ((px - sx) / z = 150 -> (py - sy) / z = 140 ->
      (qx - sx) / z = 100 -> (qy - sy) / z = 100 -> outcome true).
Proof.
  intros Hz Hscroll Hsnap Htool Hz0 Hb Hdx Hdy Hlx Hly r created outcome.
  split; intros Hpx Hpy Hqx Hqy.
  - pose proof (virtual_difference z sx px qx _ _ Hz0 Hpx Hqx) as Hw.
    pose proof (virtual_difference z sy py qy _ _ Hz0 Hpy Hqy) as Hh.
    assert (qx <> px) by (intros ->; lra).
    assert (qy <> py) by (intros ->; lra).
    pose proof (rectangle_drag ext a down last moves z sx sy px py qx qy
                  Hz Hscroll Hsnap Htool Hz0 ltac:(done) ltac:(done) Hb Hdx Hdy Hlx Hly)
      as Hdrag.
    cbv zeta in Hdrag. rewrite Hpx, Hpy, Hw, Hh in Hdrag.
    replace (100 + Rmin (150 - 100) 0) with 100 in Hdrag by real_cases.
    replace (100 + Rmin (140 - 100) 0) with 100 in Hdrag by real_cases.
    replace (Rabs (150 - 100)) with 50 in Hdrag by real_cases.
    replace (Rabs (140 - 100)) with 40 in Hdrag by real_cases.
    rewrite !bool_decide_eq_false_2 in Hdrag by lra. exact Hdrag.
  - pose proof (virtual_difference z sx px qx _ _ Hz0 Hpx Hqx) as Hw.
    pose proof (virtual_difference z sy py qy _ _ Hz0 Hpy Hqy) as Hh.
    assert (qx <> px) by (intros ->; lra).
    assert (qy <> py) by (intros ->; lra).
    pose proof (rectangle_drag ext a down last moves z sx sy px py qx qy
                  Hz Hscroll Hsnap Htool Hz0 ltac:(done) ltac:(done) Hb Hdx Hdy Hlx Hly)
      as Hdrag.
    cbv zeta in Hdrag. rewrite Hpx, Hpy, Hw, Hh in Hdrag.
    replace (150 + Rmin (100 - 150) 0) with 100 in Hdrag by real_cases.
    replace (140 + Rmin (100 - 140) 0) with 100 in Hdrag by real_cases.
    replace (Rabs (100 - 150)) with 50 in Hdrag by real_cases.
    replace (Rabs (100 - 140)) with 40 in Hdrag by real_cases.
    rewrite !bool_decide_eq_true_2 in Hdrag by lra. exact Hdrag.
Qed.

Lemma rectangle_creation_witness :
  (exists a',
      App.dragGesture Examples.collaborators (Examples.event (Fin 210) (Fin 220))
        ([Examples.event (Fin 250) (Fin 250)] ++ [Examples.event (Fin 310) (Fin 300)])
        (Examples.emptyApp Rectangle) = Some a'
      /\ App.objects a' !! fresh (dom (App.objects (Examples.emptyApp Rectangle)))
         = Some (Element.mk (Fin 100) (Fin 100) (Fin 50) (Fin 40) (Fin 0) false false
                   Constants.DEFAULT_FILL (shape rect))
      /\ AppState.usermode (App.state a') = IDLE
      /\ (isElementNegligible Examples.collaborators
            (Element.mk (Fin 100) (Fin 100) (Fin 50) (Fin 40) (Fin 0) false false
               Constants.DEFAULT_FILL (shape rect))
            (AppState.setUsermode CREATING (App.state (Examples.emptyApp Rectangle)))
          = false ->
          fresh (dom (App.objects (Examples.emptyApp Rectangle)))
            ∈ ElementLayer.getAllElements (App.elementLayer a')
          /\ App.editingElement a'
             = Some (fresh (dom (App.objects (Examples.emptyApp Rectangle))))))
  /\ (exists a',
         App.dragGesture Examples.collaborators (Examples.event (Fin 310) (Fin 300))
           ([] ++ [Examples.event (Fin 210) (Fin 220)])
           (Examples.emptyApp Rectangle) = Some a'
         /\ App.objects a' !! fresh (dom (App.objects (Examples.emptyApp Rectangle)))
            = Some (Element.mk (Fin 100) (Fin 100) (Fin 50) (Fin 40) (Fin 0) true true
                      Constants.DEFAULT_FILL (shape rect))
         /\ AppState.usermode (App.state a') = IDLE
         /\ (isElementNegligible Examples.collaborators
               (Element.mk (Fin 100) (Fin 100) (Fin 50) (Fin 40) (Fin 0) true true
                  Constants.DEFAULT_FILL (shape rect))
               (AppState.setUsermode CREATING (App.state (Examples.emptyApp Rectangle)))
             = false ->
             fresh (dom (App.objects (Examples.emptyApp Rectangle)))
               ∈ ElementLayer.getAllElements (App.elementLayer a')
             /\ App.editingElement a'
                = Some (fresh (dom (App.objects (Examples.emptyApp Rectangle)))))).
Proof.
  split.
  - apply (proj1 (rectangle_creation_scenarios Examples.collaborators
                    (Examples.emptyApp Rectangle)
                    (Examples.event (Fin 210) (Fin 220))
                    (Examples.event (Fin 310) (Fin 300))
                    [Examples.event (Fin 250) (Fin 250)]
                    2 10 20 210 220 310 300
                    eq_refl eq_refl eq_refl eq_refl ltac:(lra)
                    eq_refl eq_refl eq_refl eq_refl eq_refl)); lra.
  - apply (proj2 (rectangle_creation_scenarios Examples.collaborators
                    (Examples.emptyApp Rectangle)
                    (Examples.event (Fin 310) (Fin 300))
                    (Examples.event (Fin 210) (Fin 220))
                    []
                    2 10 20 310 300 210 220
                    eq_refl eq_refl eq_refl eq_refl ltac:(lra)
                    eq_refl eq_refl eq_refl eq_refl eq_refl)); lra.
Defined.

(** ** C5: leaving [CREATING] without a submit *)


(** ** C4: the first point of a freedraw path *)

Lemma Zfloor_half (k : Z) : Zfloor (IZR k + / 2) = k.
Proof. apply Zfloor_eq. lra. Qed.

Lemma roundHalfAway_IZR (m : Z) : Num.roundHalfAway (IZR m) = IZR m.
Proof.
  unfold Num.roundHalfAway. case_decide.
  - replace (- IZR m + / 2) with (IZR (- m) + / 2) by (rewrite opp_IZR; lra).
    rewrite Zfloor_half, opp_IZR. lra.
  - by rewrite Zfloor_half.
Qed.

(** a whole number has nothing to round at two decimals *)
Lemma toFixed2_IZR (n : Z) : Num.toFixed 2 (Fin (IZR n)) = Fin (IZR n).
Proof.
  unfold Num.toFixed. cbn [pow].
  replace (IZR n * (10 * (10 * 1))) with (IZR (n * 100)) by (rewrite mult_IZR; lra).
  rewrite roundHalfAway_IZR, mult_IZR. f_equal. lra.
Qed.

Lemma onElementCreation_freedraw (eCtrlKey : bool) (p : PointerState.t) (r : ref)
    (a : App.t) (el : Element.t) (path : list Point) :
  App.objects a !! r = Some el ->
  Element.data el = freedraw path ->
  App.onElementCreation eCtrlKey p r a
  = App.mutateElement r
      (App.freedrawCreationMutations
         (Viewport.screenOffsetToVirtualOffset (App.pointerScreenCoords p) (App.state a))
         el path)
      a.
Proof. intros Hel Hdata. unfold App.onElementCreation. by rewrite Hel, Hdata. Qed.

(** the first point after a step: shifted by [(dx, dy)] when either is
    truthy, kept otherwise *)
Lemma freedraw_step_firstPoint (point : XYCoords.t) (el : Element.t)
    (fx fy : number) (rest : list Point) :
  Element.data el = freedraw ((fx, fy) :: rest) ->
  let dx := Num.max (Element.x el - XYCoords.x point)%num (Fin 0) in
  let dy := Num.max (Element.y el - XYCoords.y point)%num (Fin 0) in
  Element.firstPoint
    (ElementLayer.applyMutations
       (App.freedrawCreationMutations point el ((fx, fy) :: rest)) el)
  = Some (if (Num.truthy dx || Num.truthy dy)%bool
          then (Num.toFixed 2 (fx + dx)%num, Num.toFixed 2 (fy + dy)%num)
          else (fx, fy)).
Proof.
  intros Hdata dx dy.
  unfold Element.firstPoint, ElementLayer.applyMutations, App.freedrawCreationMutations.
  cbn [Element.data Mutations.path default]. rewrite Hdata. fold dx dy.
  by destruct (Num.truthy dx || Num.truthy dy)%bool.
Qed.

(** a pointer that is not left of (above) the origin gives a falsy [dx] ([dy]) *)
Lemma not_before_falsy (o pt : number) :
  (o <=? pt)%num = true -> Num.truthy (Num.max (o - pt)%num (Fin 0)) = false.
Proof.
  destruct o as [a| | |], pt as [b| | |]; try done;
    try (by intros _; cbn; rewrite bool_decide_eq_true_2).
  intros Hle%bool_decide_eq_true. unfold Num.sub. cbn [Num.neg Num.add].
  rewrite max_fin_r by lra. cbn. by rewrite bool_decide_eq_true_2.
Qed.

(** rounding a number that is not negative to two decimals gives 0 exactly
    below half a hundredth *)
Lemma toFixed2_zero_iff (d : R) :
  0 <= d -> Num.toFixed 2 (Fin d) = Fin 0 <-> d < / 200.
Proof.
  intros Hd. cbn [Num.toFixed pow]. unfold Num.roundHalfAway.
  rewrite decide_False by lra.
  pose proof (Zfloor_bound (d * (10 * (10 * 1)) + / 2)) as Hb.
  split.
  - intros [= H].
    assert (Hz : IZR (Zfloor (d * (10 * (10 * 1)) + / 2)) = 0) by lra.
    rewrite Hz in Hb. lra.
  - intros Hlt. rewrite (Zfloor_eq 0); [f_equal; lra|]. lra.
Qed.

(** the first point [[0,0]] after a step, on finite numbers *)
Lemma firstPoint_stays_iff (ex ey ptx pty : R) :
  let dx := Num.max (Fin ex - Fin ptx)%num (Fin 0) in
  let dy := Num.max (Fin ey - Fin pty)%num (Fin 0) in
  (if (Num.truthy dx || Num.truthy dy)%bool
   then (Num.toFixed 2 (Fin 0 + dx)%num, Num.toFixed 2 (Fin 0 + dy)%num)
   else (Fin 0, Fin 0))
  = (Fin 0, Fin 0)
  <-> ex - ptx < / 200 /\ ey - pty < / 200.
Proof.
  intros dx dy. subst dx dy. unfold Num.sub. cbn [Num.neg Num.add].
  rewrite !max_fin. cbn [Num.add Num.truthy].
  pose proof (Rmax_l (ex + - ptx) 0) as Hxl. pose proof (Rmax_r (ex + - ptx) 0) as Hxr.
  pose proof (Rmax_l (ey + - pty) 0) as Hyl. pose proof (Rmax_r (ey + - pty) 0) as Hyr.
  assert (Hx0 : Rmax (ex + - ptx) 0 = 0 -> ex - ptx < / 200) by (intros H; lra).
  assert (Hy0 : Rmax (ey + - pty) 0 = 0 -> ey - pty < / 200) by (intros H; lra).
  assert (Hxm : Rmax (ex + - ptx) 0 < / 200 <-> ex - ptx < / 200).
  { unfold Rmax. destruct (Rle_dec _ _); lra. }
  assert (Hym : Rmax (ey + - pty) 0 < / 200 <-> ey - pty < / 200).
  { unfold Rmax. destruct (Rle_dec _ _); lra. }
  destruct (negb (bool_decide (Rmax (ex + - ptx) 0 = 0))
            || negb (bool_decide (Rmax (ey + - pty) 0 = 0)))%bool eqn:Hshift.
  - split.
    + intros [H1 H2]%pair_equal_spec.
      apply toFixed2_zero_iff in H1; [|lra]. apply toFixed2_zero_iff in H2; [|lra].
      split; [apply Hxm | apply Hym]; lra.
    + intros [H1 H2]. f_equal; apply toFixed2_zero_iff; lra.
  - apply orb_false_iff in Hshift as [H1 H2].
    apply negb_false_iff, bool_decide_eq_true in H1, H2.
    split; [intros _; split; auto | done].
Qed.

(** C4, as the code has it.  A freedraw element is created with the path
    [[0,0]].  A creation-drag step adds [(dx, dy)] to the first point
    (and rounds it to two decimals) when the pointer is left of or above
    the element origin, [dx] and [dy] being the distances by which it is;
    a step whose pointer is neither left of nor above the origin leaves
    the first point as it was, so [[0,0]] stays [[0,0]] along such steps.
    On finite numbers a first point [[0,0]] is still [[0,0]] after the
    step exactly when the pointer is less than 0.005 left of and less than
    0.005 above the origin. *)
Theorem freedraw_first_point (s : AppState.t) (position : XYCoords.t)
    (snapElementToGrid eCtrlKey : bool) (p : PointerState.t) (r : ref) (a : App.t)
    (el : Element.t) (fx fy : number) :
  (exists created,
      App.createElementFromTool s Freedraw position snapElementToGrid = Some created
      /\ Element.data created = freedraw [(Fin 0, Fin 0)]
      /\ Element.firstPoint created = Some (Fin 0, Fin 0))
  /\ (App.objects a !! r = Some el ->
      Element.isFreedraw el = true ->
      Element.firstPoint el = Some (fx, fy) ->
      let point :=
        Viewport.screenOffsetToVirtualOffset (App.pointerScreenCoords p) (App.state a) in
      let dx := Num.max (Element.x el - XYCoords.x point)%num (Fin 0) in
      let dy := Num.max (Element.y el - XYCoords.y point)%num (Fin 0) in
      exists el',
        App.objects (App.onElementCreation eCtrlKey p r a) !! r = Some el'
        /\ Element.firstPoint el'
           = Some (if (Num.truthy dx || Num.truthy dy)%bool
                   then (Num.toFixed 2 (fx + dx)%num, Num.toFixed 2 (fy + dy)%num)
                   else (fx, fy))
        /\ ((Element.x el <=? XYCoords.x point)%num = true ->
            (Element.y el <=? XYCoords.y point)%num = true ->
            Element.firstPoint el' = Some (fx, fy))
        /\ (forall ex ey ptx pty : R,
              fx = Fin 0 -> fy = Fin 0 ->
              Element.x el = Fin ex -> Element.y el = Fin ey ->
              XYCoords.x point = Fin ptx -> XYCoords.y point = Fin pty ->
              Element.firstPoint el' = Some (Fin 0, Fin 0)
              <-> ex - ptx < / 200 /\ ey - pty < / 200)).
Proof.
  split.
  - eexists. split; [reflexivity|]. done.
  - intros Hel Hfree Hfirst point dx dy.
    unfold Element.isFreedraw, Element.firstPoint in Hfree, Hfirst.
    destruct (Element.data el) as [|path|] eqn:Hdata; try done.
    destruct path as [|[fx' fy'] rest]; [done|]. injection Hfirst as -> ->.
    rewrite (onElementCreation_freedraw _ _ _ _ el ((fx, fy) :: rest)) by done.
    eexists. split.
    { cbn. unfold ElementLayer.mutateElement. by rewrite lookup_alter_eq, Hel. }
    rewrite freedraw_step_firstPoint by done. fold point dx dy. split; [done|]. split.
    + intros Hx Hy. unfold dx, dy.
      by rewrite (not_before_falsy _ _ Hx), (not_before_falsy _ _ Hy).
    + intros ex ey ptx pty -> -> Hex Hey Hptx Hpty. subst dx dy.
      rewrite Hex, Hey, Hptx, Hpty.
      pose proof (firstPoint_stays_iff ex ey ptx pty) as Hiff. cbv zeta in Hiff.
      split.
      * intros [= H]. by apply Hiff.
      * intros H. f_equal. by apply Hiff.
Qed.

Lemma freedraw_first_point_witness :
  let p := Examples.pointerAt (Fin 0) (Fin 20) in
  Viewport.screenOffsetToVirtualOffset (App.pointerScreenCoords p)
    (App.state Examples.freedrawDraft)
  = XYCoords.mk (Fin (-5)) (Fin 0)
  /\ exists el',
       App.objects (App.onElementCreation false p 0%nat Examples.freedrawDraft) !! 0%nat
       = Some el'
       /\ Element.firstPoint el' <> Some (Fin 0, Fin 0).
Proof.
  intros p.
  assert (Hpoint :
    Viewport.screenOffsetToVirtualOffset (App.pointerScreenCoords p)
      (App.state Examples.freedrawDraft)
    = XYCoords.mk (Fin (-5)) (Fin 0)).
  { unfold Viewport.screenOffsetToVirtualOffset. cbn -[Num.div].
    rewrite !div_fin by lra. f_equal; f_equal; lra. }
  split; [exact Hpoint|].
  destruct (proj2 (freedraw_first_point (Examples.appState Freedraw IDLE)
                     (XYCoords.mk (Fin 0) (Fin 0)) false false p 0%nat
                     Examples.freedrawDraft
                     (Elements.createFreedrawElement [(Fin 0, Fin 0)]
                        (Examples.box (Fin 0) (Fin 0) (Fin 0) (Fin 0)))
                     (Fin 0) (Fin 0)))
    as (el' & Hel' & _ & _ & Hiff).
  - apply lookup_singleton_eq.
  - reflexivity.
  - reflexivity.
  - exists el'. split; [exact Hel'|]. intros H.
    apply (Hiff 0 0 (-5) 0) in H; try reflexivity.
    + lra.
    + by rewrite Hpoint.
    + by rewrite Hpoint.
Defined.

(** the [freedraw] step on finite numbers *)
Lemma freedrawCreationMutations_fin (ex ey ew eh ptx pty : R) (rot : number)
    (fX fY : bool) (fill : string) (d : ElementData) (path : list Point) :
  let dx := Rmax (ex + - ptx) 0 in
  let dy := Rmax (ey + - pty) 0 in
  let pushed :=
    path ++ [(Num.toFixed 2 (Fin (ptx + - (ex + - dx))),
              Num.toFixed 2 (Fin (pty + - (ey + - dy))))] in
  App.freedrawCreationMutations (XYCoords.mk (Fin ptx) (Fin pty))
    (Element.mk (Fin ex) (Fin ey) (Fin ew) (Fin eh) rot fX fY fill d) path
  = Mutations.mk
      (Some (Fin (ex + - dx))) (Some (Fin (ey + - dy)))
      (Some (Fin (Rmax ew (ptx + - (ex + - dx)) + dx)))
      (Some (Fin (Rmax eh (pty + - (ey + - dy)) + dy)))
      None None None None
      (Some (if (negb (bool_decide (dx = 0)) || negb (bool_decide (dy = 0)))%bool
             then map (fun pt : Point =>
                         (Num.toFixed 2 (pt.1 + Fin dx)%num,
                          Num.toFixed 2 (pt.2 + Fin dy)%num)) pushed
             else pushed))
      None.
Proof.
  intros dx dy pushed. unfold App.freedrawCreationMutations, Num.sub.
  cbn [Element.x Element.y Element.w Element.h XYCoords.x XYCoords.y Num.neg Num.add].
  rewrite !max_fin. cbn [Num.neg Num.add]. rewrite !max_fin. done.
Qed.

(** Counterexample to C4 as stated: press with the Freedraw tool at
    virtual (100,100), then move to virtual (90,100), left of the
    origin.  The path [[0,0]] becomes [[10,0],[10,0]]. *)
Lemma freedraw_first_point_shifts :
  let a1 :=
    App.onCanvasPointerDown Examples.collaborators
      (Examples.event (Fin 210) (Fin 220)) (Examples.emptyApp Freedraw) in
  let a2 :=
    App.onWindowPointerMove Examples.collaborators
      (Examples.event (Fin 190) (Fin 220)) a1 in
  let r := fresh (dom (App.objects (Examples.emptyApp Freedraw))) in
  (Element.data <$> App.objects a1 !! r) = Some (freedraw [(Fin 0, Fin 0)])
  /\ (Element.data <$> App.objects a2 !! r)
     = Some (freedraw [(Fin 10, Fin 0); (Fin 10, Fin 0)])
  /\ (Element.firstPoint <$> App.objects a2 !! r) <> Some (Some (Fin 0, Fin 0)).
Proof.
  intros a1 a2 r.
  assert (H1 : App.objects a1 !! r
               = Some (Elements.createFreedrawElement [(Fin 0, Fin 0)]
                         (BoundingBox.mk (Fin 100) (Fin 100) (Fin 0) (Fin 0)))).
  { unfold a1, App.onCanvasPointerDown. cbn -[Num.div]. unfold r. cbn -[Num.div].
    rewrite lookup_insert_eq. rewrite !div_fin by lra.
    do 3 f_equal; f_equal; lra. }
  assert (Hp : App.pointer a1
               = Some (App.createPointerState (Examples.event (Fin 210) (Fin 220))))
    by done.
  assert (Hs : App.state a1 = Examples.appState Freedraw CREATING) by done.
  assert (Hr : App.editingElement a1 = Some r) by done.
  assert (Hpoint :
    Viewport.screenOffsetToVirtualOffset
      (App.pointerScreenCoords
         (App.dragTo (Examples.event (Fin 190) (Fin 220))
            (App.createPointerState (Examples.event (Fin 210) (Fin 220)))))
      (Examples.appState Freedraw CREATING)
    = XYCoords.mk (Fin 90) (Fin 100)).
  { unfold Viewport.screenOffsetToVirtualOffset. cbn -[Num.div].
    rewrite !div_fin by lra. f_equal; f_equal; lra. }
  assert (H2 : App.objects a2 !! r
               = Some (ElementLayer.applyMutations
                         (App.freedrawCreationMutations
                            (XYCoords.mk (Fin 90) (Fin 100))
                            (Elements.createFreedrawElement [(Fin 0, Fin 0)]
                               (BoundingBox.mk (Fin 100) (Fin 100) (Fin 0) (Fin 0)))
                            [(Fin 0, Fin 0)])
                         (Elements.createFreedrawElement [(Fin 0, Fin 0)]
                            (BoundingBox.mk (Fin 100) (Fin 100) (Fin 0) (Fin 0))))).
  { unfold a2, App.onWindowPointerMove. rewrite Hp. cbv zeta.
    cbn [App.state App.setPointer App.editingElement]. rewrite Hs, Hr.
    cbn [AppState.activeTool AppState.usermode Examples.appState].
    match goal with
    | |- context [App.onElementCreation ?c ?p ?r' ?a'] =>
        rewrite (onElementCreation_freedraw c p r' a' _ [(Fin 0, Fin 0)] H1 eq_refl)
    end.
    cbn [App.mutateElement App.setObjects App.objects App.setPointer App.state].
    unfold ElementLayer.mutateElement. rewrite lookup_alter_eq, H1, Hs.
    by rewrite Hpoint. }
  clearbody a1 a2 r.
  unfold Elements.createFreedrawElement, Elements.createElement in H1, H2.
  cbn [BoundingBox.x BoundingBox.y BoundingBox.w BoundingBox.h] in H1, H2.
  rewrite freedrawCreationMutations_fin in H2.
  replace (Rmax (100 + - (90)) 0) with 10 in H2 by real_cases.
  replace (Rmax (100 + - (100)) 0) with 0 in H2 by real_cases.
  replace (90 + - (100 + - (10))) with 0 in H2 by lra.
  replace (100 + - (100 + - 0)) with 0 in H2 by lra.
  rewrite bool_decide_eq_false_2 in H2 by lra.
  cbn [negb orb map app fst snd Num.add] in H2.
  rewrite !(toFixed2_IZR 0) in H2. cbn [Num.add] in H2.
  replace (0 + 10) with 10 in H2 by lra. replace (0 + 0) with 0 in H2 by lra.
  rewrite !(toFixed2_IZR 10), !(toFixed2_IZR 0) in H2.
  rewrite H1, H2. split_and!; [done..|].
  cbn. intros [= H]. lra.
Qed.

(** ** C6: the design menu and freedraw paths *)

(** a division by a zero size is never finite, so the factor is 1 *)
Lemma designMenuScale_zero (patch : option number) :
  App.designMenuScale patch (Fin 0) = Fin 1.
Proof.
  unfold App.designMenuScale.
  destruct (default (Fin 0) patch) as [r| | |]; cbn; try done.
  - rewrite decide_True by done. unfold Num.sgn.
    case_decide; [done|]. by case_bool_decide.
  - by rewrite bool_decide_eq_true_2 by lra.
  - by rewrite bool_decide_eq_true_2 by lra.
Qed.

(** the factors handed to [rescalePath] are finite *)
Lemma designMenuScale_finite (patch : option number) (size : number) :
  Num.isFinite (App.designMenuScale patch size) = true.
Proof.
  unfold App.designMenuScale.
  by destruct (Num.isFinite (default size patch / size)%num) eqn:H.
Qed.

(** an element of zero width and height leaves [mutations] as it found it *)
Lemma designMenuStep_degenerate (mutations : Mutations.t) (a : App.t) (r : ref)
    (el : Element.t) (path : list Point) :
  App.objects a !! r = Some el ->
  Element.data el = freedraw path ->
  Element.w el = Fin 0 -> Element.h el = Fin 0 ->
  App.designMenuStep (mutations, a) r = (mutations, App.mutateElement r mutations a).
Proof.
  intros Hel Hdata Hw Hh. unfold App.designMenuStep.
  rewrite Hel, Hdata, Hw, Hh, !designMenuScale_zero.
  unfold Num.neqb, Num.eqb. by rewrite bool_decide_eq_true_2.
Qed.

(** C6 at the failing input: [stroke] (10 by 10) and [dot] (0 by 0) are
    both selected and the design menu sets the width to 20.  Both scale
    factors of [dot] are replaced by 1 and alone [dot] keeps its path; after
    [stroke] it is handed the rescaled path of [stroke], which the loop
    left in [mutations]. *)
Theorem designMenu_path_leak :
  App.designMenuScale (Mutations.w Examples.widthPatch) (Element.w Examples.dot) = Fin 1
  /\ App.designMenuScale (Mutations.h Examples.widthPatch) (Element.h Examples.dot) = Fin 1
  /\ (Element.data
        <$> App.objects (App.onDesignMenuUpdate [1%nat] Examples.widthPatch
                           Examples.strokeAndDot) !! 1%nat)
     = Some (freedraw [(Fin 0, Fin 0)])
  /\ (Element.data
        <$> App.objects (App.onDesignMenuUpdate [0%nat; 1%nat] Examples.widthPatch
                           Examples.strokeAndDot) !! 1%nat)
     = Some (freedraw [(Fin 0, Fin 0); (Fin 10, Fin 0); (Fin 10, Fin 5)]).
Proof.
  assert (H0 : App.objects Examples.strokeAndDot !! 0%nat = Some Examples.stroke).
  { apply lookup_insert_eq. }
  assert (H1 : App.objects Examples.strokeAndDot !! 1%nat = Some Examples.dot).
  { unfold Examples.strokeAndDot. cbn [App.objects].
    rewrite lookup_insert_ne by done. apply lookup_singleton_eq. }
  split_and!.
  - apply designMenuScale_zero.
  - apply designMenuScale_zero.
  - unfold App.onDesignMenuUpdate, App.designMenuLoop. cbn [foldl].
    rewrite (designMenuStep_degenerate _ _ _ Examples.dot [(Fin 0, Fin 0)]) by done.
    cbn [snd App.mutateElement App.setObjects App.objects].
    unfold ElementLayer.mutateElement. by rewrite lookup_alter_eq, H1.
  - assert (Hsx : App.designMenuScale (Mutations.w Examples.widthPatch)
                    (Element.w Examples.stroke) = Fin 2).
    { unfold App.designMenuScale. cbn -[Num.div]. rewrite div_fin by lra.
      cbn. f_equal. lra. }
    assert (Hsy : App.designMenuScale (Mutations.h Examples.widthPatch)
                    (Element.h Examples.stroke) = Fin 1).
    { unfold App.designMenuScale. cbn -[Num.div]. rewrite div_fin by lra.
      cbn. f_equal. lra. }
    assert (Hpath :
      Elements.rescalePath [(Fin 0, Fin 0); (Fin 5, Fin 0); (Fin 5, Fin 5)]
        (Fin 2) (Fin 1) (Fin 0) (Fin 0)
      = [(Fin 0, Fin 0); (Fin 10, Fin 0); (Fin 10, Fin 5)]).
    { cbn. repeat f_equal; lra. }
    unfold App.onDesignMenuUpdate, App.designMenuLoop. cbn [foldl].
    unfold App.designMenuStep at 2. rewrite H0.
    change (Element.data Examples.stroke)
      with (freedraw [(Fin 0, Fin 0); (Fin 5, Fin 0); (Fin 5, Fin 5)]).
    cbv iota. rewrite Hsx, Hsy, Hpath.
    replace (Num.neqb (Fin 2) (Fin 1)) with true
      by (unfold Num.neqb, Num.eqb; rewrite bool_decide_eq_false_2 by lra; done).
    cbn [orb].
    rewrite (designMenuStep_degenerate _ _ _ Examples.dot [(Fin 0, Fin 0)]); done.
Qed.

(** * Further properties of the code *)

(** ** [clampNumber] *)

(** X1. For finite bounds with [min <= max], [clampNumber] lands within the
    bounds, leaves a value within the bounds as it is (so clamping twice is
    clamping once), and sends a value below to [min] and a value above to
    [max]. *)
Theorem clampNumber_within (value lo hi : R) :
  lo <= hi ->
  exists c,
    UtilsRest.clampNumber (Fin value) (Fin lo) (Fin hi) = Fin c
    /\ lo <= c <= hi
    /\ (lo <= value <= hi -> c = value)
    /\ (value <= lo -> c = lo)
    /\ (hi <= value -> c = hi)
    /\ UtilsRest.clampNumber (Fin c) (Fin lo) (Fin hi) = Fin c.
Proof.
  intros Hle. unfold UtilsRest.clampNumber. rewrite max_fin, min_fin.
  eexists. split; [reflexivity|]. split_and!.
  - real_cases.
  - real_cases.
  - intros ?. real_cases.
  - intros ?. real_cases.
  - intros ?. real_cases.
  - rewrite max_fin, min_fin. f_equal. real_cases.
Qed.

Lemma clampNumber_within_witness :
  exists c,
    UtilsRest.clampNumber (Fin 60) (Fin (1 / 10)) (Fin 50) = Fin c
    /\ 1 / 10 <= c <= 50
    /\ (1 / 10 <= 60 <= 50 -> c = 60)
    /\ (60 <= 1 / 10 -> c = 1 / 10)
    /\ (50 <= 60 -> c = 50)
    /\ UtilsRest.clampNumber (Fin c) (Fin (1 / 10)) (Fin 50) = Fin c.
Proof. apply (clampNumber_within 60 (1 / 10) 50). lra. Defined.

(** X2. The edge cases of [clampNumber]: a [NaN] value stays [NaN]
    whatever the bounds, and with finite bounds given the wrong way round
    ([max < min]) every finite value is sent to [max]. *)
Theorem clampNumber_edges :
  (forall lo hi : number, UtilsRest.clampNumber NaN lo hi = NaN)
  /\ (forall value lo hi : R,
        hi < lo -> UtilsRest.clampNumber (Fin value) (Fin lo) (Fin hi) = Fin hi).
Proof.
  split.
  - intros lo hi. unfold UtilsRest.clampNumber. by destruct lo, hi.
  - intros value lo hi Hlt. unfold UtilsRest.clampNumber.
    rewrite max_fin, min_fin. f_equal. real_cases.
Qed.

Lemma clampNumber_edges_witness :
  UtilsRest.clampNumber NaN (Fin 0) (Fin 1) = NaN
  /\ UtilsRest.clampNumber (Fin 7) (Fin 5) (Fin 3) = Fin 3.
Proof.
  split.
  - apply (proj1 clampNumber_edges).
  - apply (proj2 clampNumber_edges). lra.
Defined.

(** ** [rotatePointAroundAnchor] *)

Lemma rotate_fin (x1 y1 x2 y2 a : R) :
  Utils.rotatePointAroundAnchor (Fin x1) (Fin y1) (Fin x2) (Fin y2) (Fin a)
  = XYCoords.mk
      (Fin (cos a * (x1 - x2) - sin a * (y1 - y2) + x2))
      (Fin (sin a * (x1 - x2) + cos a * (y1 - y2) + y2)).
Proof. reflexivity. Qed.

(** X3. Rotations about one anchor compose by adding the angles; hence
    the rotation by 0 is the identity and rotating by [- a] undoes the
    rotation by [a] (the step [hitTest] takes to bring a point into the
    frame of a rotated element). *)
Theorem rotatePointAroundAnchor_compose (x y cx cy a b : R) :
  let p := Utils.rotatePointAroundAnchor (Fin x) (Fin y) (Fin cx) (Fin cy) (Fin a) in
  Utils.rotatePointAroundAnchor (XYCoords.x p) (XYCoords.y p) (Fin cx) (Fin cy) (Fin b)
  = Utils.rotatePointAroundAnchor (Fin x) (Fin y) (Fin cx) (Fin cy) (Fin a + Fin b)%num
  /\ Utils.rotatePointAroundAnchor (Fin x) (Fin y) (Fin cx) (Fin cy) (Fin 0)
     = XYCoords.mk (Fin x) (Fin y)
  /\ Utils.rotatePointAroundAnchor (XYCoords.x p) (XYCoords.y p) (Fin cx) (Fin cy)
       (- Fin a)%num
     = XYCoords.mk (Fin x) (Fin y).
Proof.
  intros p. subst p. cbn [Num.add Num.neg]. rewrite !rotate_fin.
  cbn [XYCoords.x XYCoords.y]. rewrite !rotate_fin.
  rewrite cos_plus, sin_plus, cos_0, sin_0, cos_neg, sin_neg.
  pose proof (sin2_cos2 a) as H. unfold Rsqr in H.
  split_and!.
  - f_equal; f_equal; ring.
  - f_equal; f_equal; ring.
  - f_equal; f_equal.
    + transitivity ((sin a * sin a + cos a * cos a) * (x - cx) + cx); [ring|].
      rewrite H. ring.
    + transitivity ((sin a * sin a + cos a * cos a) * (y - cy) + cy); [ring|].
      rewrite H. ring.
Qed.

(** X4. A rotation keeps the distance to the anchor, and the anchor
    itself in place. *)
Theorem rotatePointAroundAnchor_isometry (x y cx cy a : R) :
  exists x' y',
    Utils.rotatePointAroundAnchor (Fin x) (Fin y) (Fin cx) (Fin cy) (Fin a)
    = XYCoords.mk (Fin x') (Fin y')
    /\ (x' - cx) * (x' - cx) + (y' - cy) * (y' - cy)
       = (x - cx) * (x - cx) + (y - cy) * (y - cy)
    /\ Utils.rotatePointAroundAnchor (Fin cx) (Fin cy) (Fin cx) (Fin cy) (Fin a)
       = XYCoords.mk (Fin cx) (Fin cy).
Proof.
  rewrite !rotate_fin. eexists _, _. split; [reflexivity|].
  pose proof (sin2_cos2 a) as H. unfold Rsqr in H. split.
  - transitivity ((sin a * sin a + cos a * cos a)
                  * ((x - cx) * (x - cx) + (y - cy) * (y - cy))); [ring|].
    rewrite H. ring.
  - f_equal; f_equal; ring.
Qed.

(** ** [getRotatedBoxCoords] *)

Lemma getRotatedBoxCoords_fin (x y w h a : R) :
  Utils.getRotatedBoxCoords (RotatedBoundingBox.mk (Fin x) (Fin y) (Fin w) (Fin h) (Fin a))
  = Utils.mkCorners
      (XYCoords.mk (Fin (cos a * (- w / 2) - sin a * (- h / 2) + (x + w / 2)))
                   (Fin (sin a * (- w / 2) + cos a * (- h / 2) + (y + h / 2))))
      (XYCoords.mk (Fin (cos a * (w / 2) - sin a * (- h / 2) + (x + w / 2)))
                   (Fin (sin a * (w / 2) + cos a * (- h / 2) + (y + h / 2))))
      (XYCoords.mk (Fin (cos a * (- w / 2) - sin a * (h / 2) + (x + w / 2)))
                   (Fin (sin a * (- w / 2) + cos a * (h / 2) + (y + h / 2))))
      (XYCoords.mk (Fin (cos a * (w / 2) - sin a * (h / 2) + (x + w / 2)))
                   (Fin (sin a * (w / 2) + cos a * (h / 2) + (y + h / 2)))).
Proof.
  unfold Utils.getRotatedBoxCoords.
  cbn [RotatedBoundingBox.x RotatedBoundingBox.y RotatedBoundingBox.w
       RotatedBoundingBox.h RotatedBoundingBox.rotate Num.add].
  rewrite !div_fin_2, !rotate_fin.
  f_equal; f_equal; f_equal; field.
Qed.

(** X5. The corners of a box of finite numbers.  Without rotation they
    are [(x, y)], [(x + w, y)], [(x, y + h)] and [(x + w, y + h)].  With
    any rotation the two diagonals still cross at the centre
    [(x + w/2, y + h/2)] and the sides keep their lengths [w] and [h]. *)
Theorem getRotatedBoxCoords_shape (x y w h a : R) :
  let b := RotatedBoundingBox.mk (Fin x) (Fin y) (Fin w) (Fin h) in
  Utils.getRotatedBoxCoords (b (Fin 0))
  = Utils.mkCorners (XYCoords.mk (Fin x) (Fin y)) (XYCoords.mk (Fin (x + w)) (Fin y))
      (XYCoords.mk (Fin x) (Fin (y + h))) (XYCoords.mk (Fin (x + w)) (Fin (y + h)))
  /\ exists nwx nwy nex ney swx swy sex sey,
       Utils.getRotatedBoxCoords (b (Fin a))
       = Utils.mkCorners (XYCoords.mk (Fin nwx) (Fin nwy)) (XYCoords.mk (Fin nex) (Fin ney))
           (XYCoords.mk (Fin swx) (Fin swy)) (XYCoords.mk (Fin sex) (Fin sey))
       /\ (nwx + sex) / 2 = x + w / 2 /\ (nwy + sey) / 2 = y + h / 2
       /\ (nex + swx) / 2 = x + w / 2 /\ (ney + swy) / 2 = y + h / 2
       /\ (nex - nwx) * (nex - nwx) + (ney - nwy) * (ney - nwy) = w * w
       /\ (swx - nwx) * (swx - nwx) + (swy - nwy) * (swy - nwy) = h * h.
Proof.
  intros b. subst b. split.
  - rewrite getRotatedBoxCoords_fin, cos_0, sin_0.
    f_equal; f_equal; f_equal; field.
  - rewrite getRotatedBoxCoords_fin. eexists _, _, _, _, _, _, _, _.
    split; [reflexivity|].
    pose proof (sin2_cos2 a) as H. unfold Rsqr in H.
    split_and!; try field.
    + transitivity ((sin a * sin a + cos a * cos a) * (w * w)); [field|].
      rewrite H. ring.
    + transitivity ((sin a * sin a + cos a * cos a) * (h * h)); [field|].
      rewrite H. ring.
Qed.

(** ** [invertNegativeBoundingBox] *)

(** X6. [invertNegativeBoundingBox] is idempotent: applied to its own
    result it changes nothing and reports no flip; a box whose width and
    height are not negative comes back as it is. *)
Theorem invertNegativeBoundingBox_idempotent (x y w h : R) :
  let r := Utils.invertNegativeBoundingBox (BoundingBox.mk (Fin x) (Fin y) (Fin w) (Fin h)) in
  Utils.invertNegativeBoundingBox (Utils.box r) = Utils.mkInverted (Utils.box r) false false
  /\ (0 <= w -> 0 <= h ->
      r = Utils.mkInverted (BoundingBox.mk (Fin x) (Fin y) (Fin w) (Fin h)) false false).
Proof.
  intros r. subst r. rewrite invertNegativeBoundingBox_fin. cbn [Utils.box]. split.
  - rewrite invertNegativeBoundingBox_fin.
    pose proof (Rabs_pos w). pose proof (Rabs_pos h).
    rewrite !bool_decide_eq_false_2 by lra.
    f_equal. rewrite !Rabs_Rabsolu.
    f_equal; f_equal; real_cases.
  - intros Hw Hh. rewrite !bool_decide_eq_false_2 by lra.
    f_equal. f_equal; f_equal; real_cases.
Qed.

Lemma invertNegativeBoundingBox_idempotent_witness :
  let r :=
    Utils.invertNegativeBoundingBox (BoundingBox.mk (Fin 1) (Fin 2) (Fin 3) (Fin 4)) in
  Utils.invertNegativeBoundingBox (Utils.box r) = Utils.mkInverted (Utils.box r) false false
  /\ r = Utils.mkInverted (BoundingBox.mk (Fin 1) (Fin 2) (Fin 3) (Fin 4)) false false.
Proof.
  destruct (invertNegativeBoundingBox_idempotent 1 2 3 4) as [H1 H2].
  split; [exact H1 | apply H2; lra].
Defined.

(** ** [getSurroundingBoundingBox] *)

Lemma min_swap (a x y : number) :
  Num.min (Num.min a x) y = Num.min (Num.min a y) x.
Proof.
  destruct a as [a| | |], x as [x| | |], y as [y| | |]; try done;
    unfold Num.min, Num.leb;
    repeat (case_bool_decide; cbn [Num.min Num.leb]); try done; f_equal; lra.
Qed.

Lemma max_swap (a x y : number) :
  Num.max (Num.max a x) y = Num.max (Num.max a y) x.
Proof.
  destruct a as [a| | |], x as [x| | |], y as [y| | |]; try done;
    unfold Num.max, Num.leb;
    repeat (case_bool_decide; cbn [Num.max Num.leb]); try done; f_equal; lra.
Qed.

(** a left fold with a step that commutes with itself does not see the
    order of the list *)
Lemma foldl_swap_permutation {A B : Type} (f : B -> A -> B) (l l' : list A) :
  (forall b x y, f (f b x) y = f (f b y) x) ->
  l ≡ₚ l' -> forall b, foldl f b l = foldl f b l'.
Proof.
  intros Hf. induction 1 as [|x l l' _ IH|x y l|l l' l'' _ IH1 _ IH2]; intros b.
  - done.
  - cbn [foldl]. apply IH.
  - cbn [foldl]. by rewrite Hf.
  - by rewrite IH1.
Qed.

(** X7. The surrounding box does not depend on the order in which the
    boxes are given. *)
Theorem getSurroundingBoundingBox_permutation (boxes boxes' : list RotatedBoundingBox.t) :
  boxes ≡ₚ boxes' ->
  Utils.getSurroundingBoundingBox boxes = Utils.getSurroundingBoundingBox boxes'.
Proof.
  intros Hperm. pose proof (Permutation_length Hperm) as Hlen.
  destruct boxes as [|b1 [|b2 boxes]].
  - by apply Permutation_nil_l in Hperm as ->.
  - by apply Permutation_singleton_l in Hperm as ->.
  - destruct boxes' as [|c1 [|c2 boxes']]; try done.
    unfold Utils.getSurroundingBoundingBox. rewrite !surround_fold.
    cbn [Utils.ex1 Utils.ey1 Utils.ex2 Utils.ey2].
    assert (Hx : flat_map (fun b => Utils.cornerXs (Utils.getRotatedBoxCoords b))
                   (b1 :: b2 :: boxes)
                 ≡ₚ flat_map (fun b => Utils.cornerXs (Utils.getRotatedBoxCoords b))
                      (c1 :: c2 :: boxes')) by by apply Permutation_flat_map.
    assert (Hy : flat_map (fun b => Utils.cornerYs (Utils.getRotatedBoxCoords b))
                   (b1 :: b2 :: boxes)
                 ≡ₚ flat_map (fun b => Utils.cornerYs (Utils.getRotatedBoxCoords b))
                      (c1 :: c2 :: boxes')) by by apply Permutation_flat_map.
    unfold Num.minl, Num.maxl.
    rewrite (foldl_swap_permutation Num.min _ _ min_swap Hx PInf).
    rewrite (foldl_swap_permutation Num.min _ _ min_swap Hy PInf).
    rewrite (foldl_swap_permutation Num.max _ _ max_swap Hx NInf).
    rewrite (foldl_swap_permutation Num.max _ _ max_swap Hy NInf).
    done.
Qed.

Lemma getSurroundingBoundingBox_permutation_witness :
  Utils.getSurroundingBoundingBox
    [RotatedBoundingBox.mk (Fin 0) (Fin 0) (Fin 10) (Fin 10) (Fin 1);
     RotatedBoundingBox.mk (Fin 20) (Fin 20) (Fin 10) (Fin 10) (Fin 0)]
  = Utils.getSurroundingBoundingBox
      [RotatedBoundingBox.mk (Fin 20) (Fin 20) (Fin 10) (Fin 10) (Fin 0);
       RotatedBoundingBox.mk (Fin 0) (Fin 0) (Fin 10) (Fin 10) (Fin 1)].
Proof. apply getSurroundingBoundingBox_permutation. apply perm_swap. Defined.

(** X8. The box surrounding two or more boxes of finite numbers has
    finite fields and a width and a height that are not negative. *)
Theorem getSurroundingBoundingBox_extent (boxes : list RotatedBoundingBox.t) :
  (2 <= length boxes)%nat ->
  Forall (fun b => RotatedBoundingBox.isFinite b = true) boxes ->
  exists x y w h : R,
    Utils.getSurroundingBoundingBox boxes
    = RotatedBoundingBox.mk (Fin x) (Fin y) (Fin w) (Fin h) (Fin 0)
    /\ 0 <= w /\ 0 <= h.
Proof.
  intros Hlen Hfin.
  destruct boxes as [|b1 [|b2 boxes]]; [simpl in Hlen; lia ..|].
  unfold Utils.getSurroundingBoundingBox. rewrite surround_fold.
  cbn [Utils.ex1 Utils.ey1 Utils.ex2 Utils.ey2].
  destruct (all_corners_fin _ Hfin) as [Hx Hy].
  set (xs := flat_map (fun b => Utils.cornerXs _) _) in *.
  set (ys := flat_map (fun b => Utils.cornerYs _) _) in *.
  assert (Hxne : xs <> []) by done. assert (Hyne : ys <> []) by done.
  destruct (minl_PInf_least xs Hx Hxne) as [Hx1 _].
  destruct (maxl_NInf_greatest xs Hx Hxne) as [Hx2 Hxmax].
  destruct (minl_PInf_least ys Hy Hyne) as [Hy1 _].
  destruct (maxl_NInf_greatest ys Hy Hyne) as [Hy2 Hymax].
  pose proof (Hxmax _ Hx1) as Hxle. pose proof (Hymax _ Hy1) as Hyle.
  apply (proj1 (Forall_forall _ _) Hx), isFin_inv in Hx1 as [x1 Ex1].
  apply (proj1 (Forall_forall _ _) Hx), isFin_inv in Hx2 as [x2 Ex2].
  apply (proj1 (Forall_forall _ _) Hy), isFin_inv in Hy1 as [y1 Ey1].
  apply (proj1 (Forall_forall _ _) Hy), isFin_inv in Hy2 as [y2 Ey2].
  rewrite Ex1, Ex2 in Hxle |- *. rewrite Ey1, Ey2 in Hyle |- *.
  apply bool_decide_eq_true in Hxle, Hyle.
  exists x1, y1, (x2 + - x1), (y2 + - y1). split; [done|]. lra.
Qed.

Lemma getSurroundingBoundingBox_extent_witness :
  exists x y w h : R,
    Utils.getSurroundingBoundingBox
      [RotatedBoundingBox.mk (Fin 0) (Fin 0) (Fin 10) (Fin 10) (Fin 1);
       RotatedBoundingBox.mk (Fin 20) (Fin 20) (Fin 10) (Fin 10) (Fin 0)]
    = RotatedBoundingBox.mk (Fin x) (Fin y) (Fin w) (Fin h) (Fin 0)
    /\ 0 <= w /\ 0 <= h.
Proof.
  apply getSurroundingBoundingBox_extent.
  - simpl. lia.
  - repeat constructor.
Defined.

(** ** [isPathClosed] *)

Lemma hypot_sub_swap (ax ay bx by' : number) :
  UtilsRest.hypot (bx - ax)%num (by' - ay)%num
  = UtilsRest.hypot (ax - bx)%num (ay - by')%num.
Proof.
  destruct ax as [ax| | |], ay as [ay| | |], bx as [bx| | |], by' as [by'| | |];
    try done.
  cbn. f_equal. f_equal. ring.
Qed.

(** X9. A path of fewer than three points counts as closed, whatever the
    threshold; and whether a path counts as closed does not change when
    the path is reversed. *)
Theorem isPathClosed_short_and_reverse (threshold : number) (path : list Point) :
  ((length path < 3)%nat -> UtilsRest.isPathClosed threshold path = true)
  /\ UtilsRest.isPathClosed threshold (reverse path)
     = UtilsRest.isPathClosed threshold path.
Proof.
  unfold UtilsRest.isPathClosed. split.
  - intros Hlen. by rewrite (proj2 (Nat.ltb_lt _ _) Hlen).
  - rewrite length_reverse, head_reverse, last_reverse.
    destruct (length path <? 3)%nat; [done|].
    destruct (head path) as [[sx sy]|], (last path) as [[ex ey]|]; try done.
    by rewrite hypot_sub_swap.
Qed.

Lemma isPathClosed_short_and_reverse_witness :
  UtilsRest.isPathClosed (Fin 5) [(Fin 0, Fin 0); (Fin 100, Fin 100)] = true
  /\ UtilsRest.isPathClosed (Fin 5)
       (reverse [(Fin 0, Fin 0); (Fin 100, Fin 100)])
     = UtilsRest.isPathClosed (Fin 5) [(Fin 0, Fin 0); (Fin 100, Fin 100)].
Proof.
  destruct (isPathClosed_short_and_reverse (Fin 5) [(Fin 0, Fin 0); (Fin 100, Fin 100)])
    as [H1 H2].
  split; [apply H1; simpl; lia | exact H2].
Defined.

(** X10. For a path of three points or more with finite end points the
    answer is the comparison of the distance between the first and the
    last point with the threshold: a path that returns to its first point
    is closed under every threshold that is not negative, and no such path
    is closed under a [NaN] threshold. *)
Theorem isPathClosed_long (path : list Point) (sx sy ex ey : R) :
  (3 <= length path)%nat ->
  head path = Some (Fin sx, Fin sy) ->
  last path = Some (Fin ex, Fin ey) ->
  (forall t : R,
      UtilsRest.isPathClosed (Fin t) path
      = bool_decide (sqrt ((ex - sx) * (ex - sx) + (ey - sy) * (ey - sy)) <= t))
  /\ (forall t : R, ex = sx -> ey = sy -> 0 <= t ->
      UtilsRest.isPathClosed (Fin t) path = true)
  /\ UtilsRest.isPathClosed NaN path = false.
Proof.
  intros Hlen Hhead Hlast. unfold UtilsRest.isPathClosed.
  rewrite (proj2 (Nat.ltb_ge _ _) Hlen), Hhead, Hlast. split_and!.
  - intros t. cbn. by replace (ex + - sx) with (ex - sx) by lra.
  - intros t -> -> Ht. cbn. apply bool_decide_eq_true.
    replace ((sx + - sx) * (sx + - sx) + (sy + - sy) * (sy + - sy)) with 0 by ring.
    rewrite sqrt_0. lra.
  - done.
Qed.

Lemma isPathClosed_long_witness :
  (forall t : R,
      UtilsRest.isPathClosed (Fin t) [(Fin 0, Fin 0); (Fin 9, Fin 9); (Fin 0, Fin 0)]
      = bool_decide (sqrt ((0 - 0) * (0 - 0) + (0 - 0) * (0 - 0)) <= t))
  /\ (forall t : R, 0 = 0 -> 0 = 0 -> 0 <= t ->
      UtilsRest.isPathClosed (Fin t) [(Fin 0, Fin 0); (Fin 9, Fin 9); (Fin 0, Fin 0)]
      = true)
  /\ UtilsRest.isPathClosed NaN [(Fin 0, Fin 0); (Fin 9, Fin 9); (Fin 0, Fin 0)] = false.
Proof.
  apply (isPathClosed_long [(Fin 0, Fin 0); (Fin 9, Fin 9); (Fin 0, Fin 0)] 0 0 0 0).
  - simpl. lia.
  - reflexivity.
  - reflexivity.
Defined.

(** ** [onElementRotate]: snapping *)

(** X11. Snapping the rotation is idempotent: an angle that has been
    snapped is a fixed point of the snap, and so is every integer multiple
    of [PI / 12]. *)
Theorem snapRotation_idempotent (raw : R) (k : Z) :
  App.snapRotation false (App.snapRotation false (Fin raw))
  = App.snapRotation false (Fin raw)
  /\ App.snapRotation false (Fin (IZR k * (PI / 12))) = Fin (IZR k * (PI / 12)).
Proof.
  assert (Hfix : forall j : Z,
             App.snapRotation false (Fin (IZR j * (PI / 12))) = Fin (IZR j * (PI / 12))).
  { intros j. rewrite snapRotation_fin. pose proof PI_RGT_0.
    replace (IZR j * (PI / 12) / (PI / 12)) with (IZR j) by (field; lra).
    by rewrite Zfloor_half. }
  split; [|apply Hfix]. rewrite snapRotation_fin. apply Hfix.
Qed.

(** ** [onElementDrag] *)

Lemma applyMutations_position (x y : number) (el : Element.t) :
  ElementLayer.applyMutations (App.positionMutations x y) el
  = Element.mk x y (Element.w el) (Element.h el) (Element.rotate el)
      (Element.flippedX el) (Element.flippedY el) (Element.fill el) (Element.data el).
Proof.
  unfold ElementLayer.applyMutations. cbn. f_equal. by destruct (Element.data el).
Qed.

(** the loop of [onElementDrag], seen from one element *)
Lemma drag_fold_lookup (off : XYCoords.t) (els : list TransformingElement)
    (a : App.t) (k : ref) :
  let a' :=
    foldl
      (fun acc te =>
         App.mutateElement (element te)
           (App.positionMutations
              (Element.x (initialElement te) + XYCoords.x off)%num
              (Element.y (initialElement te) + XYCoords.y off)%num)
           acc)
      a els in
  App.state a' = App.state a /\ App.pointer a' = App.pointer a
  /\ App.elementLayer a' = App.elementLayer a
  /\ App.editingElement a' = App.editingElement a
  /\ App.transformingElements a' = App.transformingElements a
  /\ App.objects a' !! k
     = match last (filter (fun te => element te = k) els) with
       | Some te =>
           (fun el =>
              Element.mk
                (Element.x (initialElement te) + XYCoords.x off)%num
                (Element.y (initialElement te) + XYCoords.y off)%num
                (Element.w el) (Element.h el) (Element.rotate el)
                (Element.flippedX el) (Element.flippedY el) (Element.fill el)
                (Element.data el))
           <$> App.objects a !! k
       | None => App.objects a !! k
       end.
Proof.
  induction els as [|te els IH] using rev_ind; [done|].
  cbv zeta in *. rewrite foldl_app. cbn [foldl].
  destruct IH as (Hs & Hp & Hl & He & Ht & Hlook).
  split_and!; try done.
  cbn [App.mutateElement App.setObjects App.objects]. unfold ElementLayer.mutateElement.
  rewrite filter_app, lookup_alter.
  destruct (decide (element te = k)) as [Heq | Hne].
  - rewrite filter_cons_True, filter_nil, last_snoc by done.
    rewrite Heq, Hlook.
    destruct (last (filter _ els)); destruct (App.objects a !! k); cbn;
      by rewrite ?applyMutations_position.
  - rewrite filter_cons_False, filter_nil, app_nil_r by done. apply Hlook.
Qed.

(** what [onElementDrag] leaves alone, and what it writes *)
Lemma onElementDrag_frame (eCtrlKey : bool) (p : PointerState.t)
    (els : list TransformingElement) (a : App.t) :
  let a' := App.onElementDrag eCtrlKey p els a in
  App.state a' = App.state a /\ App.pointer a' = App.pointer a
  /\ App.elementLayer a' = App.elementLayer a.
Proof.
  intros a'. subst a'. unfold App.onElementDrag.
  match goal with
  | |- context [foldl _ a els] =>
      match goal with
      | |- context [XYCoords.x ?off] =>
          destruct (drag_fold_lookup off els a 0%nat) as (Hs & Hp & Hl & _)
      end
  end.
  done.
Qed.

Lemma onElementDrag_objects (eCtrlKey : bool) (p : PointerState.t)
    (els : list TransformingElement) (a : App.t) (k : ref) :
  let dragOffset :=
    if negb eCtrlKey
    then Viewport.snapVirtualCoordsToGrid (offset (PointerState.drag p)) (App.state a)
    else offset (PointerState.drag p) in
  App.objects (App.onElementDrag eCtrlKey p els a) !! k
  = match last (filter (fun te => element te = k) els) with
    | Some te =>
        (fun el =>
           Element.mk
             (Element.x (initialElement te) + XYCoords.x dragOffset)%num
             (Element.y (initialElement te) + XYCoords.y dragOffset)%num
             (Element.w el) (Element.h el) (Element.rotate el)
             (Element.flippedX el) (Element.flippedY el) (Element.fill el)
             (Element.data el))
        <$> App.objects a !! k
    | None => App.objects a !! k
    end.
Proof.
  intros dragOffset. unfold App.onElementDrag. fold dragOffset.
  by destruct (drag_fold_lookup dragOffset els a k) as (_ & _ & _ & _ & _ & Hlook).
Qed.

(** X12. After [onElementDrag] every element of the gesture sits at the
    position of its snapshot plus the drag offset (snapped to the grid
    unless ctrl is held); its size, rotation, flips, fill and variant data
    are as before, the elements outside the gesture are untouched, and so
    are the state, the pointer and the layer. *)
Theorem onElementDrag_lookup (eCtrlKey : bool) (p : PointerState.t)
    (els : list TransformingElement) (a : App.t) (k : ref) :
  let dragOffset :=
    if negb eCtrlKey
    then Viewport.snapVirtualCoordsToGrid (offset (PointerState.drag p)) (App.state a)
    else offset (PointerState.drag p) in
  let a' := App.onElementDrag eCtrlKey p els a in
  App.state a' = App.state a /\ App.pointer a' = App.pointer a
  /\ App.elementLayer a' = App.elementLayer a
  /\ App.objects a' !! k
     = match last (filter (fun te => element te = k) els) with
       | Some te =>
           (fun el =>
              Element.mk
                (Element.x (initialElement te) + XYCoords.x dragOffset)%num
                (Element.y (initialElement te) + XYCoords.y dragOffset)%num
                (Element.w el) (Element.h el) (Element.rotate el)
                (Element.flippedX el) (Element.flippedY el) (Element.fill el)
                (Element.data el))
           <$> App.objects a !! k
       | None => App.objects a !! k
       end.
Proof.
  intros dragOffset a'.
  destruct (onElementDrag_frame eCtrlKey p els a) as (Hs & Hp & Hl).
  split_and!; [done..|]. apply onElementDrag_objects.
Qed.

(** X13. Drags do not accumulate: [onElementDrag] computes every position
    from the snapshots, so a drag on top of an earlier drag of the same
    gesture leaves the element objects exactly as that drag alone does. *)
Theorem onElementDrag_no_accumulation (c1 c2 : bool) (p1 p2 : PointerState.t)
    (els : list TransformingElement) (a : App.t) :
  App.objects (App.onElementDrag c2 p2 els (App.onElementDrag c1 p1 els a))
  = App.objects (App.onElementDrag c2 p2 els a).
Proof.
  apply map_eq. intros k.
  destruct (onElementDrag_frame c1 p1 els a) as (Hs1 & _ & _).
  pose proof (onElementDrag_objects c1 p1 els a k) as H1.
  pose proof (onElementDrag_objects c2 p2 els (App.onElementDrag c1 p1 els a) k) as H12.
  pose proof (onElementDrag_objects c2 p2 els a k) as H2.
  cbv zeta in *. rewrite H12, H2, H1, Hs1.
  destruct (last (filter _ els)); [|done].
  by destruct (App.objects a !! k).
Qed.

Lemma add_zero_r (v : number) : (v + Fin 0)%num = v.
Proof. destruct v; try done. cbn. f_equal. lra. Qed.

Lemma snap_zero (s : AppState.t) (g : R) :
  gridSize (AppState.grid s) = Fin g -> g <> 0 ->
  Viewport.snapVirtualCoordsToGrid (XYCoords.mk (Fin 0) (Fin 0)) s
  = XYCoords.mk (Fin 0) (Fin 0).
Proof.
  intros Hg Hg0. unfold Viewport.snapVirtualCoordsToGrid.
  destruct (gridSnap (AppState.grid s)); [|done].
  rewrite Hg. cbn [XYCoords.x XYCoords.y]. rewrite div_fin by done.
  cbn [Num.round Num.mul].
  replace (0 / g + / 2) with (IZR 0 + / 2) by (field; done).
  rewrite Zfloor_half. f_equal; f_equal; lra.
Qed.

(** X14. A drag by nothing changes nothing: with the snapshots taken
    from the current elements and a drag offset of zero, [onElementDrag]
    leaves every element object as it is, with or without ctrl and with
    or without grid snapping (the grid size being finite and not zero). *)
Theorem onElementDrag_zero_offset (eCtrlKey : bool) (p : PointerState.t)
    (rs : list ref) (a : App.t) (g : R) :
  offset (PointerState.drag p) = XYCoords.mk (Fin 0) (Fin 0) ->
  gridSize (AppState.grid (App.state a)) = Fin g -> g <> 0 ->
  App.objects
    (App.onElementDrag eCtrlKey p
       (Elements.createTransformingElements (App.objects a) rs) a)
  = App.objects a.
Proof.
  intros Hoff Hg Hg0. apply map_eq. intros k.
  rewrite (onElementDrag_objects eCtrlKey p
             (Elements.createTransformingElements (App.objects a) rs) a k).
  rewrite Hoff, (snap_zero _ g Hg Hg0).
  destruct (last (filter _ _)) as [te|] eqn:Hlast; [|done].
  apply last_Some_elem_of, list_elem_of_filter in Hlast as [Hk Hin].
  unfold Elements.createTransformingElements in Hin.
  apply list_elem_of_omap in Hin as (r & _ & Hr).
  destruct (App.objects a !! r) as [el|] eqn:Hel; [|done].
  injection Hr as <-. cbn [element initialElement] in *. subst r.
  rewrite Hel. cbn. destruct eCtrlKey; cbn; rewrite !add_zero_r; by destruct el.
Qed.

Lemma onElementDrag_zero_offset_witness :
  App.objects
    (App.onElementDrag false (Examples.pointerAt (Fin 10) (Fin 20))
       (Elements.createTransformingElements (App.objects Examples.strokeAndDot)
          [0%nat; 1%nat])
       Examples.strokeAndDot)
  = App.objects Examples.strokeAndDot.
Proof.
  apply (onElementDrag_zero_offset false _ _ _ 10).
  - reflexivity.
  - reflexivity.
  - lra.
Defined.

(** ** Panning with the Hand tool *)

Lemma hand_move (ext : Collaborators) (e : PointerEvent.t) (a0 a : App.t)
    (ox oy sx sy fx fy ex ey : R) :
  AppState.activeTool (App.state a0) = Hand ->
  Gesture.at_ e ex ey ->
  Gesture.panning a0 ox oy sx sy fx fy a ->
  Gesture.panning a0 ox oy sx sy (ex - ox) (ey - oy) (App.onWindowPointerMove ext e a).
Proof.
  intros Htool [Hex Hey] ((p & Hp & Ho & Hoff) & (cx & cy & Hs & Hcx & Hcy) & Hrest).
  unfold App.onWindowPointerMove. rewrite Hp. cbv zeta.
  cbn [App.state App.setPointer]. rewrite Hs.
  cbn [AppState.activeTool AppState.setScrollOffset]. rewrite Htool.
  unfold App.dragTo. rewrite Ho, Hoff, Hex, Hey.
  cbn [PointerState.drag PointerState.setDrag offset previousOffset XYCoords.x XYCoords.y
       Num.sub Num.neg Num.add AppState.scrollOffset].
  split_and!.
  - eexists. split_and!; [reflexivity|done|]. cbn. f_equal; f_equal; lra.
  - eexists _, _. split; [cbn; rewrite Hs; cbn; reflexivity|]. split; lra.
  - apply Hrest.
  - apply Hrest.
  - apply Hrest.
  - apply Hrest.
Qed.

Lemma hand_moves (ext : Collaborators) (events : list PointerEvent.t) (a0 a : App.t)
    (ox oy sx sy fx fy : R) :
  AppState.activeTool (App.state a0) = Hand ->
  Gesture.finite events ->
  Gesture.panning a0 ox oy sx sy fx fy a ->
  exists fx' fy',
    Gesture.panning a0 ox oy sx sy fx' fy' (Gesture.moves ext events a)
    /\ match last events with
       | Some e => Gesture.at_ e (ox + fx') (oy + fy')
       | None => fx' = fx /\ fy' = fy
       end.
Proof.
  intros Htool Hfin. revert a fx fy.
  induction Hfin as [|e events (ex & ey & He) _ IH]; intros a fx fy Hpan.
  - by exists fx, fy.
  - cbn [Gesture.moves foldl].
    destruct (IH _ _ _ (hand_move ext e a0 a _ _ _ _ _ _ _ _ Htool He Hpan))
      as (fx' & fy' & Hpan' & Hlast).
    exists fx', fy'. split; [done|].
    destruct events as [|e' events].
    2:{ change (last (e :: e' :: events)) with (last (e' :: events)).
        destruct (last (e' :: events)) eqn:E; [exact Hlast|].
        by apply last_None in E. }
    cbn in Hlast. destruct Hlast as [-> ->]. destruct He as [Hx Hy].
    split; [rewrite Hx|rewrite Hy]; f_equal; lra.
Qed.

(** X15. Panning follows the pointer.  After a press with the Hand tool
    and any pointer moves (all at finite positions, the state finite) the
    scroll offset has moved by exactly the distance between the last pointer
    position and the press position, however the pointer got there; the
    virtual point under the pointer is the one that was pressed; zoom,
    tool, mode, elements, layer and editing reference are untouched. *)
Theorem hand_pan_follows_pointer (ext : Collaborators) (a0 : App.t)
    (down last : PointerEvent.t) (events : list PointerEvent.t)
    (z sx sy ox oy ex ey : R) :
  AppState.activeTool (App.state a0) = Hand ->
  AppState.zoom (App.state a0) = Fin z -> z <> 0 ->
  AppState.scrollOffset (App.state a0) = XYCoords.mk (Fin sx) (Fin sy) ->
  PointerEvent.buttons down = 1%nat ->
  Gesture.at_ down ox oy ->
  Gesture.finite events ->
  Gesture.at_ last ex ey ->
  let a := Gesture.moves ext (events ++ [last]) (App.onCanvasPointerDown ext down a0) in
  exists cx cy,
    App.state a = AppState.setScrollOffset (XYCoords.mk (Fin cx) (Fin cy)) (App.state a0)
    /\ cx = sx + (ex - ox) /\ cy = sy + (ey - oy)
    /\ Viewport.screenOffsetToVirtualOffset (XYCoords.mk (Fin ex) (Fin ey)) (App.state a)
       = Viewport.screenOffsetToVirtualOffset (XYCoords.mk (Fin ox) (Fin oy)) (App.state a0)
    /\ App.objects a = App.objects a0
    /\ App.elementLayer a = App.elementLayer a0
    /\ App.editingElement a = App.editingElement a0.
Proof.
  intros Htool Hz Hz0 Hscroll Hb [Hox Hoy] Hfin Hlast a.
  assert (Hdown : Gesture.panning a0 ox oy sx sy 0 0 (App.onCanvasPointerDown ext down a0)).
  { unfold App.onCanvasPointerDown. rewrite Hb. cbn. rewrite Htool.
    split_and!; try done.
    - eexists. split_and!; [reflexivity|..]; cbn; by rewrite ?Hox, ?Hoy.
    - exists sx, sy. split_and!; try lra.
      cbn. destruct (App.state a0); cbn in *. by rewrite Hscroll. }
  assert (Hall : Gesture.finite (events ++ [last])).
  { apply Forall_app. split; [done|]. repeat constructor. by eexists _, _. }
  destruct (hand_moves ext _ a0 _ ox oy sx sy 0 0 Htool Hall Hdown)
    as (fx & fy & Hpan & Hat).
  rewrite last_snoc in Hat. destruct Hlast as [Hex Hey], Hat as [Hx Hy].
  rewrite Hex in Hx. rewrite Hey in Hy. injection Hx as Hx. injection Hy as Hy.
  fold a in Hpan. destruct Hpan as (_ & (cx & cy & Hs & Hcx & Hcy) & Ho & Hl & He & _).
  exists cx, cy. split_and!; try done; try lra.
  rewrite Hs. unfold Viewport.screenOffsetToVirtualOffset.
  cbn [AppState.scrollOffset AppState.setScrollOffset AppState.zoom XYCoords.x XYCoords.y].
  rewrite Hz, Hscroll. cbn [XYCoords.x XYCoords.y Num.sub Num.neg Num.add].
  rewrite !div_fin by done. f_equal; f_equal; f_equal; lra.
Qed.

Lemma hand_pan_follows_pointer_witness :
  AppState.scrollOffset
    (App.state
       (Gesture.moves Examples.collaborators
          ([Examples.event (Fin 7) (Fin 1)] ++ [Examples.event (Fin 9) (Fin 12)])
          (App.onCanvasPointerDown Examples.collaborators
             (Examples.event (Fin 5) (Fin 5)) (Examples.emptyApp Hand))))
  = XYCoords.mk (Fin (10 + (9 - 5))) (Fin (20 + (12 - 5))).
Proof.
  destruct (hand_pan_follows_pointer Examples.collaborators (Examples.emptyApp Hand)
              (Examples.event (Fin 5) (Fin 5)) (Examples.event (Fin 9) (Fin 12))
              [Examples.event (Fin 7) (Fin 1)] 2 10 20 5 5 9 12)
    as (cx & cy & Hs & Hcx & Hcy & _).
  - reflexivity.
  - reflexivity.
  - lra.
  - reflexivity.
  - reflexivity.
  - split; reflexivity.
  - repeat constructor. exists 7, 1. split; reflexivity.
  - split; reflexivity.
  - rewrite Hs, Hcx, Hcy. reflexivity.
Defined.

(** ** Creating a shape *)

Lemma snap_fin (s : AppState.t) (g px py : R) :
  gridSize (AppState.grid s) = Fin g -> g <> 0 ->
  exists qx qy,
    Viewport.snapVirtualCoordsToGrid (XYCoords.mk (Fin px) (Fin py)) s
    = XYCoords.mk (Fin qx) (Fin qy).
Proof.
  intros Hg Hg0. unfold Viewport.snapVirtualCoordsToGrid.
  destruct (gridSnap (AppState.grid s)); [|by eexists _, _].
  rewrite Hg. cbn [XYCoords.x XYCoords.y]. rewrite !div_fin by done.
  by eexists _, _.
Qed.

(** [v || fallback] is finite and not zero when the fallback is *)
Lemma or_fallback (v g : R) :
  g <> 0 -> exists w, Num.or (Fin v) (Fin g) = Fin w /\ w <> 0.
Proof.
  intros Hg. unfold Num.or, Num.truthy. case_bool_decide; cbn; by eexists.
Qed.

(** X16. The box that the creation of a shape writes, for a finite
    state, pointer and grid size (not zero): its position is finite and
    its width and height are finite and not negative, whichever way the
    pointer went; and unless ctrl is held during the move neither is
    zero, a zero extent being replaced by the grid size. *)
Theorem shapeCreationMutations_extent (s : AppState.t) (eCtrlKey : bool)
    (p : PointerState.t) (z sx sy g ox oy fx fy : R) :
  AppState.zoom s = Fin z -> z <> 0 ->
  AppState.scrollOffset s = XYCoords.mk (Fin sx) (Fin sy) ->
  gridSize (AppState.grid s) = Fin g -> g <> 0 ->
  PointerState.origin p = XYCoords.mk (Fin ox) (Fin oy) ->
  offset (PointerState.drag p) = XYCoords.mk (Fin fx) (Fin fy) ->
  exists x y w h fX fY,
    App.shapeCreationMutations s eCtrlKey p
    = Mutations.mk (Some (Fin x)) (Some (Fin y)) (Some (Fin w)) (Some (Fin h))
        None (Some fX) (Some fY) None None None
    /\ 0 <= w /\ 0 <= h
    /\ (eCtrlKey = false -> 0 < w /\ 0 < h).
Proof.
  intros Hz Hz0 Hscroll Hg Hg0 Ho Hoff.
  unfold App.shapeCreationMutations, Viewport.screenOffsetToVirtualOffset.
  rewrite Hz, Hscroll, Ho, Hoff.
  cbn [XYCoords.x XYCoords.y Num.sub Num.neg Num.add]. rewrite !div_fin by done.
  assert (Hpos : exists x y,
    (if negb (PointerState.ctrlKey p)
     then Viewport.snapVirtualCoordsToGrid
            (XYCoords.mk (Fin ((ox + - sx) / z)) (Fin ((oy + - sy) / z))) s
     else XYCoords.mk (Fin ((ox + - sx) / z)) (Fin ((oy + - sy) / z)))
    = XYCoords.mk (Fin x) (Fin y)).
  { destruct (negb (PointerState.ctrlKey p)); [|by eexists _, _].
    by apply (snap_fin s g). }
  destruct Hpos as (x & y & ->). cbn [XYCoords.x XYCoords.y Num.add].
  destruct eCtrlKey; cbn [negb].
  - rewrite invertNegativeBoundingBox_fin. cbn.
    eexists _, _, _, _, _, _. split; [reflexivity|].
    split_and!; [apply Rabs_pos..|done].
  - destruct (snap_fin s g (x + fx / z) (y + fy / z) Hg Hg0) as (qx & qy & ->).
    rewrite Hg. unfold Num.sub. cbn [XYCoords.x XYCoords.y Num.neg Num.add].
    destruct (or_fallback (qx + - x) g Hg0) as (w & -> & Hw).
    destruct (or_fallback (qy + - y) g Hg0) as (h & -> & Hh).
    rewrite invertNegativeBoundingBox_fin. cbn.
    eexists _, _, _, _, _, _. split; [reflexivity|].
    split_and!; [apply Rabs_pos..|]. intros _. split; by apply Rabs_pos_lt.
Qed.

Lemma shapeCreationMutations_extent_witness :
  exists x y w h fX fY,
    App.shapeCreationMutations (Examples.appState Rectangle CREATING) false
      (Examples.pointerAt (Fin 10) (Fin 20))
    = Mutations.mk (Some (Fin x)) (Some (Fin y)) (Some (Fin w)) (Some (Fin h))
        None (Some fX) (Some fY) None None None
    /\ 0 <= w /\ 0 <= h
    /\ (false = false -> 0 < w /\ 0 < h).
Proof.
  apply (shapeCreationMutations_extent _ _ _ 2 10 20 10 10 20 0 0).
  - reflexivity.
  - lra.
  - reflexivity.
  - reflexivity.
  - lra.
  - reflexivity.
  - reflexivity.
Defined.

(** ** Drawing a stroke *)

(** X17. One step of a freedraw stroke, on finite numbers and an element
    whose size is not negative: the box of the stroke becomes the smallest
    box that holds the old box and the pointer (so it never shrinks), and
    the path gets exactly one more point. *)
Theorem freedrawCreationMutations_box (ex ey ew eh ptx pty : R) (rot : number)
    (fX fY : bool) (fill : string) (d : ElementData) (path : list Point) :
  0 <= ew -> 0 <= eh ->
  exists x y w h path',
    App.freedrawCreationMutations (XYCoords.mk (Fin ptx) (Fin pty))
      (Element.mk (Fin ex) (Fin ey) (Fin ew) (Fin eh) rot fX fY fill d) path
    = Mutations.mk (Some (Fin x)) (Some (Fin y)) (Some (Fin w)) (Some (Fin h))
        None None None None (Some path') None
    /\ x = Rmin ex ptx /\ y = Rmin ey pty
    /\ x + w = Rmax (ex + ew) ptx /\ y + h = Rmax (ey + eh) pty
    /\ ew <= w /\ eh <= h
    /\ length path' = S (length path).
Proof.
  intros Hw Hh. rewrite freedrawCreationMutations_fin. cbv zeta.
  eexists _, _, _, _, _. split; [reflexivity|].
  split_and!; [real_cases..|].
  destruct (_ || _)%bool; rewrite ?length_map, length_app; cbn; lia.
Qed.

Lemma freedrawCreationMutations_box_witness :
  exists x y w h path',
    App.freedrawCreationMutations (XYCoords.mk (Fin (-5)) (Fin 30))
      (Element.mk (Fin 0) (Fin 0) (Fin 10) (Fin 10) (Fin 0) false false ""
         (freedraw [(Fin 0, Fin 0)]))
      [(Fin 0, Fin 0)]
    = Mutations.mk (Some (Fin x)) (Some (Fin y)) (Some (Fin w)) (Some (Fin h))
        None None None None (Some path') None
    /\ x = Rmin 0 (-5) /\ y = Rmin 0 30
    /\ x + w = Rmax (0 + 10) (-5) /\ y + h = Rmax (0 + 10) 30
    /\ 10 <= w /\ 10 <= h
    /\ length path' = S (length [(Fin 0, Fin 0)]).
Proof.
  apply (freedrawCreationMutations_box 0 0 10 10 (-5) 30); lra.
Defined.

(** the length of the path that a freedraw step writes *)
Lemma freedrawCreationMutations_path (point : XYCoords.t) (el : Element.t)
    (path : list Point) :
  exists path',
    Mutations.path (App.freedrawCreationMutations point el path) = Some path'
    /\ length path' = S (length path).
Proof.
  unfold App.freedrawCreationMutations. cbn [Mutations.path].
  eexists. split; [reflexivity|].
  destruct (_ || _)%bool; rewrite ?length_map, length_app; cbn; lia.
Qed.

(** a stroke under creation: the element [r] being edited is a freedraw
    element with [n] points *)
Lemma freedraw_move (ext : Collaborators) (e : PointerEvent.t) (a : App.t)
    (r : ref) (n : nat) :
  AppState.activeTool (App.state a) = Freedraw ->
  AppState.usermode (App.state a) = CREATING ->
  App.editingElement a = Some r ->
  is_Some (App.pointer a) ->
  (exists el path,
      App.objects a !! r = Some el /\ Element.data el = freedraw path
      /\ length path = n) ->
  let a' := App.onWindowPointerMove ext e a in
  App.state a' = App.state a
  /\ App.editingElement a' = Some r
  /\ is_Some (App.pointer a')
  /\ (exists el path,
         App.objects a' !! r = Some el /\ Element.data el = freedraw path
         /\ length path = S n)
  /\ App.elementLayer a' = App.elementLayer a
  /\ forall k, k <> r -> App.objects a' !! k = App.objects a !! k.
Proof.
  intros Htool Hmode Hedit [p Hp] (el & path & Hel & Hdata & Hlen) a'. subst a'.
  unfold App.onWindowPointerMove. rewrite Hp. cbv zeta.
  cbn [App.state App.setPointer App.editingElement]. rewrite Htool, Hmode, Hedit.
  rewrite (onElementCreation_freedraw _ _ _ _ el path) by done.
  cbn [App.mutateElement App.setObjects App.state App.editingElement App.pointer
       App.elementLayer App.objects].
  unfold ElementLayer.mutateElement.
  change (App.objects (App.setPointer (Some (App.dragTo e p)) a)) with (App.objects a).
  change (App.state (App.setPointer (Some (App.dragTo e p)) a)) with (App.state a).
  split_and!; try done.
  - rewrite lookup_alter_eq, Hel. cbn [fmap option_fmap option_map].
    destruct (freedrawCreationMutations_path
                (Viewport.screenOffsetToVirtualOffset
                   (App.pointerScreenCoords (App.dragTo e p)) (App.state a))
                el path) as (path' & Hpath & Hlen').
    eexists _, path'. split; [reflexivity|].
    unfold ElementLayer.applyMutations. cbn [Element.data].
    rewrite Hdata, Hpath. split; [done|]. by rewrite Hlen', Hlen.
  - intros k Hk. by rewrite lookup_alter_ne.
Qed.

(** X18. Every pointer move adds one point to the stroke.  After a press
    with the Freedraw tool and [n] pointer moves, whatever their positions
    and keys, the new element is a freedraw element whose path has [n + 1]
    points; it is still the element being edited, and the other element
    objects and the mode are as the press left them. *)
Theorem freedraw_gesture_path_length (ext : Collaborators) (a0 : App.t)
    (down : PointerEvent.t) (events : list PointerEvent.t) :
  AppState.activeTool (App.state a0) = Freedraw ->
  PointerEvent.buttons down = 1%nat ->
  let r := fresh (dom (App.objects a0)) in
  let a := Gesture.moves ext events (App.onCanvasPointerDown ext down a0) in
  (exists el path,
      App.objects a !! r = Some el /\ Element.data el = freedraw path
      /\ length path = S (length events))
  /\ App.editingElement a = Some r
  /\ AppState.usermode (App.state a) = CREATING
  /\ App.objects a0 !! r = None
  /\ forall k, k <> r -> App.objects a !! k = App.objects a0 !! k.
Proof.
  intros Htool Hb r a.
  set (a1 := App.onCanvasPointerDown ext down a0) in *.
  assert (H1 : AppState.activeTool (App.state a1) = Freedraw
               /\ AppState.usermode (App.state a1) = CREATING
               /\ App.editingElement a1 = Some r
               /\ is_Some (App.pointer a1)
               /\ (exists el path,
                      App.objects a1 !! r = Some el /\ Element.data el = freedraw path
                      /\ length path = 1%nat)
               /\ forall k, k <> r -> App.objects a1 !! k = App.objects a0 !! k).
  { subst a1. unfold App.onCanvasPointerDown. rewrite Hb. cbn. rewrite Htool. cbn.
    split_and!; try done.
    - eexists _, _. split; [apply lookup_insert_eq|]. done.
    - intros k Hk. by apply lookup_insert_ne. }
  assert (Hfresh : App.objects a0 !! r = None).
  { apply not_elem_of_dom, is_fresh. }
  clearbody a1. subst a.
  assert (Hgen : forall n a1,
    AppState.activeTool (App.state a1) = Freedraw ->
    AppState.usermode (App.state a1) = CREATING ->
    App.editingElement a1 = Some r ->
    is_Some (App.pointer a1) ->
    (exists el path,
        App.objects a1 !! r = Some el /\ Element.data el = freedraw path
        /\ length path = n) ->
    let a := Gesture.moves ext events a1 in
    (exists el path,
        App.objects a !! r = Some el /\ Element.data el = freedraw path
        /\ length path = (n + length events)%nat)
    /\ App.editingElement a = Some r
    /\ AppState.usermode (App.state a) = CREATING
    /\ forall k, k <> r -> App.objects a !! k = App.objects a1 !! k).
  { clear. induction events as [|e events IH]; intros n a1 Htool Hmode Hedit Hp Hel.
    - cbn. rewrite Nat.add_0_r. done.
    - cbn [Gesture.moves foldl length].
      destruct (freedraw_move ext e a1 r n Htool Hmode Hedit Hp Hel)
        as (Hs & Hedit' & Hp' & Hel' & _ & Hothers).
      destruct (IH (S n) (App.onWindowPointerMove ext e a1)) as (H1 & H2 & H3 & H4);
        rewrite ?Hs; try done.
      split_and!; try done.
      + destruct H1 as (el & path & ? & ? & Hlen). eexists _, _.
        split_and!; [done..|]. rewrite Hlen. lia.
      + intros k Hk. rewrite <- Hothers by done. by apply H4. }
  destruct H1 as (Ht & Hm & He & Hp & Hel & Hothers).
  destruct (Hgen 1%nat a1 Ht Hm He Hp Hel) as (G1 & G2 & G3 & G4).
  split_and!; try done.
  intros k Hk. rewrite <- Hothers by done. by apply G4.
Qed.

Lemma freedraw_gesture_path_length_witness :
  exists el path,
    App.objects
      (Gesture.moves Examples.collaborators
         [Examples.event (Fin 7) (Fin 1); Examples.event (Fin 9) (Fin 12)]
         (App.onCanvasPointerDown Examples.collaborators
            (Examples.event (Fin 5) (Fin 5)) (Examples.emptyApp Freedraw)))
    !! fresh (dom (App.objects (Examples.emptyApp Freedraw))) = Some el
    /\ Element.data el = freedraw path
    /\ length path = 3%nat.
Proof.
  apply (freedraw_gesture_path_length Examples.collaborators (Examples.emptyApp Freedraw)
           (Examples.event (Fin 5) (Fin 5))
           [Examples.event (Fin 7) (Fin 1); Examples.event (Fin 9) (Fin 12)]).
  - reflexivity.
  - reflexivity.
Defined.

(** ** Hit testing the scene *)

Lemma find_rev_snoc {A : Type} (f : A -> bool) (l : list A) (x : A) :
  List.find f (rev (l ++ [x])) = if f x then Some x else List.find f (rev l).
Proof. by rewrite rev_app_distr. Qed.

Lemma find_rev_topmost {A : Type} (f : A -> bool) (l : list A) :
  match List.find f (rev l) with
  | Some x =>
      exists below above,
        l = below ++ x :: above /\ f x = true /\ forall y, y ∈ above -> f y = false
  | None => forall y, y ∈ l -> f y = false
  end.
Proof.
  induction l as [|x l IH] using rev_ind.
  - cbn. by intros y Hy%elem_of_nil.
  - rewrite find_rev_snoc. destruct (f x) eqn:Hx.
    + exists l, []. split_and!; [done..|]. by intros y Hy%elem_of_nil.
    + destruct (List.find f (rev l)) as [z|].
      * destruct IH as (below & above & -> & Hz & Habove).
        exists below, (above ++ [x]). split_and!; [by rewrite <- app_assoc|done|].
        intros y [Hy | Hy%list_elem_of_singleton]%elem_of_app; [by apply Habove|].
        by subst y.
      * intros y [Hy | Hy%list_elem_of_singleton]%elem_of_app; [by apply IH|].
        by subst y.
Qed.

(** X19. [getFirstElementAtCoords] answers with the topmost hit: the
    element it returns is in the layer and is hit, and nothing painted
    after it (above it) is hit; it returns nothing only when no element of
    the layer is hit. *)
Theorem getFirstElementAtCoords_topmost (ext : Collaborators) (a : App.t)
    (coords : XYCoords.t) :
  match App.getFirstElementAtCoords ext a coords with
  | Some r =>
      exists below above,
        ElementLayer.getAllElements (App.elementLayer a) = below ++ r :: above
        /\ AppRest.hits ext a coords r = true
        /\ forall r', r' ∈ above -> AppRest.hits ext a coords r' = false
  | None =>
      forall r, r ∈ ElementLayer.getAllElements (App.elementLayer a) ->
                AppRest.hits ext a coords r = false
  end.
Proof.
  unfold App.getFirstElementAtCoords.
  apply (find_rev_topmost (AppRest.hits ext a coords)).
Qed.

(** ** Releasing the pointer *)

(** X20. What [onWindowPointerUp] does on every path.  It fails only in
    mode [CREATING] with a pointer and no element under edit.  Otherwise,
    with a pointer, it ends the gesture: no pointer, no transforming
    elements, no selection highlight; it never touches an element object,
    the zoom, the scroll offset, the tool or the grid, and never adds an
    element to the layer.  Without a pointer it does nothing. *)
Theorem onWindowPointerUp_ends_gesture (ext : Collaborators) (a : App.t) :
  match App.onWindowPointerUp ext a with
  | Some a' =>
      (App.pointer a = None -> a' = a)
      /\ (is_Some (App.pointer a) ->
          App.pointer a' = None /\ App.transformingElements a' = []
          /\ AppState.selectionHighlight (App.state a') = None)
      /\ App.objects a' = App.objects a
      /\ AppState.zoom (App.state a') = AppState.zoom (App.state a)
      /\ AppState.scrollOffset (App.state a') = AppState.scrollOffset (App.state a)
      /\ AppState.activeTool (App.state a') = AppState.activeTool (App.state a)
      /\ AppState.grid (App.state a') = AppState.grid (App.state a)
      /\ (forall r, r ∈ ElementLayer.getAllElements (App.elementLayer a') ->
                    r ∈ ElementLayer.getAllElements (App.elementLayer a))
  | None =>
      is_Some (App.pointer a)
      /\ AppState.usermode (App.state a) = CREATING
      /\ match App.editingElement a with
         | Some r => App.objects a !! r = None
         | None => True
         end
  end.
Proof.
  unfold App.onWindowPointerUp.
  destruct (App.pointer a) as [p|] eqn:Hp; [|by split_and!].
  destruct (AppState.usermode (App.state a)) eqn:Hmode;
    try (by split_and!; try done; intros [? [=]]).
  - destruct (App.editingElement a) as [r|]; [|done].
    destruct (App.objects a !! r) as [el|] eqn:Hel; [|done].
    destruct (Element.isText el); [by split_and!|].
    destruct (isElementNegligible ext el (App.state a)); [|by split_and!].
    split_and!; try done. cbn. intros r'. by intros [_ ?]%list_elem_of_filter.
  - destruct (negb (occurred (PointerState.drag p))); [|by split_and!].
    destruct (hitElement (PointerState.hit p)); by split_and!.
Qed.

(** ** Selecting with a box *)

Lemma selectElements_selected (rs : list ref) (l : ElementLayer.t) (r : ref) :
  r ∈ ElementLayer.getSelectedElements (ElementLayer.selectElements rs l)
  <-> r ∈ ElementLayer.getSelectedElements l
      \/ (r ∈ ElementLayer.getAllElements l /\ r ∈ rs).
Proof.
  unfold ElementLayer.getSelectedElements, ElementLayer.selectElements,
    ElementLayer.getAllElements.
  cbn [ElementLayer.elements ElementLayer.selected].
  rewrite !list_elem_of_filter, elem_of_app, list_elem_of_filter.
  destruct (decide (r ∈ ElementLayer.selected l)); tauto.
Qed.

(** X21. A pointer move in mode [IDLE] (any tool but Hand) draws the
    selection box.  On a finite state the highlight is the box spanned by
    the virtual press position and the virtual pointer position, whichever
    way the pointer went; no element object changes; and the selection
    only grows: what was selected stays selected, and the elements of the
    layer that the box hits are added. *)
Theorem marquee_selection (ext : Collaborators) (e : PointerEvent.t) (a : App.t)
    (p : PointerState.t) (z sx sy ox oy ex ey : R) :
  App.pointer a = Some p ->
  AppState.activeTool (App.state a) <> Hand ->
  AppState.usermode (App.state a) = IDLE ->
  AppState.zoom (App.state a) = Fin z -> z <> 0 ->
  AppState.scrollOffset (App.state a) = XYCoords.mk (Fin sx) (Fin sy) ->
  PointerState.origin p = XYCoords.mk (Fin ox) (Fin oy) ->
  Gesture.at_ e ex ey ->
  let a' := App.onWindowPointerMove ext e a in
  let box :=
    BoundingBox.mk
      (Fin (Rmin ((ox - sx) / z) ((ex - sx) / z)))
      (Fin (Rmin ((oy - sy) / z) ((ey - sy) / z)))
      (Fin (Rabs ((ex - ox) / z)))
      (Fin (Rabs ((ey - oy) / z))) in
  AppState.selectionHighlight (App.state a') = Some box
  /\ App.objects a' = App.objects a
  /\ AppState.usermode (App.state a') = IDLE
  /\ forall r,
       r ∈ ElementLayer.getSelectedElements (App.elementLayer a')
       <-> r ∈ ElementLayer.getSelectedElements (App.elementLayer a)
           \/ (r ∈ ElementLayer.getAllElements (App.elementLayer a)
               /\ exists el,
                    App.objects a !! r = Some el
                    /\ hitTestElementAgainstUnrotatedBox ext el box = true).
Proof.
  intros Hp Htool Hmode Hz Hz0 Hscroll Ho [Hex Hey] a' box. subst a'.
  assert (Hbox :
    Utils.box
      (Utils.invertNegativeBoundingBox
         (BoundingBox.mk (Fin ((ox + - sx) / z)) (Fin ((oy + - sy) / z))
            (Fin ((ex + - ox) / z)) (Fin ((ey + - oy) / z))))
    = box).
  { rewrite invertNegativeBoundingBox_fin. cbn [Utils.box]. subst box.
    replace ((ex - sx) / z) with ((ox + - sx) / z + (ex + - ox) / z) by (by field).
    replace ((ey - sy) / z) with ((oy + - sy) / z + (ey + - oy) / z) by (by field).
    replace ((ox - sx) / z) with ((ox + - sx) / z) by (by field).
    replace ((oy - sy) / z) with ((oy + - sy) / z) by (by field).
    replace ((ex - ox) / z) with ((ex + - ox) / z) by (by field).
    replace ((ey - oy) / z) with ((ey + - oy) / z) by (by field).
    f_equal; f_equal; real_cases. }
  unfold App.onWindowPointerMove. rewrite Hp. cbv zeta.
  change (App.state (App.setPointer (Some (App.dragTo e p)) a)) with (App.state a).
  rewrite Hmode.
  assert (Hmove :
    (let o := Viewport.screenOffsetToVirtualOffset
                (PointerState.origin (App.dragTo e p)) (App.state a) in
     Utils.box
       (Utils.invertNegativeBoundingBox
          (BoundingBox.mk (XYCoords.x o) (XYCoords.y o)
             (XYCoords.x (offset (PointerState.drag (App.dragTo e p)))
              / AppState.zoom (App.state a))%num
             (XYCoords.y (offset (PointerState.drag (App.dragTo e p)))
              / AppState.zoom (App.state a))%num)))
    = box).
  { rewrite <- Hbox. unfold Viewport.screenOffsetToVirtualOffset, App.dragTo.
    cbn [PointerState.origin PointerState.setDrag PointerState.drag offset
         XYCoords.x XYCoords.y].
    rewrite Hz, Hscroll, Ho, Hex, Hey. unfold Num.sub.
    cbn [XYCoords.x XYCoords.y Num.neg Num.add]. by rewrite !div_fin. }
  cbv zeta in Hmove.
  destruct (AppState.activeTool (App.state a)) eqn:Ht; try done;
    rewrite Hmove;
    (split_and!; [done..|]);
    intros r; cbn [App.elementLayer App.setLayer App.setState App.setPointer];
    rewrite selectElements_selected; unfold App.getAllElementsWithinBox;
    rewrite (list_elem_of_In (List.filter _ _)), filter_In, <- list_elem_of_In;
    cbn [App.objects App.setState App.setPointer App.elementLayer];
    (split; (intros [H | [H1 H2]]; [by left|right; split; [done|]]));
    try (destruct H2 as [_ H2]; destruct (App.objects a !! r) as [el|]; [by exists el|done]);
    try (destruct H2 as (el & -> & H2); by split).
Qed.

Lemma marquee_selection_witness :
  AppState.selectionHighlight
    (App.state
       (App.onWindowPointerMove Examples.collaborators (Examples.event (Fin 4) (Fin 30))
          (App.setPointer (Some (Examples.pointerAt (Fin 10) (Fin 20)))
             Examples.strokeAndDot)))
  = Some (BoundingBox.mk
            (Fin (Rmin ((10 - 10) / 2) ((4 - 10) / 2)))
            (Fin (Rmin ((20 - 20) / 2) ((30 - 20) / 2)))
            (Fin (Rabs ((4 - 10) / 2)))
            (Fin (Rabs ((30 - 20) / 2)))).
Proof.
  apply (marquee_selection Examples.collaborators (Examples.event (Fin 4) (Fin 30))
           (App.setPointer (Some (Examples.pointerAt (Fin 10) (Fin 20)))
              Examples.strokeAndDot)
           (Examples.pointerAt (Fin 10) (Fin 20)) 2 10 20 10 20 4 30).
  - reflexivity.
  - discriminate.
  - reflexivity.
  - reflexivity.
  - lra.
  - reflexivity.
  - reflexivity.
  - split; reflexivity.
Defined.

(** ** The design menu *)

(** without a new size the factor is 1, whatever the old size *)
Lemma designMenuScale_none (size : number) :
  Num.neqb (App.designMenuScale None size) (Fin 1) = false.
Proof.
  unfold App.designMenuScale. cbn [default].
  destruct size as [r| | |];
    try (by cbn; unfold Num.neqb, Num.eqb; rewrite bool_decide_eq_true_2).
  cbn [Num.div]. destruct (decide (r = 0)) as [-> | Hr].
  - unfold Num.sgn. rewrite decide_True by done. cbn.
    unfold Num.neqb, Num.eqb. by rewrite bool_decide_eq_true_2.
  - cbn. unfold Num.neqb, Num.eqb. rewrite bool_decide_eq_true_2; [done|]. by field.
Qed.

Lemma applyMutations_idempotent (m : Mutations.t) (el : Element.t) :
  ElementLayer.applyMutations m (ElementLayer.applyMutations m el)
  = ElementLayer.applyMutations m el.
Proof.
  unfold ElementLayer.applyMutations.
  cbn [Element.x Element.y Element.w Element.h Element.rotate Element.flippedX
       Element.flippedY Element.fill Element.data].
  f_equal;
    try match goal with
        | |- default (default _ ?o) ?o = _ => by destruct o
        end.
  destruct (Element.data el); [done|..]; f_equal;
    match goal with
    | |- default (default _ ?o) ?o = _ => by destruct o
    end.
Qed.


(** X22. A design-menu patch that sets neither width nor height never
    rescales a path: every scale factor is 1, whatever the size of the
    element (zero, infinite and [NaN] included).  The loop leaves the patch
    object as it got it and hands the same patch to every listed element
    once (a repeated element is patched to the same effect); elements not
    listed are untouched. *)
Theorem onDesignMenuUpdate_without_size (elements : list ref) (m : Mutations.t)
    (a : App.t) :
  Mutations.w m = None -> Mutations.h m = None ->
  (App.designMenuLoop elements m a).1 = m
  /\ forall k,
       App.objects (App.onDesignMenuUpdate elements m a) !! k
       = if bool_decide (k ∈ elements)
         then ElementLayer.applyMutations m <$> App.objects a !! k
         else App.objects a !! k.
Proof.
  intros Hw Hh. unfold App.onDesignMenuUpdate, App.designMenuLoop.
  induction elements as [|r elements IH] using rev_ind; [done|].
  rewrite foldl_app. cbn [foldl].
  destruct (foldl App.designMenuStep (m, a) elements) as [m1 a1].
  cbn [fst snd] in IH. destruct IH as [-> IH].
  unfold App.designMenuStep.
  destruct (App.objects a1 !! r) as [el|] eqn:Hel.
  - assert (Hm :
      match Element.data el with
      | freedraw path =>
          if (Num.neqb (App.designMenuScale (Mutations.w m) (Element.w el)) (Fin 1)
              || Num.neqb (App.designMenuScale (Mutations.h m) (Element.h el)) (Fin 1))%bool
          then Mutations.setPath
                 (Elements.rescalePath path
                    (App.designMenuScale (Mutations.w m) (Element.w el))
                    (App.designMenuScale (Mutations.h m) (Element.h el)) (Fin 0) (Fin 0)) m
          else m
      | _ => m
      end = m).
    { destruct (Element.data el); try done.
      by rewrite Hw, Hh, !designMenuScale_none. }
    cbv zeta. rewrite Hm. cbn [fst snd]. split; [done|].
    intros k. cbn [App.mutateElement App.setObjects App.objects].
    unfold ElementLayer.mutateElement.
    destruct (decide (k = r)) as [-> | Hk].
    + rewrite lookup_alter_eq, IH.
      rewrite (bool_decide_eq_true_2 (r ∈ elements ++ [r]))
        by (rewrite elem_of_app, list_elem_of_singleton; tauto).
      case_bool_decide; [|done].
      destruct (App.objects a !! r); [|done]. cbn.
      by rewrite applyMutations_idempotent.
    + rewrite lookup_alter_ne, IH by done.
      destruct (decide (k ∈ elements)).
      * by rewrite !bool_decide_eq_true_2
          by (rewrite ?elem_of_app, ?list_elem_of_singleton; tauto).
      * by rewrite !bool_decide_eq_false_2
          by (rewrite ?elem_of_app, ?list_elem_of_singleton; tauto).
  - cbn [fst snd]. split; [done|]. intros k. rewrite IH.
    destruct (decide (k = r)) as [-> | Hk].
    + rewrite IH in Hel. rewrite (bool_decide_eq_true_2 (r ∈ elements ++ [r]))
        by (rewrite elem_of_app, list_elem_of_singleton; tauto).
      case_bool_decide.
      * by destruct (App.objects a !! r).
      * by rewrite Hel.
    + destruct (decide (k ∈ elements)).
      * by rewrite !bool_decide_eq_true_2
          by (rewrite ?elem_of_app, ?list_elem_of_singleton; tauto).
      * by rewrite !bool_decide_eq_false_2
          by (rewrite ?elem_of_app, ?list_elem_of_singleton; tauto).
Qed.

Lemma onDesignMenuUpdate_without_size_witness :
  let fillPatch :=
    Mutations.mk None None None None None None None (Some "red"%string) None None in
  (App.designMenuLoop [0%nat; 1%nat] fillPatch Examples.strokeAndDot).1 = fillPatch
  /\ forall k,
       App.objects (App.onDesignMenuUpdate [0%nat; 1%nat] fillPatch Examples.strokeAndDot)
       !! k
       = if bool_decide (k ∈ [0%nat; 1%nat])
         then ElementLayer.applyMutations fillPatch
              <$> App.objects Examples.strokeAndDot !! k
         else App.objects Examples.strokeAndDot !! k.
Proof.
  intros fillPatch.
  apply (onDesignMenuUpdate_without_size [0%nat; 1%nat] fillPatch Examples.strokeAndDot).
  - reflexivity.
  - reflexivity.
Defined.

(** X23. Resizing one freedraw element through the design menu.  For an
    element of finite size, not zero, and a patch whose new size is finite,
    the path is rescaled about the element origin by the ratios of the new
    to the old width and height; when the size does not change the path is
    the one of the patch, or else stays.  The element gets the new size. *)
Theorem onDesignMenuUpdate_rescales (m : Mutations.t) (a : App.t) (r : ref)
    (el : Element.t) (path : list Point) (w0 h0 w1 h1 : R) :
  App.objects a !! r = Some el ->
  Element.data el = freedraw path ->
  Element.w el = Fin w0 -> Element.h el = Fin h0 -> w0 <> 0 -> h0 <> 0 ->
  default (Element.w el) (Mutations.w m) = Fin w1 ->
  default (Element.h el) (Mutations.h m) = Fin h1 ->
  exists el',
    App.objects (App.onDesignMenuUpdate [r] m a) !! r = Some el'
    /\ Element.w el' = Fin w1 /\ Element.h el' = Fin h1
    /\ Element.data el'
       = freedraw
           (if bool_decide (w1 = w0 /\ h1 = h0)
            then default path (Mutations.path m)
            else Elements.rescalePath path (Fin (w1 / w0)) (Fin (h1 / h0))
                   (Fin 0) (Fin 0)).
Proof.
  intros Hel Hdata Hw Hh Hw0 Hh0 Hw1 Hh1.
  assert (Hsx : App.designMenuScale (Mutations.w m) (Element.w el) = Fin (w1 / w0)).
  { unfold App.designMenuScale. rewrite Hw in *. rewrite Hw1. by rewrite div_fin. }
  assert (Hsy : App.designMenuScale (Mutations.h m) (Element.h el) = Fin (h1 / h0)).
  { unfold App.designMenuScale. rewrite Hh in *. rewrite Hh1. by rewrite div_fin. }
  assert (Hratio : forall u v : R, v <> 0 -> u / v = 1 <-> u = v).
  { intros u v Hv. split; [|intros ->; by field].
    intros H. apply (f_equal (fun t => t * v)) in H.
    unfold Rdiv in H. rewrite Rmult_assoc, Rinv_l in H by done. lra. }
  unfold App.onDesignMenuUpdate, App.designMenuLoop. cbn [foldl].
  unfold App.designMenuStep. rewrite Hel, Hdata. cbv zeta. rewrite Hsx, Hsy.
  unfold Num.neqb, Num.eqb.
  cbn [snd App.mutateElement App.setObjects App.objects].
  unfold ElementLayer.mutateElement. rewrite lookup_alter_eq, Hel.
  cbn [fmap option_fmap option_map]. eexists. split; [reflexivity|].
  unfold ElementLayer.applyMutations. cbn [Element.w Element.h Element.data].
  rewrite Hdata.
  destruct (decide (w1 = w0 /\ h1 = h0)) as [[H1 H2] | Hsame].
  - rewrite (bool_decide_eq_true_2 (w1 = w0 /\ h1 = h0)) by done.
    rewrite (bool_decide_eq_true_2 (w1 / w0 = 1)) by (by apply Hratio).
    rewrite (bool_decide_eq_true_2 (h1 / h0 = 1)) by (by apply Hratio).
    cbn [negb orb]. by rewrite Hw1, Hh1.
  - rewrite (bool_decide_eq_false_2 (w1 = w0 /\ h1 = h0)) by done.
    assert (Hne : (negb (bool_decide (w1 / w0 = 1)) || negb (bool_decide (h1 / h0 = 1)))%bool
                  = true).
    { apply orb_true_iff.
      destruct (decide (w1 = w0)) as [-> | Hne1].
      - right. rewrite bool_decide_eq_false_2; [done|].
        intros H. apply Hsame. split; [done|]. by apply (Hratio h1 h0 Hh0).
      - left. rewrite bool_decide_eq_false_2; [done|].
        intros H. by apply Hne1, (Hratio w1 w0 Hw0). }
    rewrite Hne. cbn [Mutations.setPath Mutations.w Mutations.h Mutations.path default].
    by rewrite Hw1, Hh1.
Qed.

Lemma onDesignMenuUpdate_rescales_witness :
  exists el',
    App.objects (App.onDesignMenuUpdate [0%nat] Examples.widthPatch Examples.strokeAndDot)
    !! 0%nat = Some el'
    /\ Element.w el' = Fin 20 /\ Element.h el' = Fin 10
    /\ Element.data el'
       = freedraw
           (if bool_decide (20 = 10 /\ 10 = 10)
            then default [(Fin 0, Fin 0); (Fin 5, Fin 0); (Fin 5, Fin 5)]
                   (Mutations.path Examples.widthPatch)
            else Elements.rescalePath [(Fin 0, Fin 0); (Fin 5, Fin 0); (Fin 5, Fin 5)]
                   (Fin (20 / 10)) (Fin (10 / 10)) (Fin 0) (Fin 0)).
Proof.
  apply (onDesignMenuUpdate_rescales Examples.widthPatch Examples.strokeAndDot 0%nat
           Examples.stroke [(Fin 0, Fin 0); (Fin 5, Fin 0); (Fin 5, Fin 5)] 10 10 20 10).
  - apply lookup_insert_eq.
  - reflexivity.
  - reflexivity.
  - reflexivity.
  - lra.
  - lra.
  - reflexivity.
  - reflexivity.
Defined.

(** ** What a pointer move leaves alone *)

Lemma keepsScene_refl (a : App.t) : AppRest.keepsScene a a.
Proof. by repeat split. Qed.

Lemma keepsScene_trans (a b c : App.t) :
  AppRest.keepsScene a b -> AppRest.keepsScene b c -> AppRest.keepsScene a c.
Proof.
  unfold AppRest.keepsScene. intros (?&?&?&?&?&?&?&?) (?&?&?&?&?&?&?&?).
  split_and!; congruence.
Qed.

Lemma keepsScene_mutateElement (r : ref) (m : Mutations.t) (a : App.t) :
  AppRest.keepsScene a (App.mutateElement r m a).
Proof.
  split_and!; try done. cbn. unfold ElementLayer.mutateElement. apply dom_alter_L.
Qed.

Lemma keepsScene_foldl {A : Type} (step : App.t -> A -> App.t) (l : list A) (a : App.t) :
  (forall acc x, AppRest.keepsScene acc (step acc x)) ->
  AppRest.keepsScene a (foldl step a l).
Proof.
  intros Hstep. revert a. induction l as [|x l IH]; intros a; [apply keepsScene_refl|].
  cbn [foldl]. eapply keepsScene_trans; [apply Hstep|apply IH].
Qed.

Lemma keepsScene_onElementCreation (c : bool) (p : PointerState.t) (r : ref) (a : App.t) :
  AppRest.keepsScene a (App.onElementCreation c p r a).
Proof.
  unfold App.onElementCreation.
  destruct (App.objects a !! r) as [el|]; [|apply keepsScene_refl].
  destruct (Element.data el);
    first [apply keepsScene_mutateElement | apply keepsScene_refl].
Qed.

(** X24. A pointer move never adds or removes an element and never
    changes the paint order, the tool, the mode, the zoom, the grid, the
    element under edit or the snapshots of the gesture, whatever the mode
    and whatever the helpers of [core/elements] and [core/hitTest] answer;
    without a pointer it changes nothing at all; with one, the pointer
    keeps its origin, its keys and its hit and records the drag. *)
Theorem onWindowPointerMove_keepsScene (ext : Collaborators) (e : PointerEvent.t)
    (a : App.t) :
  let a' := App.onWindowPointerMove ext e a in
  AppRest.keepsScene a a'
  /\ match App.pointer a with
     | None => a' = a
     | Some p => App.pointer a' = Some (App.dragTo e p)
     end.
Proof.
  intros a'. subst a'. unfold App.onWindowPointerMove.
  destruct (App.pointer a) as [p|] eqn:Hp; [|split; [apply keepsScene_refl|done]].
  cbv zeta.
  assert (H0 : AppRest.keepsScene a (App.setPointer (Some (App.dragTo e p)) a)
               /\ App.pointer (App.setPointer (Some (App.dragTo e p)) a)
                  = Some (App.dragTo e p)) by (by repeat split).
  revert H0. generalize (App.setPointer (Some (App.dragTo e p)) a). intros b [Hb Hpb].
  assert (Hfold : forall {A : Type} (step : App.t -> A -> App.t) (l : list A),
    (forall acc x, exists r m, step acc x = App.mutateElement r m acc) ->
    AppRest.keepsScene a (foldl step b l) /\ App.pointer (foldl step b l) = Some (App.dragTo e p)).
  { intros A step l Hstep. split.
    - eapply keepsScene_trans; [exact Hb|]. apply keepsScene_foldl.
      intros acc x. destruct (Hstep acc x) as (r & m & ->).
      apply keepsScene_mutateElement.
    - rewrite <- Hpb. clear -Hstep. revert b.
      induction l as [|x l IH]; intros b; [done|].
      cbn [foldl]. rewrite IH. by destruct (Hstep b x) as (r & m & ->). }
  destruct (AppState.activeTool (App.state b)) eqn:Htool;
    [by repeat split; try apply Hb|..];
    (destruct (AppState.usermode (App.state b)) eqn:Hmode;
     [ split; [eapply keepsScene_trans; [exact Hb|]; by repeat split|done]
     | destruct (App.editingElement b) as [r|]; [|by split];
       split;
       [ eapply keepsScene_trans; [exact Hb|apply keepsScene_onElementCreation]
       | unfold App.onElementCreation;
         destruct (App.objects b !! r) as [el|]; [|done];
         by destruct (Element.data el) ]
     | unfold App.onElementDrag; apply Hfold; intros; by eexists _, _
     | destruct (hitTransformHandle (PointerState.hit (App.dragTo e p))) as [handle|];
       [|by split];
       unfold App.onElementResize; apply Hfold; intros; by eexists _, _
     | destruct (hitTransformHandle (PointerState.hit (App.dragTo e p))) as [handle|];
       [|by split];
       destruct (handleType handle); [|by split];
       unfold App.onElementRotate; apply Hfold; intros; by eexists _, _ ]).
Qed.

(** ** Creating and editing text *)

(** during the creation of a text element a pointer move only records the drag *)
Lemma text_move (ext : Collaborators) (e : PointerEvent.t) (a1 : App.t)
    (p : PointerState.t) (r : ref) (el : Element.t) :
  AppState.activeTool (App.state a1) = Text ->
  AppState.usermode (App.state a1) = CREATING ->
  App.editingElement a1 = Some r ->
  App.objects a1 !! r = Some el ->
  Element.isText el = true ->
  App.onWindowPointerMove ext e (App.setPointer (Some p) a1)
  = App.setPointer (Some (App.dragTo e p)) a1.
Proof.
  intros Htool Hmode Hedit Hel Htext.
  unfold App.onWindowPointerMove. cbn [App.pointer App.setPointer]. cbv zeta.
  cbn [App.state App.editingElement App.setPointer]. rewrite Htool, Hmode, Hedit.
  unfold App.onElementCreation. cbn [App.objects App.setPointer]. rewrite Hel.
  unfold Element.isText in Htext. by destruct (Element.data el).
Qed.

(** X25. Creating a text element, from the press to the submit.  A
    press with the Text tool, any pointer moves and the release leave the
    text editor open on a new, empty text element; the moves change
    nothing of it.  Submitting then gives the element the submitted text,
    at the virtual press position (not snapped to the grid) with size
    zero, closes the editor and ends in mode [IDLE]; the element is in
    the layer and no other element object has changed. *)
Theorem text_creation_flow (ext : Collaborators) (a0 : App.t) (down : PointerEvent.t)
    (events : list PointerEvent.t) (content : string) :
  AppState.activeTool (App.state a0) = Text ->
  PointerEvent.buttons down = 1%nat ->
  let r := fresh (dom (App.objects a0)) in
  let position :=
    Viewport.screenOffsetToVirtualOffset
      (XYCoords.mk (PointerEvent.clientX down) (PointerEvent.clientY down))
      (App.state a0) in
  exists a1,
    App.dragGesture ext down events a0 = Some a1
    /\ App.creatingText a1 = true
    /\ App.objects a1 !! r
       = Some (Elements.createTextElement ""
                 (BoundingBox.mk (XYCoords.x position) (XYCoords.y position)
                    (Fin 0) (Fin 0)))
    /\ let a2 := App.onSubmit content a1 in
       App.objects a2 !! r
       = Some (Elements.createTextElement content
                 (BoundingBox.mk (XYCoords.x position) (XYCoords.y position)
                    (Fin 0) (Fin 0)))
       /\ AppState.usermode (App.state a2) = IDLE
       /\ App.editingElement a2 = None
       /\ App.rendersWysiwygEditor a2 = false
       /\ App.pointer a2 = None
       /\ r ∈ ElementLayer.getAllElements (App.elementLayer a2)
       /\ forall k, k <> r -> App.objects a2 !! k = App.objects a0 !! k.
Proof.
  intros Htool Hb r position.
  set (el0 := Elements.createTextElement ""
                (BoundingBox.mk (XYCoords.x position) (XYCoords.y position)
                   (Fin 0) (Fin 0))).
  unfold App.dragGesture.
  set (a1 := App.onCanvasPointerDown ext down a0).
  assert (H1 : AppState.activeTool (App.state a1) = Text
               /\ AppState.usermode (App.state a1) = CREATING
               /\ App.editingElement a1 = Some r
               /\ App.objects a1 !! r = Some el0
               /\ (forall k, k <> r -> App.objects a1 !! k = App.objects a0 !! k)
               /\ r ∈ ElementLayer.getAllElements (App.elementLayer a1)
               /\ exists p, a1 = App.setPointer (Some p) a1).
  { subst a1. unfold App.onCanvasPointerDown. rewrite Hb. cbn. rewrite Htool. cbn.
    split_and!; try done.
    - apply lookup_insert_eq.
    - intros k Hk. by apply lookup_insert_ne.
    - apply elem_of_app. right. by left.
    - by eexists. }
  clearbody a1. destruct H1 as (Ht & Hm & He & Hel & Hothers & Hlayer & (p0 & Hp0)).
  assert (Hmoves : forall a p, a = App.setPointer (Some p) a1 ->
            exists p', foldl (fun acc e => App.onWindowPointerMove ext e acc) a events
                       = App.setPointer (Some p') a1).
  { induction events as [|e events IH]; intros a p ->; [by exists p|].
    cbn [foldl]. rewrite (text_move ext e a1 p r el0) by done. by eapply IH. }
  destruct (Hmoves a1 p0 Hp0) as (p & ->).
  unfold App.onWindowPointerUp. cbn [App.pointer App.setPointer App.state App.editingElement
                                     App.objects].
  rewrite Hm, He, Hel. cbn [Element.isText Element.data el0 Elements.createTextElement
                             Elements.createElement].
  eexists. split; [reflexivity|].
  unfold App.creatingText, App.rendersWysiwygEditor, App.onSubmit.
  cbn [App.state App.setState App.setPointer App.setTransformingElements
       App.setEditingElement App.editingElement App.objects App.pointer
       App.elementLayer AppState.usermode AppState.setSelectionHighlight
       AppState.setUsermode App.mutateElement App.setObjects].
  rewrite Hel. cbn [fmap option_fmap option_map Element.isText Element.data el0
                    Elements.createTextElement Elements.createElement].
  split_and!; try done.
  - cbn [App.objects App.setState App.setPointer App.setTransformingElements
         App.setEditingElement App.mutateElement App.setObjects].
    unfold ElementLayer.mutateElement. by rewrite lookup_alter_eq, Hel.
  - intros k Hk.
    cbn [App.objects App.setState App.setPointer App.setTransformingElements
         App.setEditingElement App.mutateElement App.setObjects].
    unfold ElementLayer.mutateElement.
    rewrite lookup_alter_ne by done. by apply Hothers.
Qed.

Lemma text_creation_flow_witness :
  exists a1,
    App.dragGesture Examples.collaborators (Examples.event (Fin 30) (Fin 40))
      [Examples.event (Fin 31) (Fin 42)] (Examples.emptyApp Text) = Some a1
    /\ App.objects (App.onSubmit "hello" a1)
       !! fresh (dom (App.objects (Examples.emptyApp Text)))
       = Some (Elements.createTextElement "hello"
                 (BoundingBox.mk ((Fin 30 - Fin 10) / Fin 2) ((Fin 40 - Fin 20) / Fin 2)
                    (Fin 0) (Fin 0)))%num.
Proof.
  destruct (text_creation_flow Examples.collaborators (Examples.emptyApp Text)
              (Examples.event (Fin 30) (Fin 40)) [Examples.event (Fin 31) (Fin 42)]
              "hello")
    as (a1 & H1 & _ & _ & H2 & _).
  - reflexivity.
  - reflexivity.
  - exists a1. split; [exact H1|exact H2].
Defined.

(** X26. Editing a text element.  With the Selection tool a double
    click whose topmost hit is a text element opens the editor on it and
    changes nothing else; submitting then replaces the text of that
    element and nothing else of it, closes the editor and sets the mode to
    [IDLE]; the other element objects and the layer are untouched. *)
Theorem dblclick_then_submit (ext : Collaborators) (e : PointerEvent.t) (a : App.t)
    (r : ref) (el : Element.t) (old content : string) :
  AppState.activeTool (App.state a) = Selection ->
  App.getFirstElementAtCoords ext a
    (Viewport.screenOffsetToVirtualOffset
       (XYCoords.mk (PointerEvent.clientX e) (PointerEvent.clientY e)) (App.state a))
  = Some r ->
  App.objects a !! r = Some el ->
  Element.data el = text old ->
  let a1 := AppRest.onCanvasDblClick ext e a in
  let a2 := App.onSubmit content a1 in
  a1 = App.setEditingElement (Some r) a
  /\ App.rendersWysiwygEditor a1 = true
  /\ App.objects a2 !! r
     = Some (Element.mk (Element.x el) (Element.y el) (Element.w el) (Element.h el)
               (Element.rotate el) (Element.flippedX el) (Element.flippedY el)
               (Element.fill el) (text content))
  /\ (forall k, k <> r -> App.objects a2 !! k = App.objects a !! k)
  /\ App.editingElement a2 = None
  /\ App.rendersWysiwygEditor a2 = false
  /\ AppState.usermode (App.state a2) = IDLE
  /\ App.elementLayer a2 = App.elementLayer a.
Proof.
  intros Htool Hhit Hel Hdata a1 a2.
  assert (Htext : Element.isText el = true) by (unfold Element.isText; by rewrite Hdata).
  assert (H1 : a1 = App.setEditingElement (Some r) a).
  { subst a1. unfold AppRest.onCanvasDblClick. rewrite Htool. cbv zeta.
    rewrite Hhit, Hel. cbn [fmap option_fmap option_map]. by rewrite Htext. }
  subst a2. rewrite H1. clear H1 a1.
  unfold App.rendersWysiwygEditor, App.onSubmit.
  cbn [App.editingElement App.setEditingElement App.objects].
  rewrite Hel. cbn [fmap option_fmap option_map]. rewrite Htext.
  cbn [App.state App.setState App.setEditingElement App.editingElement App.objects
       App.elementLayer App.mutateElement App.setObjects AppState.usermode
       AppState.setUsermode].
  unfold ElementLayer.mutateElement. split_and!; try done.
  - rewrite lookup_alter_eq, Hel. cbn [fmap option_fmap option_map]. f_equal.
    unfold ElementLayer.applyMutations. cbn. by rewrite Hdata.
  - intros k Hk. by rewrite lookup_alter_ne.
Qed.

Lemma dblclick_then_submit_witness :
  App.objects
    (App.onSubmit "new"
       (AppRest.onCanvasDblClick MoreExamples.hitEverything
          (Examples.event (Fin 30) (Fin 40)) MoreExamples.labelled))
  !! 1%nat
  = Some (Elements.createTextElement "new"
            (Examples.box (Fin 5) (Fin 5) (Fin 30) (Fin 10))).
Proof.
  apply (dblclick_then_submit MoreExamples.hitEverything
           (Examples.event (Fin 30) (Fin 40)) MoreExamples.labelled 1%nat
           MoreExamples.label "old" "new").
  - reflexivity.
  - unfold App.getFirstElementAtCoords. cbn [rev app List.find MoreExamples.labelled
      ElementLayer.getAllElements ElementLayer.elements App.elementLayer App.objects].
    rewrite lookup_insert_ne by done. by rewrite lookup_singleton_eq.
  - unfold MoreExamples.labelled. cbn [App.objects].
    rewrite lookup_insert_ne by done. apply lookup_singleton_eq.
  - reflexivity.
Defined.

(** ** The hit region of an ellipse *)

Lemma div_le_1 (x y : R) : 0 < y -> x / y <= 1 <-> x <= y.
Proof.
  intros Hy. assert (Hx : x / y * y = x) by (field; lra).
  split; intros H; [nra|].
  destruct (Rle_dec (x / y) 1); [done|]. exfalso. nra.
Qed.

(** the value [hitTest] compares with 1, cleared of its denominators *)
Lemma ellipse_value_le (U V A B : R) :
  0 < A -> 0 < B -> U / A + V / B <= 1 <-> U * B + V * A <= A * B.
Proof.
  intros HA HB.
  replace (U / A + V / B) with ((U * B + V * A) / (A * B)) by (field; lra).
  apply div_le_1. nra.
Qed.

(** [hitTest] on finite numbers, for an ellipse of width and height not zero *)
Lemma hitTest_fin (x y w h rotate px py : R) :
  w <> 0 -> h <> 0 ->
  let cx := x + w / 2 in
  let cy := y + h / 2 in
  let u := cos (- rotate) * (px - cx) - sin (- rotate) * (py - cy) in
  let v := sin (- rotate) * (px - cx) + cos (- rotate) * (py - cy) in
  EllipseHandler.hitTest
    (RotatedBoundingBox.mk (Fin x) (Fin y) (Fin w) (Fin h) (Fin rotate))
    (XYCoords.mk (Fin px) (Fin py))
  = bool_decide (u * u / (w / 2 * (w / 2)) + v * v / (h / 2 * (h / 2)) <= 1).
Proof.
  intros Hw Hh cx cy u v.
  unfold EllipseHandler.hitTest, EllipseHandler.rotatePoint,
    Utils.rotatePointAroundAnchor.
  cbn [RotatedBoundingBox.x RotatedBoundingBox.y RotatedBoundingBox.w
       RotatedBoundingBox.h RotatedBoundingBox.rotate XYCoords.x XYCoords.y].
  rewrite !div_fin_2. unfold Num.sub.
  cbn [Num.neg Num.add Num.cos Num.sin Num.mul Num.sq].
  rewrite !div_fin by nra.
  cbn [Num.add Num.leb]. apply bool_decide_ext.
  subst u v cx cy.
  match goal with
  | |- ?a / _ + ?c / _ <= 1 <-> ?a' / _ + ?c' / _ <= 1 =>
      replace a with a' by ring; replace c with c' by ring
  end.
  done.
Qed.

(** X27. The hit region of an ellipse, whatever its rotation, lies
    between two discs about its centre: a point that is hit is no farther
    from the centre than the larger radius, and every point no farther
    than the smaller radius is hit.  For a circle ([w = h]) the hit region
    is exactly the disc, boundary included. *)
Theorem ellipse_hitTest_between_discs (x y w h rotate px py : R) :
  w <> 0 -> h <> 0 ->
  let element := RotatedBoundingBox.mk (Fin x) (Fin y) (Fin w) (Fin h) (Fin rotate) in
  let coords := XYCoords.mk (Fin px) (Fin py) in
  let d2 := (px - (x + w / 2)) * (px - (x + w / 2))
            + (py - (y + h / 2)) * (py - (y + h / 2)) in
  let rX2 := w / 2 * (w / 2) in
  let rY2 := h / 2 * (h / 2) in
  (EllipseHandler.hitTest element coords = true -> d2 <= Rmax rX2 rY2)
  /\ (d2 <= Rmin rX2 rY2 -> EllipseHandler.hitTest element coords = true)
  /\ (w = h -> EllipseHandler.hitTest element coords = bool_decide (d2 <= rX2)).
Proof.
  intros Hw Hh element coords d2 rX2 rY2. subst element coords.
  rewrite (hitTest_fin x y w h rotate px py Hw Hh). cbv zeta.
  set (u := cos (- rotate) * (px - (x + w / 2)) - sin (- rotate) * (py - (y + h / 2))).
  set (v := sin (- rotate) * (px - (x + w / 2)) + cos (- rotate) * (py - (y + h / 2))).
  fold rX2 rY2.
  assert (HA : 0 < rX2) by (subst rX2; nra).
  assert (HB : 0 < rY2) by (subst rY2; nra).
  assert (Hd : u * u + v * v = d2).
  { subst u v d2. pose proof (sin2_cos2 (- rotate)) as H. unfold Rsqr in H.
    transitivity ((sin (- rotate) * sin (- rotate) + cos (- rotate) * cos (- rotate))
                  * ((px - (x + w / 2)) * (px - (x + w / 2))
                     + (py - (y + h / 2)) * (py - (y + h / 2)))); [ring|].
    rewrite H. ring. }
  assert (HU : 0 <= u * u) by nra.
  assert (HV : 0 <= v * v) by nra.
  assert (Hcircle : w = h -> rY2 = rX2) by (by intros ->).
  clearbody u v d2 rX2 rY2. subst d2.
  split_and!.
  - intros H%bool_decide_eq_true. apply ellipse_value_le in H; [|done..].
    unfold Rmax. destruct (Rle_dec rX2 rY2); nra.
  - intros H. apply bool_decide_eq_true, ellipse_value_le; [done..|].
    revert H. unfold Rmin. destruct (Rle_dec rX2 rY2); nra.
  - intros Hwh. rewrite (Hcircle Hwh).
    apply bool_decide_ext. rewrite ellipse_value_le by done. split; intros H; nra.
Qed.

Lemma ellipse_hitTest_between_discs_witness :
  EllipseHandler.hitTest
    (RotatedBoundingBox.mk (Fin 10) (Fin 20) (Fin 4) (Fin 2) (Fin 1))
    (XYCoords.mk (Fin 12) (Fin (43 / 2)))
  = true.
Proof.
  destruct (ellipse_hitTest_between_discs 10 20 4 2 1 12 (43 / 2)) as (_ & H & _).
  - lra.
  - lra.
  - apply H. unfold Rmin. destruct (Rle_dec _ _); lra.
Defined.

(** ** Dragging the selection *)

Lemma onElementDrag_rest (eCtrlKey : bool) (p : PointerState.t)
    (els : list TransformingElement) (a : App.t) :
  let a' := App.onElementDrag eCtrlKey p els a in
  App.editingElement a' = App.editingElement a
  /\ App.transformingElements a' = App.transformingElements a.
Proof.
  intros a'. subst a'. unfold App.onElementDrag.
  match goal with
  | |- context [foldl _ a els] =>
      match goal with
      | |- context [XYCoords.x ?off] =>
          destruct (drag_fold_lookup off els a 0%nat) as (_ & _ & _ & He & Ht & _)
      end
  end.
  done.
Qed.

(** a drag sees of the state it starts from only the elements as they
    were before the gesture moved them *)
Lemma drag_after (c : bool) (p : PointerState.t) (els : list TransformingElement)
    (a b : App.t) :
  App.state b = App.state a ->
  (App.objects b = App.objects a
   \/ exists c1 p1, App.objects b = App.objects (App.onElementDrag c1 p1 els a)) ->
  App.objects (App.onElementDrag c p els b) = App.objects (App.onElementDrag c p els a).
Proof.
  intros Hs Hobjs. apply map_eq. intros k.
  pose proof (onElementDrag_objects c p els b k) as Hb.
  pose proof (onElementDrag_objects c p els a k) as Ha.
  cbv zeta in *. rewrite Hb, Ha, Hs.
  destruct Hobjs as [-> | (c1 & p1 & ->)]; [done|].
  pose proof (onElementDrag_objects c1 p1 els a k) as H1. cbv zeta in H1. rewrite H1.
  destruct (last (filter _ els)); [|done].
  by destruct (App.objects a !! k).
Qed.

Lemma drag_move (ext : Collaborators) (e : PointerEvent.t) (b : App.t)
    (q : PointerState.t) :
  App.pointer b = Some q ->
  AppState.activeTool (App.state b) <> Hand ->
  AppState.usermode (App.state b) = DRAGGING ->
  App.onWindowPointerMove ext e b
  = App.onElementDrag (PointerEvent.ctrlKey e) (App.dragTo e q)
      (App.transformingElements b) (App.setPointer (Some (App.dragTo e q)) b).
Proof.
  intros Hq Htool Hmode. unfold App.onWindowPointerMove. rewrite Hq. cbv zeta.
  change (App.state (App.setPointer (Some (App.dragTo e q)) b)) with (App.state b).
  rewrite Hmode. by destruct (AppState.activeTool (App.state b)).
Qed.

(** X28. The dragged elements follow the pointer.  In mode [DRAGGING]
    (any tool but Hand), after any pointer moves the element objects are
    those that a single [onElementDrag] to the last pointer position gives
    from the elements as they were at the press: the moves in between
    leave no trace.  The release then ends in mode [IDLE] and, a drag having
    occurred, leaves the selection and the elements as they are. *)
Theorem drag_gesture_follows_pointer (ext : Collaborators) (a : App.t)
    (p : PointerState.t) (events : list PointerEvent.t) (last : PointerEvent.t) :
  App.pointer a = Some p ->
  AppState.activeTool (App.state a) <> Hand ->
  AppState.usermode (App.state a) = DRAGGING ->
  let a' := Gesture.moves ext (events ++ [last]) a in
  App.objects a'
  = App.objects
      (App.onElementDrag (PointerEvent.ctrlKey last) (App.dragTo last p)
         (App.transformingElements a) a)
  /\ App.state a' = App.state a
  /\ App.elementLayer a' = App.elementLayer a
  /\ exists a'',
       App.onWindowPointerUp ext a' = Some a''
       /\ App.objects a'' = App.objects a'
       /\ App.elementLayer a'' = App.elementLayer a
       /\ AppState.usermode (App.state a'') = IDLE
       /\ App.pointer a'' = None.
Proof.
  intros Hp Htool Hmode a'.
  set (J := fun b : App.t =>
    App.state b = App.state a
    /\ App.transformingElements b = App.transformingElements a
    /\ App.elementLayer b = App.elementLayer a
    /\ (exists q, App.pointer b = Some q
                  /\ PointerState.origin q = PointerState.origin p)
    /\ (App.objects b = App.objects a
        \/ exists c1 p1,
             App.objects b
             = App.objects (App.onElementDrag c1 p1 (App.transformingElements a) a))).
  assert (Hstep : forall e b, J b ->
    J (App.onWindowPointerMove ext e b)
    /\ App.objects (App.onWindowPointerMove ext e b)
       = App.objects
           (App.onElementDrag (PointerEvent.ctrlKey e) (App.dragTo e p)
              (App.transformingElements a) a)
    /\ exists q, App.pointer (App.onWindowPointerMove ext e b) = Some q
                 /\ occurred (PointerState.drag q) = true).
  { intros e b (Hs & Ht & Hl & (q & Hq & Ho) & Hobjs).
    rewrite (drag_move ext e b q) by (by rewrite ?Hs).
    set (b1 := App.setPointer (Some (App.dragTo e q)) b).
    destruct (onElementDrag_frame (PointerEvent.ctrlKey e) (App.dragTo e q)
                (App.transformingElements b) b1) as (Hs1 & Hp1 & Hl1).
    destruct (onElementDrag_rest (PointerEvent.ctrlKey e) (App.dragTo e q)
                (App.transformingElements b) b1) as (_ & Ht1).
    assert (Hobjs1 :
      App.objects (App.onElementDrag (PointerEvent.ctrlKey e) (App.dragTo e q)
                     (App.transformingElements b) b1)
      = App.objects (App.onElementDrag (PointerEvent.ctrlKey e) (App.dragTo e p)
                       (App.transformingElements a) a)).
    { rewrite Ht. rewrite (drag_after _ _ _ a b1) by done.
      apply map_eq. intros k.
      pose proof (onElementDrag_objects (PointerEvent.ctrlKey e) (App.dragTo e q)
                    (App.transformingElements a) a k) as H1.
      pose proof (onElementDrag_objects (PointerEvent.ctrlKey e) (App.dragTo e p)
                    (App.transformingElements a) a k) as H2.
      cbv zeta in *. rewrite H1, H2. unfold App.dragTo.
      cbn [PointerState.drag PointerState.setDrag offset]. by rewrite Ho. }
    unfold J. split_and!.
    - by rewrite Hs1.
    - by rewrite Ht1.
    - by rewrite Hl1.
    - rewrite Hp1. eexists. split; [reflexivity|]. exact Ho.
    - right. eexists _, _. exact Hobjs1.
    - exact Hobjs1.
    - rewrite Hp1. eexists. split; [reflexivity|]. done. }
  assert (Hmoves : forall b, J b -> J (Gesture.moves ext events b)).
  { induction events as [|e events IH]; intros b Hb; [done|].
    cbn [Gesture.moves foldl]. apply IH, Hstep, Hb. }
  assert (Ha : J a) by (unfold J; split_and!; try done; [by eexists|by left]).
  subst a'. unfold Gesture.moves. rewrite foldl_app. cbn [foldl].
  destruct (Hstep last _ (Hmoves a Ha)) as ((Hs & Ht & Hl & _ & _) & Hobjs & (q & Hq & Hocc)).
  fold (Gesture.moves ext events a) in *.
  split_and!; try done.
  unfold App.onWindowPointerUp. rewrite Hq, Hs, Hmode, Hocc. cbn [negb].
  eexists. split; [reflexivity|]. by split_and!.
Qed.

Lemma drag_gesture_follows_pointer_witness :
  let a :=
    App.setState (AppState.setUsermode DRAGGING)
      (App.setTransformingElements
         (Elements.createTransformingElements (App.objects Examples.strokeAndDot)
            [0%nat])
         (App.setPointer (Some (Examples.pointerAt (Fin 10) (Fin 20)))
            Examples.strokeAndDot)) in
  App.objects
    (Gesture.moves Examples.collaborators
       ([Examples.event (Fin 50) (Fin 50)] ++ [Examples.event (Fin 13) (Fin 24)]) a)
  = App.objects
      (App.onElementDrag false
         (App.dragTo (Examples.event (Fin 13) (Fin 24))
            (Examples.pointerAt (Fin 10) (Fin 20)))
         (App.transformingElements a) a).
Proof.
  intros a.
  apply (drag_gesture_follows_pointer Examples.collaborators a
           (Examples.pointerAt (Fin 10) (Fin 20)) [Examples.event (Fin 50) (Fin 50)]
           (Examples.event (Fin 13) (Fin 24))).
  - reflexivity.
  - discriminate.
  - reflexivity.
Defined.
